(** * build-tools: the backport assistant and the goma provisioner

    A shallow embedding of [src/e-backport.js] (the [e backport] command
    followed by the goma helper module) and the properties of its
    specification.

    - [JS]       the ECMAScript built-ins the code relies on: strings as
                 sequences of UTF-16 code units, [parseInt(_, 10)],
                 Number-to-String conversion, [String.prototype.trim].
    - [Backport] the action of the [e backport] command.
    - [Goma]     the goma provisioning functions, over an explicit file
                 system, clock and record of external process results. *)

From Stdlib Require Import ZArith NArith List String Ascii Lia Bool.
From stdpp Require Import base decidable option list gmap strings.

Import ListNotations.

(* ===================================================================== *)
(** * ECMAScript strings and numbers                                      *)
(* ===================================================================== *)

Module JS.

Local Open Scope Z_scope.

(** A JavaScript string is a sequence of UTF-16 code units. *)
Definition jsstring := list N.

(** String literals of the source, as code units. *)
Definition js (s : string) : jsstring :=
  List.map N_of_ascii (list_ascii_of_string s).

(** [WhiteSpace] and [LineTerminator] of ECMA-262: what [parseInt] and
    [trim] skip, and what [\s] matches. *)
Definition is_white_space (c : N) : bool :=
  match c with
  | 9 | 10 | 11 | 12 | 13 | 32 | 160
  | 5760 | 8232 | 8233 | 8239 | 8287 | 12288 | 65279 => true
  | _ => (8192 <=? c) && (c <=? 8202)
  end%N.

Definition is_digit (c : N) : bool := ((48 <=? c) && (c <=? 57))%N.

Definition digit_value (c : N) : Z := Z.of_N c - 48.

Definition digit_char (d : Z) : N := Z.to_N (d + 48).

Fixpoint trim_start (s : jsstring) : jsstring :=
  match s with
  | c :: r => if is_white_space c then trim_start r else s
  | [] => []
  end.

(** [String.prototype.trim]. *)
Definition trim (s : jsstring) : jsstring :=
  rev (trim_start (rev (trim_start s))).

(** The longest prefix of decimal digits. *)
Fixpoint take_digits (s : jsstring) : jsstring :=
  match s with
  | c :: r => if is_digit c then c :: take_digits r else []
  | [] => []
  end.

(** The mathematical integer a digit sequence denotes in radix 10. *)
Definition digits_value (ds : jsstring) : Z :=
  fold_left (fun acc c => acc * 10 + digit_value c) ds 0.

(** The Number values [parseInt(_, 10)] can return: NaN, an infinity, or
    an integer-valued double given by sign and magnitude ([Fin true 0]
    is -0). *)
Inductive number :=
| NaN
| Inf (neg : bool)
| Fin (neg : bool) (m : Z).

(** Round a non-negative integer to the nearest integer with a 53-bit
    significand, ties to even (the exponent is not bounded here). *)
Definition round53 (m : Z) : Z :=
  let e := Z.log2 m - 52 in
  if e <=? 0 then m
  else
    let q := Z.shiftr m e in
    let r := m - Z.shiftl q e in
    let half := Z.shiftl 1 (e - 1) in
    let q' := if r <? half then q
              else if half <? r then q + 1
              else if Z.even q then q else q + 1 in
    Z.shiftl q' e.

(** The Number value of a signed mathematical integer. *)
Definition to_number (neg : bool) (m : Z) : number :=
  let r := round53 m in
  if 2 ^ 1024 <=? r then Inf neg else Fin neg r.

(** [parseInt(s, 10)]: skip leading white space, take an optional sign,
    then the longest digit prefix; no digit gives NaN. With radix 10
    given there is no hexadecimal prefix to strip. The mathematical
    value is taken exactly (as V8 does; ECMA-262 lets an implementation
    zero the digits after the 20th). *)
Definition parseInt (s : jsstring) : number :=
  let s1 := trim_start s in
  let '(neg, s2) :=
    match s1 with
    | c :: r => if (c =? 45)%N then (true, r)
                else if (c =? 43)%N then (false, r)
                else (false, s1)
    | [] => (false, [])
    end in
  match take_digits s2 with
  | [] => NaN
  | z => to_number neg (digits_value z)
  end.

Definition isNaN (x : number) : bool :=
  match x with NaN => true | _ => false end.

(** Decimal digits of a non-negative integer, most significant first. *)
Fixpoint dec_fuel (fuel : nat) (n : Z) (acc : jsstring) : jsstring :=
  let acc' := digit_char (n mod 10) :: acc in
  match fuel with
  | O => acc'
  | S f => if n <? 10 then acc' else dec_fuel f (n / 10) acc'
  end.

Definition dec (n : Z) : jsstring :=
  dec_fuel (Z.to_nat (Z.log2 n)) n [].

(** One step of the search for the shortest decimal that converts back
    to [x]: the multiples of [p] on either side of [x], the closer one
    first, the even one on a tie. *)
Definition candidate (x p : Z) : option Z :=
  let s := x / p in
  let lo := s * p in
  let hi := lo + p in
  let ok_lo := (0 <? s) && (round53 lo =? x) in
  let ok_hi := round53 hi =? x in
  match ok_lo, ok_hi with
  | true, true =>
      Some (if x - lo <? hi - x then lo
            else if hi - x <? x - lo then hi
            else if Z.even s then lo else hi)
  | true, false => Some lo
  | false, true => Some hi
  | false, false => None
  end.

(** Try scales 10^j from the largest down: the first hit has the fewest
    significant digits. At scale 1 the value itself is found. *)
Fixpoint shortest_scan (x : Z) (j : nat) : Z :=
  match j with
  | O => x
  | S j' =>
      match candidate x (10 ^ Z.of_nat j) with
      | Some v => v
      | None => shortest_scan x j'
      end
  end.

(** The integer [s * 10^(n-k)] of Number::toString: the decimal with
    the fewest significant digits whose Number value is [x]. *)
Definition shortest (x : Z) : Z :=
  shortest_scan x (length (dec x) - 1)%nat.

Fixpoint drop_zeros (s : jsstring) : jsstring :=
  match s with
  | c :: r => if (c =? 48)%N then drop_zeros r else s
  | [] => []
  end.

(** Exponential notation, used from 10^21 on: [d.ddde+NN]. *)
Definition exp_format (v : Z) : jsstring :=
  let ds := dec v in
  let e := Z.of_nat (length ds) - 1 in
  match rev (drop_zeros (rev ds)) with
  | [] => []
  | [d] => d :: js "e+" ++ dec e
  | d :: rest => d :: js "." ++ rest ++ js "e+" ++ dec e
  end.

(** Number::toString in radix 10, which a template literal applies. *)
Definition number_to_string (x : number) : jsstring :=
  match x with
  | NaN => js "NaN"
  | Inf neg => (if neg then js "-" else []) ++ js "Infinity"
  | Fin neg m =>
      if m =? 0 then js "0"
      else
        let v := shortest m in
        (if neg then js "-" else [])
        ++ (if v <? 10 ^ 21 then dec v else exp_format v)
  end.

(** [s.startsWith(p)]. *)
Fixpoint startsWith (s p : jsstring) : bool :=
  match p, s with
  | [], _ => true
  | c :: p', d :: s' => (c =? d)%N && startsWith s' p'
  | _ :: _, [] => false
  end.

(** [s.substring(n)] for a constant [n]. *)
Definition substring_from (n : nat) (s : jsstring) : jsstring := drop n s.

(** [s.endsWith(p)]. *)
Definition endsWith (s p : jsstring) : bool := startsWith (rev s) (rev p).

(** The double quote and the line feed, for the literals that hold them. *)
Definition dquote : jsstring := [34%N].
Definition newline : jsstring := [10%N].

(** Truthiness of a value that is a string, [undefined] or [null]:
    only a non-empty string is truthy. *)
Definition truthy (v : option jsstring) : bool :=
  match v with
  | Some (_ :: _) => true
  | _ => false
  end.

(** Whether a value is there ([undefined] or [null] is [None]). *)
Definition present {A} (v : option A) : bool :=
  match v with
  | Some _ => true
  | None => false
  end.

(** A template literal applied to a possibly undefined string. *)
Definition interpolate (v : option jsstring) : jsstring :=
  match v with
  | Some s => s
  | None => js "undefined"
  end.

(** The decimal representation of a non-negative integer, recognised
    on the characters: digits only, at least one, and no leading zero
    on more than one digit. *)
Definition is_decimal (s : jsstring) : bool :=
  match s with
  | [] => false
  | [c] => is_digit c
  | c :: r => is_digit c && negb (c =? 48)%N && forallb is_digit r
  end.

(** The same for any integer: a negative one has a minus sign before
    the digits of its magnitude (there is no negative zero). *)
Definition is_signed_decimal (s : jsstring) : bool :=
  match s with
  | c :: r =>
      if (c =? 45)%N
      then is_decimal r && negb (bool_decide (r = [48%N]))
      else is_decimal s
  | [] => false
  end.

(** The three conditions of [is_decimal], spelled out. *)
Definition Decimal (s : jsstring) : Prop :=
  s <> [] /\ Forall (fun c => is_digit c = true) s
  /\ (forall r, s = 48%N :: r -> r = []).

(** The decimal representation of an integer. *)
Definition decimal (n : Z) : jsstring :=
  if n <? 0 then js "-" ++ dec (- n) else dec n.

(** The Number value of an integer. *)
Definition number_of_Z (z : Z) : number :=
  if z <? 0 then to_number true (- z) else to_number false z.

(** The sum or difference [z] of two integer-valued doubles, as the
    double the operation returns. *)
Definition round_signed (z : Z) : Z :=
  if z <? 0 then - round53 (- z) else round53 z.

End JS.

(* ===================================================================== *)
(** * The backport assistant                                              *)
(* ===================================================================== *)

Module Backport.

Import JS.
Local Open Scope Z_scope.

(** What [spawnSync] returns: the exit status ([null] when the process
    did not run to an exit) and the captured standard output. *)
Record spawn_result := { status : option Z; stdout : jsstring }.

(** The fields of the pull request the action reads. *)
Record pull_request := {
  merge_commit_sha : option jsstring;
  labels : list jsstring            (* the label names *)
}.

(** The outside of the action: environment, GitHub, the prompt, git.
    Every call answers: the awaited ones resolve and no helper throws.
    The runs in which one does not are those of [action_cut]. *)
Record world := {
  gh_auth_env : option jsstring;    (* ELECTRON_BUILD_TOOLS_GH_AUTH *)
  user_login : jsstring;            (* users.getAuthenticated().login *)
  pulls_get : number -> pull_request;
  prompt : list jsstring -> jsstring;
  git : list jsstring -> spawn_result
}.

Inductive event :=
| Fatal (msg : jsstring)
| GetGitHubAuthToken
| UsersGetAuthenticated
| PullsGet (pull_number : number)
| Prompt (choices : list jsstring)
| Git (args : list jsstring)
| InfoCherryPickComplete.

(** The condition of the first [if] of the action: the argument does not
    parse, or does not print back as it was given. The argument is
    optional ([None] is [undefined], which parses as NaN). *)
Definition pr_number_rejected (prNumberStr : option jsstring) : bool :=
  let prNumber := parseInt (interpolate prNumberStr) in
  isNaN prNumber
  || negb (bool_decide (Some (number_to_string prNumber) = prNumberStr)).

Definition pr_number_accepted (prNumberStr : option jsstring) : bool :=
  negb (pr_number_rejected prNumberStr).

Definition number_required_msg (prNumberStr : option jsstring) : jsstring :=
  js "backport requires a number, " ++ dquote ++ interpolate prNumberStr
  ++ dquote ++ js " was provided".

Definition not_clean_msg : jsstring :=
  js "Your current git working directory is not clean, we won't erase your local changes. Clean it up and try again".

Definition targetBranches (pr : pull_request) : list jsstring :=
  List.map (substring_from 16)
    (List.filter (fun name => startsWith name (js "needs-manual-bp/"))
       (labels pr)).

Definition manualBpBranch (login : jsstring) (prNumber : number)
    (targetBranch : jsstring) : jsstring :=
  js "manual-bp/" ++ login ++ js "/pr/" ++ number_to_string prNumber
  ++ js "/branch/" ++ targetBranch.

Definition status_is_zero (r : spawn_result) : bool :=
  bool_decide (status r = Some 0).

(** The condition of the clean check: a non-zero status, or output that
    is not empty once trimmed. *)
Definition not_clean (r : spawn_result) : bool :=
  negb (status_is_zero r) || negb (length (trim (stdout r)) =? 0)%nat.

(** The steps after the branch has been chosen. *)
Definition git_steps (w : world) (prNumber : number) (sha : jsstring)
    (targetBranch : jsstring) : list event :=
  let result := git w [js "status"; js "--porcelain"] in
  Git [js "status"; js "--porcelain"] ::
  if not_clean result then [Fatal not_clean_msg]
  else
    let checkoutResult := git w [js "checkout"; targetBranch] in
    Git [js "checkout"; targetBranch] ::
    if negb (status_is_zero checkoutResult)
    then [Fatal (js "Failed to checkout base branch")]
    else
      let ensureLatestResult := git w [js "pull"; js "origin"; targetBranch] in
      Git [js "pull"; js "origin"; targetBranch] ::
      if negb (status_is_zero ensureLatestResult)
      then [Fatal (js "Failed to update base branch")]
      else
        let branch := manualBpBranch (user_login w) prNumber targetBranch in
        Git [js "branch"; js "-D"; branch] ::
        let backportBranchResult := git w [js "checkout"; js "-b"; branch] in
        Git [js "checkout"; js "-b"; branch] ::
        if negb (status_is_zero backportBranchResult)
        then [Fatal (js "Failed to checkout new branch " ++ dquote ++ branch
                     ++ dquote)]
        else [Git [js "cherry-pick"; sha]; InfoCherryPickComplete].

(** The action of the command: the calls it makes, in order. Each
    [fatal] is followed by [return], so it ends the trace. *)
Definition action (w : world) (prNumberStr : option jsstring) : list event :=
  let prNumber := parseInt (interpolate prNumberStr) in
  if pr_number_rejected prNumberStr
  then [Fatal (number_required_msg prNumberStr)]
  else
    (if truthy (gh_auth_env w) then [] else [GetGitHubAuthToken])
    ++ UsersGetAuthenticated :: PullsGet prNumber ::
    let pr := pulls_get w prNumber in
    match merge_commit_sha pr with
    | Some (c :: sha') =>
        let branches := targetBranches pr in
        if (length branches =? 0)%nat
        then [Fatal (js "The given pull request is not needing any manual backports yet")]
        else
          Prompt branches ::
          git_steps w prNumber (c :: sha') (prompt w branches)
    | _ => [Fatal (js "No merge SHA available on PR")]
    end.

(** ** Vocabulary of the properties *)

Definition status_args : list jsstring := [js "status"; js "--porcelain"].

(** The target branch a run works on. *)
Definition chosen_branch (w : world) (arg : option jsstring) : jsstring :=
  prompt w (targetBranches (pulls_get w (parseInt (interpolate arg)))).

Definition create_branch (b : jsstring) : event :=
  Git [js "checkout"; js "-b"; b].

Definition delete_branch (b : jsstring) : event :=
  Git [js "branch"; js "-D"; b].

(** ** A sample run *)

Definition sample_pr : pull_request :=
  {| merge_commit_sha := Some (js "0a1b2c3");
     labels := [js "semver/patch"; js "needs-manual-bp/12-x-y"] |}.

(** Every git call succeeds, and the status query prints [out]. *)
Definition sample_world (out : jsstring) : world :=
  {| gh_auth_env := Some (js "token");
     user_login := js "octocat";
     pulls_get := fun _ => sample_pr;
     prompt := fun choices => List.hd [] choices;
     git := fun args =>
       {| status := Some 0;
          stdout := if bool_decide (args = status_args) then out else [] |} |}.

(** ** Further vocabulary and sample runs *)

(** The prefix of the labels that ask for a manual backport. *)
Definition label_prefix : jsstring := js "needs-manual-bp/".

(** The arguments of the git calls of a trace, in order. *)
Definition git_calls (t : list event) : list (list jsstring) :=
  flat_map (fun e => match e with Git args => [args] | _ => [] end) t.

(** The six git calls of a run that goes all the way. *)
Definition planned_git_calls (w : world) (arg : option jsstring)
    : list (list jsstring) :=
  let n := parseInt (interpolate arg) in
  let target := chosen_branch w arg in
  let branch := manualBpBranch (user_login w) n target in
  [status_args;
   [js "checkout"; target];
   [js "pull"; js "origin"; target];
   [js "branch"; js "-D"; branch];
   [js "checkout"; js "-b"; branch];
   [js "cherry-pick"; interpolate (merge_commit_sha (pulls_get w n))]].



Definition asks_or_runs_git (e : event) : bool :=
  match e with Prompt _ | Git _ => true | _ => false end.

(** A PR with a backport label that is not merged. *)
Definition unmerged_pr : pull_request :=
  {| merge_commit_sha := None; labels := labels sample_pr |}.

(** No token in the environment, the PR [pr], and every git call
    succeeds but the one with the arguments [bad]. *)
Definition failing_world (pr : pull_request) (bad : list jsstring) : world :=
  {| gh_auth_env := None;
     user_login := js "octocat";
     pulls_get := fun _ => pr;
     prompt := fun choices => List.hd [] choices;
     git := fun args =>
       {| status := if bool_decide (args = bad) then Some 1 else Some 0;
          stdout := [] |} |}.


End Backport.

(* ===================================================================== *)
(** * The goma provisioner                                                *)
(* ===================================================================== *)

Module Goma.

Import JS.
Local Open Scope Z_scope.

(** The fields of the configuration object the module reads. *)
Record config := {
  gomaSource : option jsstring;
  goma : option jsstring
}.

(** ** The file system

    The paths the module names, all below [third_party]. *)
Inductive path :=
| ThirdPartyDir      (* path.dirname(gomaDir) *)
| GomaGnFile         (* third_party/goma.gn *)
| TmpDownload        (* third_party/<filename> *)
| GomaDir            (* third_party/goma *)
| GomaShaFile        (* third_party/goma/.sha *)
| GomaLoginFile      (* third_party/goma/last-known-login *)
| GomaCtlPy.         (* third_party/goma/goma_ctl.py *)

#[global] Instance path_eq_dec : EqDecision path.
Proof. solve_decision. Defined.

(** The install directory, when it exists. *)
Record goma_files := {
  sha_file : option jsstring;
  login_file : option jsstring;
  goma_ctl_py : bool
}.

(** The directory [third_party], when it exists. The downloaded archive
    is kept by the only thing the code reads off it: the hexadecimal
    SHA-256 digest of its bytes. *)
Record third_party_files := {
  goma_gn : option jsstring;
  tmp_download : option jsstring;
  goma_dir : option goma_files
}.

Definition fs := option third_party_files.

Definition in_goma_dir {A} (f : fs) (g : goma_files -> option A) : option A :=
  match f with
  | Some t => match goma_dir t with Some d => g d | None => None end
  | None => None
  end.

(** The contents of a regular file. *)
Definition file_contents (f : fs) (p : path) : option jsstring :=
  match p with
  | GomaGnFile => match f with Some t => goma_gn t | None => None end
  | TmpDownload => match f with Some t => tmp_download t | None => None end
  | GomaShaFile => in_goma_dir f sha_file
  | GomaLoginFile => in_goma_dir f login_file
  | ThirdPartyDir | GomaDir | GomaCtlPy => None
  end.

Definition path_exists (f : fs) (p : path) : bool :=
  match p with
  | ThirdPartyDir => present f
  | GomaDir => match f with Some t => present (goma_dir t) | None => false end
  | GomaCtlPy =>
      match in_goma_dir f (fun d => Some (goma_ctl_py d)) with
      | Some b => b
      | None => false
      end
  | _ => present (file_contents f p)
  end.

Definition empty_goma_dir : goma_files :=
  {| sha_file := None; login_file := None; goma_ctl_py := false |}.

Definition empty_third_party : third_party_files :=
  {| goma_gn := None; tmp_download := None; goma_dir := None |}.

Definition set_goma_dir (t : third_party_files) (d : option goma_files) :=
  {| goma_gn := goma_gn t; tmp_download := tmp_download t; goma_dir := d |}.

(** Write a regular file; [None] when its directory is missing. *)
Definition write_file (f : fs) (p : path) (data : jsstring) : option fs :=
  match f with
  | None => None
  | Some t =>
      match p with
      | GomaGnFile =>
          Some (Some {| goma_gn := Some data; tmp_download := tmp_download t;
                        goma_dir := goma_dir t |})
      | TmpDownload =>
          Some (Some {| goma_gn := goma_gn t; tmp_download := Some data;
                        goma_dir := goma_dir t |})
      | GomaShaFile =>
          match goma_dir t with
          | Some d =>
              Some (Some (set_goma_dir t
                (Some {| sha_file := Some data; login_file := login_file d;
                         goma_ctl_py := goma_ctl_py d |})))
          | None => None
          end
      | GomaLoginFile =>
          match goma_dir t with
          | Some d =>
              Some (Some (set_goma_dir t
                (Some {| sha_file := sha_file d; login_file := Some data;
                         goma_ctl_py := goma_ctl_py d |})))
          | None => None
          end
      | ThirdPartyDir | GomaDir | GomaCtlPy => None
      end
  end.

(** Remove a file, or a directory with all it holds. *)
Definition remove (f : fs) (p : path) : fs :=
  match f with
  | None => None
  | Some t =>
      match p with
      | ThirdPartyDir => None
      | GomaGnFile =>
          Some {| goma_gn := None; tmp_download := tmp_download t;
                  goma_dir := goma_dir t |}
      | TmpDownload =>
          Some {| goma_gn := goma_gn t; tmp_download := None;
                  goma_dir := goma_dir t |}
      | GomaDir => Some (set_goma_dir t None)
      | GomaShaFile =>
          Some (set_goma_dir t
            (option_map (fun d => {| sha_file := None; login_file := login_file d;
                                     goma_ctl_py := goma_ctl_py d |}) (goma_dir t)))
      | GomaLoginFile =>
          Some (set_goma_dir t
            (option_map (fun d => {| sha_file := sha_file d; login_file := None;
                                     goma_ctl_py := goma_ctl_py d |}) (goma_dir t)))
      | GomaCtlPy =>
          Some (set_goma_dir t
            (option_map (fun d => {| sha_file := sha_file d; login_file := login_file d;
                                     goma_ctl_py := false |}) (goma_dir t)))
      end
  end.

(** Create a directory; [None] when it exists or its parent is missing. *)
Definition make_dir (f : fs) (p : path) : option fs :=
  match p, f with
  | ThirdPartyDir, None => Some (Some empty_third_party)
  | GomaDir, Some t =>
      match goma_dir t with
      | None => Some (Some (set_goma_dir t (Some empty_goma_dir)))
      | Some _ => None
      end
  | _, _ => None
  end.

(** ** External processes, events and outcomes *)

Inductive command :=
| GomaCtlStop                         (* python3 goma_ctl.py stop *)
| Download (url : jsstring)           (* node download.js url tmpDownload *)
| TarExtract (filename : jsstring)    (* tar zxvf filename *)
| Unzip                               (* unzipSync(tmpDownload, targetDir) *)
| GomaAuthInfo                        (* python3 goma_auth.py info *)
| GomaAuthLogin                       (* python3 goma_auth.py login *)
| GomaccPort (exe : string)           (* gomacc port 2 *)
| GomaCtlEnsureStart (env : gmap string jsstring) (inherit_stdio : bool).

Inductive event :=
| ExistsSync (p : path)
| MkdirSync (p : path)
| ReadFileSync (p : path)
| WriteFileSync (p : path) (data : jsstring)
| UnlinkSync (p : path)
| Rimraf (p : path)
| Run (c : command)
| DateNow
| ConsoleLog
| ConsoleError.

Inductive error :=
| ENOENT (p : path)          (* no such file or directory *)
| EEXIST (p : path)
| TypeError                  (* [undefined] where a string is required *)
| ChildFailed (c : command). (* the child process failed *)

(** How a call ends: it returns, throws, or the process ends. *)
Inductive outcome (A : Type) :=
| Done (a : A)
| Thrown (e : error)
| Exited (code : Z)          (* process.exit(code) *)
| FatalExit (msg : jsstring).

Arguments Done {A} a.
Arguments Thrown {A} e.
Arguments Exited {A} code.
Arguments FatalExit {A} msg.

(** What the module reads from outside and does not decide itself. Each
    external command runs at most once in a call of an exported
    function, so one result for each is enough. *)
Record world := {
  platform : string;                 (* process.platform *)
  is_arm : bool;                     (* getIsArm() *)
  env : gmap string jsstring;        (* process.env *)
  goma_dir_path : jsstring;          (* the string gomaDir *)
  clock : nat -> Z;                  (* the readings of Date.now(), in order *)
  cpus : nat;                        (* os.cpus().length *)
  stop_ok : bool;                    (* the call of goma_ctl.py stop returns *)
  downloaded : option jsstring;      (* digest of the file download.js leaves *)
  tar_status : option Z;
  unzip_ok : bool;
  auth_info : option jsstring;       (* output of goma_auth.py info; None: it failed *)
  auth_login : option Z * option jsstring;   (* status and error of the login *)
  gomacc_status : option Z;
  ensure_start_ok : bool
}.

Record state := {
  files : fs;
  now_reads : nat;                   (* readings of the clock so far *)
  trace : list event                 (* oldest first *)
}.

Definition M (A : Type) : Type := state -> outcome A * state.

Definition ret {A} (a : A) : M A := fun s => (Done a, s).

Definition bind {A B} (m : M A) (k : A -> M B) : M B :=
  fun s =>
    match m s with
    | (Done a, s') => k a s'
    | (Thrown e, s') => (Thrown e, s')
    | (Exited c, s') => (Exited c, s')
    | (FatalExit msg, s') => (FatalExit msg, s')
    end.

Notation "'let*' x ':=' m 'in' k" := (bind m (fun x => k))
  (at level 10, x name, m at level 100, k at level 200).
Notation "'let*' '_' ':=' m 'in' k" := (bind m (fun _ => k))
  (at level 10, m at level 100, k at level 200).

Definition throw {A} (e : error) : M A := fun s => (Thrown e, s).

(** [process.exit(code)]. *)
Definition process_exit {A} (code : Z) : M A := fun s => (Exited code, s).

(** Modelled from the spec: [fatal] of [utils/logging], which is not
    part of the source at hand. It reports the message and ends the
    process with a non-zero exit, so nothing after the call runs. *)
Definition fatal {A} (msg : jsstring) : M A := fun s => (FatalExit msg, s).

(** [try { m } catch { h }]: only a thrown error is caught. *)
Definition try_catch {A} (m : M A) (h : M A) : M A :=
  fun s =>
    match m s with
    | (Thrown _, s') => h s'
    | r => r
    end.

Definition emit (e : event) : M unit :=
  fun s => (Done tt, {| files := files s; now_reads := now_reads s;
                        trace := trace s ++ [e] |}).

Definition get_files : M fs := fun s => (Done (files s), s).

Definition put_files (f : fs) : M unit :=
  fun s => (Done tt, {| files := f; now_reads := now_reads s;
                        trace := trace s |}).

(** ** The [fs] calls and [rimraf] *)

Definition existsSync (p : path) : M bool :=
  let* _ := emit (ExistsSync p) in
  let* f := get_files in
  ret (path_exists f p).

Definition readFileSync (p : path) : M jsstring :=
  let* _ := emit (ReadFileSync p) in
  let* f := get_files in
  match file_contents f p with
  | Some data => ret data
  | None => throw (ENOENT p)
  end.

Definition writeFileSync (p : path) (data : jsstring) : M unit :=
  let* _ := emit (WriteFileSync p data) in
  let* f := get_files in
  match write_file f p data with
  | Some f' => put_files f'
  | None => throw (ENOENT p)
  end.

Definition mkdirSync (p : path) : M unit :=
  let* _ := emit (MkdirSync p) in
  let* f := get_files in
  match make_dir f p with
  | Some f' => put_files f'
  | None => throw (if path_exists f p then EEXIST p else ENOENT p)
  end.

Definition unlinkSync (p : path) : M unit :=
  let* _ := emit (UnlinkSync p) in
  let* f := get_files in
  if path_exists f p then put_files (remove f p) else throw (ENOENT p).

Definition rimraf_sync (p : path) : M unit :=
  let* _ := emit (Rimraf p) in
  let* f := get_files in
  put_files (remove f p).

(** [Date.now()]. *)
Definition date_now (w : world) : M Z :=
  fun s => (Done (clock w (now_reads s)),
            {| files := files s; now_reads := S (now_reads s);
               trace := trace s ++ [DateNow] |}).

(** ** External commands

    [childProcess.spawnSync] and [depot.spawnSync] return the status
    and never throw. A call of [depot.execFileSync] returns the output
    of the child or throws; the source catches what the status query
    throws and nothing else. Which of the two a call does is for the
    world to say. *)

(** Modelled from the spec: [depot.execFileSync], which is not part of
    the source at hand, here on [goma_ctl.py stop]. The call returns or
    throws, and [stop_ok] says which. Section 4.2 has the stop as best
    effort, its failure ignored: that is the call returning
    ([stop_is_best_effort] below). Nothing in the source catches an
    error of this call. *)
Definition exec_goma_ctl_stop (w : world) : M unit :=
  let* _ := emit (Run GomaCtlStop) in
  if stop_ok w then ret tt else throw (ChildFailed GomaCtlStop).

(** [download.js]: leaves the downloaded file at [tmpDownload], or
    nothing. Its result is not looked at. *)
Definition spawn_download (w : world) (url : jsstring) : M unit :=
  let* _ := emit (Run (Download url)) in
  let* f := get_files in
  match downloaded w with
  | Some digest =>
      match write_file f TmpDownload digest with
      | Some f' => put_files f'
      | None => ret tt
      end
  | None => ret tt
  end.

(** What a successful extraction leaves in [third_party]: the install
    directory with the client in it. *)
Definition extracted (f : fs) : fs :=
  match f with
  | Some t =>
      Some (set_goma_dir t
        (Some {| sha_file := None; login_file := None; goma_ctl_py := true |}))
  | None => None
  end.

Definition spawn_tar (w : world) (filename : jsstring) : M (option Z) :=
  let* _ := emit (Run (TarExtract filename)) in
  let* f := get_files in
  let* _ := (if bool_decide (tar_status w = Some 0)
             then put_files (extracted f) else ret tt) in
  ret (tar_status w).

Definition unzipSync (w : world) : M unit :=
  let* _ := emit (Run Unzip) in
  let* f := get_files in
  if unzip_ok w then put_files (extracted f) else throw (ChildFailed Unzip).

Definition exec_goma_auth_info (w : world) : M jsstring :=
  let* _ := emit (Run GomaAuthInfo) in
  match auth_info w with
  | Some out => ret out
  | None => throw (ChildFailed GomaAuthInfo)
  end.

Definition spawn_goma_auth_login (w : world)
    : M (option Z * option jsstring) :=
  let* _ := emit (Run GomaAuthLogin) in
  ret (auth_login w).

Definition spawn_gomacc_port (w : world) (exe : string) : M (option Z) :=
  let* _ := emit (Run (GomaccPort exe)) in
  ret (gomacc_status w).

Definition exec_goma_ctl_ensure_start (w : world)
    (e : gmap string jsstring) (inherit_stdio : bool) : M unit :=
  let* _ := emit (Run (GomaCtlEnsureStart e inherit_stdio)) in
  if ensure_start_ok w then ret tt
  else throw (ChildFailed (GomaCtlEnsureStart e inherit_stdio)).

(** ** The module *)

Definition gomaBaseURL : jsstring :=
  js "https://dev-cdn.electronjs.org/goma-clients".

Definition gomaPlatform (w : world) : string :=
  if bool_decide (platform w = "darwin"%string) && is_arm w
  then "darwin-arm64"%string
  else platform w.

Definition GOMA_PLATFORM_SHAS : gmap string jsstring :=
  list_to_map [
    ("darwin"%string, js "bc4bdbe0f687cb6bf1848500704cfa24bc5bee167e768bc6c5c689417c0c44c0");
    ("darwin-arm64"%string, js "29e3e20903c780c717a1fbeb6be78ce40d70e136d1949eec6307ad11aade9447");
    ("linux"%string, js "c105c1a4d06761a4bfcae70789e757f409e4fdf4423b50328c5864bf3d639561");
    ("win32"%string, js "d7578905bb8c0d01249fc1ec6cfb7bfa6a68580ac7f5f5b95b653bce07ba8bf1")].

Definition MSFT_GOMA_PLATFORM_SHAS : gmap string jsstring :=
  list_to_map [
    ("darwin"%string, js "4738c5447b8a7bafbb6adb9df01b2f571b492ada862bd3e296892faf5b617df1");
    ("darwin-arm64"%string, js "4d2a6d98ecd5214731c089622991334e083f42100bca194a087dde7136a07fc8");
    ("linux"%string, js "dd6285146677b0134fb9b4a0b4f8341c7e57a9b4ef82db158de95f7fed5b72e2");
    ("win32"%string, js "06b6c1d5c924a7415395545ee7a99b926829fc104336830ce6385b7ba67576cd")].

Definition archive_filenames : gmap string jsstring :=
  list_to_map [
    ("darwin"%string, js "goma-mac.tgz");
    ("darwin-arm64"%string, js "goma-mac-arm64.tgz");
    ("linux"%string, js "goma-linux.tgz");
    ("win32"%string, js "goma-win.zip")].

Definition isSupportedPlatform (w : world) : bool :=
  truthy (GOMA_PLATFORM_SHAS !! gomaPlatform w).

Definition gomaGnContents (w : world) : jsstring :=
  js "goma_dir = " ++ dquote ++ goma_dir_path w ++ dquote ++ newline
  ++ js "use_goma = true".

(** The checksum the installed client is compared with. *)
Definition expected_sha (w : world) (cfg : option config) : option jsstring :=
  let sha := GOMA_PLATFORM_SHAS !! gomaPlatform w in
  match cfg with
  | Some c =>
      if bool_decide (gomaSource c = Some (js "msft"))
      then MSFT_GOMA_PLATFORM_SHAS !! gomaPlatform w
      else sha
  | None => sha
  end.

(** [downloadAndPrepareGoma], statement by statement. First the
    directory [third_party] is made if it is missing. *)
Definition ensure_third_party : M unit :=
  let* tp := existsSync ThirdPartyDir in
  if negb tp then mkdirSync ThirdPartyDir else ret tt.

(** Then [goma.gn] is written, unless it holds the contents already. *)
Definition sync_goma_gn (w : world) : M unit :=
  let* gn := existsSync GomaGnFile in
  let* stale := (if negb gn then ret true
                 else
                   let* c := readFileSync GomaGnFile in
                   ret (negb (bool_decide (c = gomaGnContents w)))) in
  if stale
  then
    let* _ := emit ConsoleLog in
    writeFileSync GomaGnFile (gomaGnContents w)
  else ret tt.

(** The condition of the early [return sha]. *)
Definition installed_is_current (w : world) (sha : option jsstring) : M bool :=
  let* sf := existsSync GomaShaFile in
  let* same := (if sf then
                  let* c := readFileSync GomaShaFile in
                  ret (bool_decide (Some c = sha))
                else ret false) in
  ret (same && negb (truthy (env w !! "ELECTRON_FORGE_GOMA_REDOWNLOAD"%string))).

(** After the download: hash the file, compare, extract, record. *)
Definition install_download (w : world) (sha : option jsstring)
    (filename : jsstring) : M (option jsstring) :=
  let* hash := readFileSync TmpDownload in
  if negb (bool_decide (Some hash = sha))
  then
    let* _ := emit ConsoleError in
    let* _ := rimraf_sync TmpDownload in
    process_exit 1
  else
    let* _ := (if endsWith filename (js ".tgz")
               then
                 let* st := spawn_tar w filename in
                 if negb (bool_decide (st = Some 0))
                 then fatal (js "Failed to extract goma")
                 else ret tt
               else unzipSync w) in
    let* _ := rimraf_sync TmpDownload in
    let* _ := match sha with
              | Some data => writeFileSync GomaShaFile data
              | None => throw TypeError
              end in
    ret sha.

Definition download_url (sha : option jsstring) (filename : jsstring)
    : jsstring :=
  gomaBaseURL ++ js "/" ++ interpolate sha ++ js "/" ++ filename.

(** Stop the installed client, clean up, download. *)
Definition redownload (w : world) (sha : option jsstring)
    : M (option jsstring) :=
  let filename := archive_filenames !! gomaPlatform w in
  let* ctl := existsSync GomaCtlPy in
  let* _ := (if ctl then exec_goma_ctl_stop w else ret tt) in
  match filename with
  | None => throw TypeError     (* path.resolve of an undefined segment *)
  | Some filename =>
      let* _ := rimraf_sync GomaDir in
      let* _ := rimraf_sync TmpDownload in
      let* _ := emit ConsoleLog in
      let* _ := spawn_download w (download_url sha filename) in
      install_download w sha filename
  end.

(** The checksum is chosen, and the client installed unless it is the
    one on disk. *)
Definition install_if_stale (w : world) (cfg : option config)
    : M (option jsstring) :=
  let sha := expected_sha w cfg in
  let* current := installed_is_current w sha in
  if current then ret sha else redownload w sha.

Definition downloadAndPrepareGoma (w : world) (cfg : option config)
    : M (option jsstring) :=
  if negb (isSupportedPlatform w) then ret None
  else
    let* _ := ensure_third_party in
    let* _ := sync_goma_gn w in
    install_if_stale w cfg.

(** The time value of [new Date(x)]: [None] is an invalid date, whose
    [getTime()] is NaN. *)
Definition time_clip (x : number) : option Z :=
  match x with
  | Fin neg m =>
      if 8640000000000000 <? m then None
      else Some (if neg then - m else m)
  | _ => None
  end.

(** [null], or the date read from the login file. *)
Definition getLastKnownLoginTime : M (option (option Z)) :=
  let* e := existsSync GomaLoginFile in
  if negb e then ret None
  else
    let* contents := readFileSync GomaLoginFile in
    ret (Some (time_clip (parseInt contents))).

Definition clearGomaLoginTime : M unit :=
  let* e := existsSync GomaLoginFile in
  if negb e then ret tt else unlinkSync GomaLoginFile.

Definition recordGomaLoginTime (w : world) : M unit :=
  let* now := date_now w in
  writeFileSync GomaLoginFile (number_to_string (number_of_Z now)).

Definition twelve_hours : Z := 1000 * 60 * 60 * 12.

(** [Date.now() - lastKnownLogin.getTime() < 1000 * 60 * 60 * 12];
    false when the time value is NaN. *)
Definition login_is_fresh (now : Z) (login : option Z) : bool :=
  match login with
  | Some t => round_signed (now - t) <? twelve_hours
  | None => false
  end.

Definition is_word_char (c : N) : bool :=
  (((48 <=? c) && (c <=? 57)) || ((65 <=? c) && (c <=? 90))
   || ((97 <=? c) && (c <=? 122)) || (c =? 95))%N.

Fixpoint drop_word (s : jsstring) : jsstring :=
  match s with
  | c :: r => if is_word_char c then drop_word r else s
  | [] => []
  end.

(** [/^Login as (\w+\s\w+)$/.test(s)]. A word character is never
    white space, so the first word ends where the word characters do. *)
Definition loggedInPattern_test (s : jsstring) : bool :=
  startsWith s (js "Login as ")
  && let r := drop 9 s in
     match r, drop_word r with
     | c :: _, sp :: r2 =>
         is_word_char c && is_white_space sp
         && match r2 with
            | d :: _ => is_word_char d && (length (drop_word r2) =? 0)%nat
            | [] => false
            end
     | _, _ => false
     end.

Definition gomaIsAuthenticated (w : world) (cfg : option config) : M bool :=
  if negb (isSupportedPlatform w) then ret false
  else
    let* lastKnownLogin := getLastKnownLoginTime in
    let* fresh := match lastKnownLogin with
                  | Some login =>
                      let* now := date_now w in
                      ret (login_is_fresh now login)
                  | None => ret false
                  end in
    if fresh then ret true
    else
      try_catch
        (let* loggedInInfo := exec_goma_auth_info w in
         ret (loggedInPattern_test (trim loggedInInfo)))
        (ret false).

Definition login_failed_msg (status : option Z) (error : option jsstring)
    : jsstring :=
  js "Failed to run command:"
  ++ match status with
     | Some st => newline ++ js " Exit Code: " ++ dquote
                  ++ number_to_string (number_of_Z st) ++ dquote
     | None => []
     end
  ++ match error with
     | Some e => newline ++ js " " ++ e
     | None => []
     end.

Definition authenticateGoma (w : world) (cfg : option config) : M unit :=
  if negb (isSupportedPlatform w) then ret tt
  else
    let* _ := downloadAndPrepareGoma w cfg in
    let* authenticated := gomaIsAuthenticated w cfg in
    if negb authenticated
    then
      let* r := spawn_goma_auth_login w in
      let* _ := (if negb (bool_decide (r.1 = Some 0))
                 then fatal (login_failed_msg r.1 r.2)
                 else ret tt) in
      recordGomaLoginTime w
    else ret tt.

(** [{...a, ...b}]: the properties of [b] override those of [a]. *)
Definition spread (a b : gmap string jsstring) : gmap string jsstring := b ∪ a.

Definition gomaAuthFailureEnv (w : world) (cfg : option config)
    : gmap string jsstring :=
  let isCacheOnly :=
    match cfg with
    | Some c => bool_decide (goma c = Some (js "cache-only"))
    | None => false
    end in
  let isCacheOnly :=
    if negb (present cfg)
    then negb (truthy (env w !! "RAW_GOMA_AUTH"%string))
    else isCacheOnly in
  if isCacheOnly
  then {[ "GOMA_FALLBACK_ON_AUTH_FAILURE"%string := js "true" ]}
  else ∅.

Definition gomaCIEnv (w : world) (cfg : option config)
    : gmap string jsstring :=
  if negb (present cfg) && truthy (env w !! "CI"%string)
  then {[ "GOMA_START_COMPILER_PROXY"%string := js "true" ]}
  else ∅.

Definition gomaEnv (w : world) (cfg : option config) : gmap string jsstring :=
  spread (gomaAuthFailureEnv w cfg) (gomaCIEnv w cfg).

(** The environment [ensureGomaStart] passes to [goma_ctl.py]. *)
Definition start_env (w : world) (cfg : option config)
    : gmap string jsstring :=
  let subprocs : gmap string jsstring :=
    if bool_decide (platform w = "darwin"%string)
    then
      let n := number_to_string (number_of_Z (Z.of_nat (cpus w))) in
      <["GOMA_MAX_SUBPROCS"%string := n]>
        {[ "GOMA_MAX_SUBPROCS_LOW"%string := n ]}
    else ∅ in
  spread (gomaEnv w cfg) subprocs.

Definition ensureGomaStart (w : world) (cfg : option config) : M unit :=
  let gomacc :=
    if bool_decide (platform w = "win32"%string)
    then "gomacc.exe"%string else "gomacc"%string in
  let* status := spawn_gomacc_port w gomacc in
  if bool_decide (status = Some 0) then ret tt
  else
    exec_goma_ctl_ensure_start w (start_env w cfg)
      (bool_decide (platform w = "win32"%string)).

(** A call that reaches the file system or starts a process (the
    download and the goma commands go to the network). *)
Definition touches_outside (e : event) : bool :=
  match e with
  | ExistsSync _ | MkdirSync _ | ReadFileSync _ | WriteFileSync _ _
  | UnlinkSync _ | Rimraf _ | Run _ => true
  | DateNow | ConsoleLog | ConsoleError => false
  end.

(** The state a call starts from. *)
Definition initial (f : fs) : state :=
  {| files := f; now_reads := 0; trace := [] |}.

(** ** Vocabulary of the properties *)

Definition is_run (e : event) : bool :=
  match e with Run _ => true | _ => false end.

Definition is_gn_write (e : event) : bool :=
  match e with WriteFileSync GomaGnFile _ => true | _ => false end.

Definition is_login_write (e : event) : bool :=
  match e with WriteFileSync GomaLoginFile _ => true | _ => false end.

(** How many times a trace writes [goma.gn]. *)
Definition gn_writes (t : list event) : nat :=
  length (List.filter is_gn_write t).

(** A relation between the state before and after holds over a call. *)
Definition steps {A} (R : state -> state -> Prop) (m : M A) : Prop :=
  forall s, R s (m s).2.

(** The call adds to the trace only events that satisfy [P]. *)
Definition emitting (P : event -> Prop) (s s' : state) : Prop :=
  exists evs, trace s' = trace s ++ evs /\ Forall P evs.


Definition no_run (e : event) : Prop := is_run e = false.

Definition no_gn_write (e : event) : Prop := is_gn_write e = false.

Definition any_event (e : event) : Prop := True.

(** Everything but the login and the write of its time. *)
Definition before_login (e : event) : Prop :=
  is_login_write e = false /\ e <> Run GomaAuthLogin.

(** The time the login file records, when it holds a valid one. *)
Definition recorded_login (f : fs) : option Z :=
  match file_contents f GomaLoginFile with
  | Some c => time_clip (parseInt c)
  | None => None
  end.

Definition FALLBACK : string := "GOMA_FALLBACK_ON_AUTH_FAILURE".
Definition START_PROXY : string := "GOMA_START_COMPILER_PROXY".

(** Cache-only mode, as the code decides it. *)
Definition cache_only (w : world) (cfg : option config) : Prop :=
  (exists c, cfg = Some c /\ goma c = Some (js "cache-only"))
  \/ (cfg = None /\ truthy (env w !! "RAW_GOMA_AUTH"%string) = false).



(** The two calls [authenticateGoma] starts with, taken together. *)
Definition prepare_and_check (w : world) (cfg : option config) : M bool :=
  let* _ := downloadAndPrepareGoma w cfg in gomaIsAuthenticated w cfg.

(** The login and what follows it. *)
Definition login_and_record (w : world) : M unit :=
  let* r := spawn_goma_auth_login w in
  let* _ := (if negb (bool_decide (r.1 = Some 0))
             then fatal (login_failed_msg r.1 r.2)
             else ret tt) in
  recordGomaLoginTime w.

(** ** Sample machines *)

(** A platform without a goma client, and nothing installed. *)
Definition freebsd : world := {|
  platform := "freebsd"; is_arm := false; env := ∅;
  goma_dir_path := js "/build-tools/third_party/goma";
  clock := fun _ => 1700000000000; cpus := 4;
  stop_ok := true; downloaded := None; tar_status := None; unzip_ok := false;
  auth_info := None; auth_login := (None, None);
  gomacc_status := None;          (* no gomacc to run *)
  ensure_start_ok := false        (* nor goma_ctl.py *)
|}.

Definition linux_sha : jsstring :=
  js "c105c1a4d06761a4bfcae70789e757f409e4fdf4423b50328c5864bf3d639561".

(** A Linux machine: the download delivers [dl], stopping the client
    answers [stop], the login exits with [login]. *)
Definition linux (dl : option jsstring) (stop : bool) (login : option Z)
    (vars : gmap string jsstring) : world := {|
  platform := "linux"; is_arm := false; env := vars;
  goma_dir_path := js "/build-tools/third_party/goma";
  clock := fun _ => 1700000000000; cpus := 8;
  stop_ok := stop; downloaded := dl; tar_status := Some 0; unzip_ok := true;
  auth_info := None; auth_login := (login, None);
  gomacc_status := None; ensure_start_ok := true |}.

(** An install of an older client, with a login on record. *)
Definition old_install (login : jsstring) : fs :=
  Some {| goma_gn := None; tmp_download := None;
          goma_dir := Some {| sha_file := Some (js "0000");
                              login_file := Some login;
                              goma_ctl_py := true |} |}.

(** Variables that are set, but to the empty string. *)
Definition empty_vars : gmap string jsstring :=
  <["CI"%string := []]> {[ "RAW_GOMA_AUTH"%string := [] ]}.

(** ** Further vocabulary and sample machines *)

(** The largest time value of a Date, in either direction. *)
Definition max_time : Z := 8640000000000000.

(** A call that only looks at the file system. *)
Definition is_read (e : event) : bool :=
  match e with ExistsSync _ | ReadFileSync _ => true | _ => false end.

(** The archive is unpacked. *)
Definition is_extract (e : event) : bool :=
  match e with Run (TarExtract _) | Run Unzip => true | _ => false end.

(** One or more word characters: what [\w+] matches. *)
Definition word (s : jsstring) : Prop :=
  s <> [] /\ Forall (fun c => is_word_char c = true) s.

(** The strings that [/^Login as (\w+\s\w+)$/] matches. *)
Definition login_line (s : jsstring) : Prop :=
  exists a sp b,
    s = js "Login as " ++ a ++ sp :: b
    /\ word a /\ is_white_space sp = true /\ word b.

Definition SUBPROCS : string := "GOMA_MAX_SUBPROCS".
Definition SUBPROCS_LOW : string := "GOMA_MAX_SUBPROCS_LOW".

Definition is_sha_write (e : event) : bool :=
  match e with WriteFileSync GomaShaFile _ => true | _ => false end.

(** What the first two statements of [downloadAndPrepareGoma] do. *)
Definition is_prepare (e : event) : bool :=
  match e with
  | ExistsSync ThirdPartyDir | MkdirSync ThirdPartyDir
  | ExistsSync GomaGnFile | ReadFileSync GomaGnFile
  | WriteFileSync GomaGnFile _ | ConsoleLog => true
  | _ => false
  end.

Definition REDOWNLOAD : string := "ELECTRON_FORGE_GOMA_REDOWNLOAD".

(** The install directory right after a successful install. *)
Definition fresh_install (sha : option jsstring) : goma_files :=
  {| sha_file := sha; login_file := None; goma_ctl_py := true |}.

(** The archive that was downloaded hashes to the checksum [sha]. *)
Definition verified (w : world) (sha : option jsstring) : Prop :=
  exists h, downloaded w = Some h /\ sha = Some h.

(** A Linux machine where the status query prints [out]; the client
    is downloaded and the login succeeds. *)
Definition linux_with_status (out : jsstring) : world := {|
  platform := "linux"; is_arm := false; env := ∅;
  goma_dir_path := js "/build-tools/third_party/goma";
  clock := fun _ => 1700000000000; cpus := 8;
  stop_ok := true; downloaded := Some linux_sha; tar_status := Some 0;
  unzip_ok := true;
  auth_info := Some out; auth_login := (Some 0, None);
  gomacc_status := None; ensure_start_ok := true |}.

(** A Mac with [n] CPUs. *)
Definition mac (arm : bool) (n : nat) : world := {|
  platform := "darwin"; is_arm := arm; env := ∅;
  goma_dir_path := js "/build-tools/third_party/goma";
  clock := fun _ => 1700000000000; cpus := n;
  stop_ok := true; downloaded := None; tar_status := Some 0; unzip_ok := true;
  auth_info := None; auth_login := (Some 0, None);
  gomacc_status := None; ensure_start_ok := true |}.

(** The client is installed and current; the login file holds [login]. *)
Definition current_install (login : jsstring) : fs :=
  Some {| goma_gn := None; tmp_download := None;
          goma_dir := Some {| sha_file := Some linux_sha;
                              login_file := Some login;
                              goma_ctl_py := true |} |}.

End Goma.

(* ===================================================================== *)
(** * Facts about the built-ins                                           *)
(* ===================================================================== *)

Module JSFacts.

Import JS.
Local Open Scope Z_scope.

(** ** Digits *)

Lemma is_digit_range c : is_digit c = true <-> (48 <= c <= 57)%N.
Proof.
  unfold is_digit. rewrite andb_true_iff, !N.leb_le. tauto.
Qed.

Lemma digit_char_is_digit d : 0 <= d < 10 -> is_digit (digit_char d) = true.
Proof.
  intros H. apply is_digit_range. unfold digit_char. lia.
Qed.

Lemma digit_value_char d : 0 <= d < 10 -> digit_value (digit_char d) = d.
Proof. intros H. unfold digit_value, digit_char. lia. Qed.

Lemma digit_value_range c : is_digit c = true -> 0 <= digit_value c < 10.
Proof. rewrite is_digit_range. unfold digit_value. lia. Qed.

Lemma digit_cases c :
  is_digit c = true ->
  In c [48; 49; 50; 51; 52; 53; 54; 55; 56; 57]%N.
Proof.
  rewrite is_digit_range. intros H. simpl.
  assert (c = 48 \/ c = 49 \/ c = 50 \/ c = 51 \/ c = 52 \/ c = 53 \/ c = 54
          \/ c = 55 \/ c = 56 \/ c = 57)%N by lia.
  intuition.
Qed.

Lemma digit_not_space c : is_digit c = true -> is_white_space c = false.
Proof.
  intros H. apply digit_cases in H. simpl in H.
  repeat (destruct H as [<- | H]; [reflexivity |]). destruct H.
Qed.

Lemma digits_value_snoc ds c :
  digits_value (ds ++ [c]) = digits_value ds * 10 + digit_value c.
Proof. unfold digits_value. rewrite fold_left_app. reflexivity. Qed.

Lemma digits_value_nonneg ds :
  Forall (fun c => is_digit c = true) ds -> 0 <= digits_value ds.
Proof.
  induction ds as [| c ds IH] using rev_ind; intros H.
  - reflexivity.
  - rewrite digits_value_snoc. apply Forall_app in H as [H1 H2].
    inversion H2 as [| ? ? Hc _]; subst.
    pose proof (digit_value_range _ Hc). specialize (IH H1). lia.
Qed.

Lemma take_digits_all ds :
  Forall (fun c => is_digit c = true) ds -> take_digits ds = ds.
Proof.
  induction 1 as [| c ds Hc _ IH]; simpl; [reflexivity |].
  rewrite Hc, IH. reflexivity.
Qed.

Lemma take_digits_digits s : Forall (fun c => is_digit c = true) (take_digits s).
Proof.
  induction s as [| c s IH]; simpl; [constructor |].
  destruct (is_digit c) eqn:E; [constructor; assumption | constructor].
Qed.

(** ** Decimal digits of an integer *)

Lemma dec_fuel_app f : forall n acc, dec_fuel f n acc = dec_fuel f n [] ++ acc.
Proof.
  induction f as [| f IH]; intros n acc; simpl.
  - reflexivity.
  - destruct (n <? 10); [reflexivity |].
    rewrite IH, (IH _ [_]), <- app_assoc. reflexivity.
Qed.

Lemma dec_fuel_digits f : forall n,
  Forall (fun c => is_digit c = true) (dec_fuel f n []).
Proof.
  induction f as [| f IH]; intros n; simpl.
  - constructor; [| constructor].
    apply digit_char_is_digit, Z.mod_pos_bound; lia.
  - assert (Hd : is_digit (digit_char (n mod 10)) = true)
      by (apply digit_char_is_digit, Z.mod_pos_bound; lia).
    destruct (n <? 10); [constructor; [assumption | constructor] |].
    rewrite dec_fuel_app. apply Forall_app. split; [apply IH |].
    constructor; [assumption | constructor].
Qed.

Lemma dec_fuel_value f : forall n,
  0 <= n < 10 ^ (Z.of_nat f + 1) -> digits_value (dec_fuel f n []) = n.
Proof.
  induction f as [| f IH]; intros n Hn.
  - simpl in *. unfold digits_value. simpl.
    rewrite digit_value_char by (apply Z.mod_pos_bound; lia).
    apply Z.mod_small. lia.
  - simpl dec_fuel. destruct (Z.ltb_spec n 10) as [Hlt | Hge].
    + unfold digits_value. simpl.
      rewrite digit_value_char by (apply Z.mod_pos_bound; lia).
      apply Z.mod_small. lia.
    + rewrite dec_fuel_app, digits_value_snoc.
      rewrite digit_value_char by (apply Z.mod_pos_bound; lia).
      rewrite IH.
      * pose proof (Z.div_mod n 10). lia.
      * split; [apply Z.div_pos; lia |].
        apply Z.div_lt_upper_bound; [lia |].
        replace (Z.of_nat (S f) + 1) with (Z.succ (Z.of_nat f + 1)) in Hn by lia.
        rewrite Z.pow_succ_r in Hn by lia. lia.
Qed.

Lemma log2_fuel_enough n : 0 <= n -> n < 10 ^ (Z.of_nat (Z.to_nat (Z.log2 n)) + 1).
Proof.
  intros Hn. rewrite Z2Nat.id by apply Z.log2_nonneg.
  destruct (Z.eq_dec n 0) as [-> | Hz]; [reflexivity |].
  pose proof (Z.log2_spec n ltac:(lia)) as [_ Hhi].
  eapply Z.lt_le_trans; [exact Hhi |].
  rewrite <- Z.add_1_r.
  apply Z.pow_le_mono_l. lia.
Qed.

Lemma dec_digits n : Forall (fun c => is_digit c = true) (dec n).
Proof. apply dec_fuel_digits. Qed.

Lemma dec_value n : 0 <= n -> digits_value (dec n) = n.
Proof.
  intros Hn. apply dec_fuel_value. split; [assumption |].
  apply log2_fuel_enough. assumption.
Qed.

Lemma dec_nonempty n : dec n <> [].
Proof.
  unfold dec. destruct (Z.to_nat (Z.log2 n)); simpl; [discriminate |].
  destruct (n <? 10); [discriminate |].
  rewrite dec_fuel_app. intros H. apply app_eq_nil in H as [_ H]. discriminate.
Qed.

Lemma dec_head n : exists c r, dec n = c :: r /\ is_digit c = true.
Proof.
  pose proof (dec_digits n) as H. pose proof (dec_nonempty n) as Hne.
  destruct (dec n) as [| c r]; [congruence |].
  inversion H; subst. eauto.
Qed.

(** ** The conversions at work *)

Example parseInt_stops_at_letter : parseInt (js "12abc") = Fin false 12.
Proof. reflexivity. Qed.

Example parseInt_skips_space : parseInt (js "  -7") = Fin true 7.
Proof. reflexivity. Qed.

Example print_two_pow_53_plus_1 :
  number_to_string (parseInt (js "9007199254740993")) = js "9007199254740992".
Proof. vm_compute. reflexivity. Qed.

Example print_two_pow_60 :
  number_to_string (parseInt (js "1152921504606846976"))
  = js "1152921504606847000".
Proof. vm_compute. reflexivity. Qed.

Example print_exponent :
  number_to_string (parseInt (js "123456789012345680000000"))
  = js "1.2345678901234569e+23".
Proof. vm_compute. reflexivity. Qed.

Example print_ten_pow_21 :
  number_to_string (parseInt (js "1000000000000000000000")) = js "1e+21".
Proof. vm_compute. reflexivity. Qed.

Example trim_both_ends : trim (js "  a b  ") = js "a b".
Proof. reflexivity. Qed.

(** ** Rounding to a double *)

Lemma round53_small m : 0 <= m < 2 ^ 53 -> round53 m = m.
Proof.
  intros [H0 H1]. unfold round53.
  destruct (Z.eq_dec m 0) as [-> | Hz]; [reflexivity |].
  assert (Z.log2 m < 53) by (apply Z.log2_lt_pow2; lia).
  destruct (Z.leb_spec (Z.log2 m - 52) 0); [reflexivity | lia].
Qed.

Lemma round53_large m : 2 ^ 53 <= m -> 2 ^ 53 <= round53 m.
Proof.
  intros H. unfold round53.
  assert (Hl : 53 <= Z.log2 m) by (apply Z.log2_le_pow2; lia).
  destruct (Z.leb_spec (Z.log2 m - 52) 0) as [He | He]; [lia |].
  set (e := Z.log2 m - 52) in *.
  assert (Hq : 2 ^ 52 <= Z.shiftr m e).
  { rewrite Z.shiftr_div_pow2 by lia.
    apply Z.div_le_lower_bound; [apply Z.pow_pos_nonneg; lia |].
    rewrite Z.mul_comm, <- Z.pow_add_r by lia.
    replace (52 + e) with (Z.log2 m) by (unfold e; lia).
    apply Z.log2_spec. lia. }
  assert (Hq' : 2 ^ 52 <=
    (if m - Z.shiftl (Z.shiftr m e) e <? Z.shiftl 1 (e - 1) then Z.shiftr m e
     else if Z.shiftl 1 (e - 1) <? m - Z.shiftl (Z.shiftr m e) e
          then Z.shiftr m e + 1
          else if Z.even (Z.shiftr m e) then Z.shiftr m e
               else Z.shiftr m e + 1)).
  { repeat match goal with |- context [if ?b then _ else _] => destruct b end; lia. }
  rewrite Z.shiftl_mul_pow2 by lia.
  assert (2 ^ 1 <= 2 ^ e) by (apply Z.pow_le_mono_r; lia).
  change (2 ^ 53) with (2 ^ 52 * 2 ^ 1).
  apply Z.mul_le_mono_nonneg; lia.
Qed.

Lemma round53_nonneg m : 0 <= m -> 0 <= round53 m.
Proof.
  intros H. destruct (Z.lt_ge_cases m (2 ^ 53)).
  - rewrite round53_small; lia.
  - pose proof (round53_large m ltac:(assumption)). lia.
Qed.

Lemma round53_pos m : 0 < m -> 0 < round53 m.
Proof.
  intros H. destruct (Z.lt_ge_cases m (2 ^ 53)).
  - rewrite round53_small; lia.
  - pose proof (round53_large m ltac:(assumption)). lia.
Qed.

(** Below 2^53 a value is the double only of itself. *)
Lemma round53_eq_small v x : 0 <= v -> 0 <= x < 2 ^ 53 -> round53 v = x -> v = x.
Proof.
  intros Hv Hx E. destruct (Z.lt_ge_cases v (2 ^ 53)).
  - rewrite round53_small in E; lia.
  - pose proof (round53_large v ltac:(assumption)). lia.
Qed.

Lemma round_signed_lt z c : 0 <= c < 2 ^ 53 -> round_signed z < c <-> z < c.
Proof.
  intros Hc. unfold round_signed. destruct (Z.ltb_spec z 0) as [Hz | Hz].
  - pose proof (round53_pos (- z) ltac:(lia)). lia.
  - destruct (Z.lt_ge_cases z (2 ^ 53)).
    + rewrite round53_small; lia.
    + pose proof (round53_large z ltac:(assumption)). lia.
Qed.

(** ** The shortest decimal *)

Lemma candidate_pos x p v : 0 < x -> 0 < p -> candidate x p = Some v -> 0 < v.
Proof.
  intros Hx Hp. unfold candidate.
  assert (Hs : 0 <= x / p) by (apply Z.div_pos; lia).
  generalize (x / p) Hs. intros s Hs'.
  assert (Hlo : 0 < s -> 0 < s * p) by nia.
  assert (Hhi : 0 < s * p + p) by nia.
  destruct (Z.ltb_spec 0 s) as [Hs1 | Hs1]; cbn [andb];
    repeat match goal with |- context [if ?b then _ else _] => destruct b end;
    intros E; inversion E; subst; auto.
Qed.

Lemma candidate_round x p v :
  candidate x p = Some v ->
  round53 v = x /\ (v = x / p * p \/ v = x / p * p + p).
Proof.
  unfold candidate.
  destruct (0 <? x / p); simpl;
    destruct (Z.eqb_spec (round53 (x / p * p)) x);
    destruct (Z.eqb_spec (round53 (x / p * p + p)) x);
    repeat match goal with |- context [if ?b then _ else _] => destruct b end;
    intros E; inversion E; subst; auto.
Qed.

Lemma shortest_scan_pos x j : 0 < x -> 0 < shortest_scan x j.
Proof.
  intros Hx. induction j as [| j IH]; [exact Hx |].
  cbn [shortest_scan]. destruct (candidate x (10 ^ Z.of_nat (S j))) eqn:E; [| exact IH].
  eapply candidate_pos; [exact Hx | | exact E]. apply Z.pow_pos_nonneg; lia.
Qed.

Lemma shortest_scan_small x j : 0 < x < 2 ^ 53 -> shortest_scan x j = x.
Proof.
  intros Hx. induction j as [| j IH]; [reflexivity |].
  cbn [shortest_scan]. destruct (candidate x (10 ^ Z.of_nat (S j))) eqn:E; [| exact IH].
  assert (Hp : 0 < 10 ^ Z.of_nat (S j)) by (apply Z.pow_pos_nonneg; lia).
  pose proof (candidate_pos _ _ _ (proj1 Hx) Hp E).
  apply candidate_round in E as [E _].
  apply round53_eq_small in E; lia.
Qed.

Lemma shortest_pos x : 0 < x -> 0 < shortest x.
Proof. apply shortest_scan_pos. Qed.

Lemma shortest_small x : 0 < x < 2 ^ 53 -> shortest x = x.
Proof. apply shortest_scan_small. Qed.

(** ** [parseInt] on a decimal *)

Lemma to_number_small neg m : 0 <= m < 2 ^ 53 -> to_number neg m = Fin neg m.
Proof.
  intros H. unfold to_number. rewrite round53_small by assumption.
  destruct (Z.leb_spec (2 ^ 1024) m) as [Hb | Hb]; [| reflexivity].
  assert (2 ^ 53 <= 2 ^ 1024) by (apply Z.pow_le_mono_r; lia). lia.
Qed.

Lemma to_number_Fin neg d neg' m :
  0 <= d -> to_number neg d = Fin neg' m -> neg' = neg /\ m = round53 d.
Proof.
  unfold to_number. intros _. destruct (2 ^ 1024 <=? round53 d); [discriminate |].
  intros E. inversion E. auto.
Qed.

Lemma parseInt_digits c r :
  Forall (fun c => is_digit c = true) (c :: r) ->
  parseInt (c :: r) = to_number false (digits_value (c :: r)).
Proof.
  intros H. pose proof H as H'. inversion H' as [| ? ? Hc Hr]; subst.
  unfold parseInt. cbn [trim_start]. rewrite (digit_not_space _ Hc).
  apply is_digit_range in Hc.
  destruct (N.eqb_spec c 45); [lia |]. destruct (N.eqb_spec c 43); [lia |].
  rewrite take_digits_all by assumption. reflexivity.
Qed.

Lemma parseInt_minus_digits c r :
  Forall (fun c => is_digit c = true) (c :: r) ->
  parseInt (45%N :: c :: r) = to_number true (digits_value (c :: r)).
Proof.
  intros H. unfold parseInt. cbn [trim_start].
  change (is_white_space 45) with false. cbv iota.
  change (45 =? 45)%N with true. cbv iota.
  rewrite take_digits_all by assumption. reflexivity.
Qed.

Lemma parseInt_dec m : 0 <= m -> parseInt (dec m) = to_number false m.
Proof.
  intros Hm. pose proof (dec_digits m) as Hd. pose proof (dec_value m Hm) as Hv.
  destruct (dec_head m) as (c & r & E & _). rewrite E in *.
  rewrite parseInt_digits by assumption. congruence.
Qed.

Lemma parseInt_minus_dec m : 0 <= m -> parseInt (js "-" ++ dec m) = to_number true m.
Proof.
  intros Hm. pose proof (dec_digits m) as Hd. pose proof (dec_value m Hm) as Hv.
  destruct (dec_head m) as (c & r & E & _). rewrite E in *.
  change (js "-" ++ c :: r) with (45%N :: c :: r).
  rewrite parseInt_minus_digits by assumption. congruence.
Qed.

(** A digit followed by something else parses as that digit. *)
Lemma parseInt_one_digit d c t :
  is_digit d = true -> is_digit c = false ->
  parseInt (d :: c :: t) = Fin false (digit_value d)
  /\ parseInt (45%N :: d :: c :: t) = Fin true (digit_value d).
Proof.
  intros Hd Hc. pose proof (digit_value_range _ Hd) as Hr.
  assert (E : take_digits (d :: c :: t) = [d]) by (simpl; rewrite Hd, Hc; reflexivity).
  assert (V : digits_value [d] = digit_value d) by reflexivity.
  split.
  - unfold parseInt. cbn [trim_start]. rewrite (digit_not_space _ Hd).
    apply is_digit_range in Hd.
    destruct (N.eqb_spec d 45); [lia |]. destruct (N.eqb_spec d 43); [lia |].
    rewrite E, V. apply to_number_small. lia.
  - unfold parseInt. cbn [trim_start]. change (is_white_space 45) with false.
    cbv iota. change (45 =? 45)%N with true. cbv iota.
    rewrite E, V. apply to_number_small. lia.
Qed.

Lemma parseInt_Fin s neg m : parseInt s = Fin neg m -> 0 <= m.
Proof.
  unfold parseInt.
  destruct (match trim_start s with
            | [] => (false, [])
            | c :: r => if (c =? 45)%N then (true, r)
                        else if (c =? 43)%N then (false, r)
                        else (false, trim_start s)
            end) as [ng s2].
  pose proof (take_digits_digits s2) as Hd.
  destruct (take_digits s2) as [| c z] eqn:E; [discriminate |].
  intros H. apply to_number_Fin in H as [_ ->].
  - apply round53_nonneg, digits_value_nonneg, Hd.
  - apply digits_value_nonneg, Hd.
Qed.

(** ** The decimal representation, on the characters *)

Lemma dec_fuel_indep f : forall g n,
  0 <= n < 10 ^ (Z.of_nat f + 1) -> n < 10 ^ (Z.of_nat g + 1) ->
  dec_fuel f n [] = dec_fuel g n [].
Proof.
  induction f as [| f IH]; intros g n Hf Hg.
  - destruct g as [| g]; [reflexivity |]. simpl in *.
    destruct (Z.ltb_spec n 10); [reflexivity | lia].
  - destruct g as [| g]; simpl dec_fuel.
    + simpl in Hg. destruct (Z.ltb_spec n 10); [reflexivity | lia].
    + destruct (Z.ltb_spec n 10); [reflexivity |].
      rewrite dec_fuel_app, (dec_fuel_app g). f_equal.
      replace (Z.of_nat (S f) + 1) with (Z.succ (Z.of_nat f + 1)) in Hf by lia.
      replace (Z.of_nat (S g) + 1) with (Z.succ (Z.of_nat g + 1)) in Hg by lia.
      rewrite Z.pow_succ_r in Hf, Hg by lia.
      apply IH.
      * split; [apply Z.div_pos; lia | apply Z.div_lt_upper_bound; lia].
      * apply Z.div_lt_upper_bound; lia.
Qed.

Lemma dec_fuel_dec f n : 0 <= n < 10 ^ (Z.of_nat f + 1) -> dec_fuel f n [] = dec n.
Proof.
  intros H. apply dec_fuel_indep; [assumption |].
  apply log2_fuel_enough. lia.
Qed.

Lemma dec_one_digit n : 0 <= n < 10 -> dec n = [digit_char n].
Proof.
  intros H. rewrite <- (dec_fuel_dec 0) by (simpl; lia).
  simpl. rewrite Z.mod_small by lia. reflexivity.
Qed.

Lemma dec_step n : 10 <= n -> dec n = dec (n / 10) ++ [digit_char (n mod 10)].
Proof.
  intros H. set (f := Z.to_nat (Z.log2 n)).
  assert (Hf : n < 10 ^ (Z.of_nat f + 1)) by (apply log2_fuel_enough; lia).
  rewrite <- (dec_fuel_dec (S f) n).
  - simpl dec_fuel. destruct (Z.ltb_spec n 10); [lia |].
    rewrite dec_fuel_app. f_equal. apply dec_fuel_dec.
    split; [apply Z.div_pos; lia |].
    apply Z.div_lt_upper_bound; [lia |].
    eapply Z.lt_le_trans; [exact Hf |].
    assert (0 < 10 ^ (Z.of_nat f + 1)) by (apply Z.pow_pos_nonneg; lia). lia.
  - split; [lia |].
    replace (Z.of_nat (S f) + 1) with (Z.succ (Z.of_nat f + 1)) by lia.
    rewrite Z.pow_succ_r by lia. lia.
Qed.

Lemma digit_char_value c : is_digit c = true -> digit_char (digit_value c) = c.
Proof. rewrite is_digit_range. unfold digit_char, digit_value. lia. Qed.

Lemma is_decimal_Decimal s : is_decimal s = true <-> Decimal s.
Proof.
  unfold Decimal. destruct s as [| c [| d r]]; simpl.
  - split; [discriminate | intros [H _]; congruence].
  - split.
    + intros H. repeat split; [discriminate | repeat constructor; assumption |].
      intros r E. inversion E. reflexivity.
    + intros (_ & H & _). inversion H. assumption.
  - rewrite !andb_true_iff, negb_true_iff, N.eqb_neq, forallb_forall.
    split.
    + intros [[Hc Hz] [Hd Hr]]. repeat split; [discriminate | |].
      * constructor; [assumption |]. constructor; [assumption |].
        apply Forall_forall. intros x Hx. apply Hr, list_elem_of_In, Hx.
      * intros r' E. inversion E. congruence.
    + intros (_ & H & Hz). inversion H as [| ? ? Hc H']; subst.
      inversion H' as [| ? ? Hd Hr]; subst.
      repeat split; try assumption.
      * intros ->. specialize (Hz _ eq_refl). discriminate.
      * intros x Hx. rewrite Forall_forall in Hr. apply Hr, list_elem_of_In, Hx.
Qed.

Lemma dec_zero : dec 0 = [48%N].
Proof. reflexivity. Qed.

Lemma Decimal_dec s : Decimal s -> dec (digits_value s) = s.
Proof.
  induction s as [| c s IH] using rev_ind; intros (Hne & Hd & Hz); [congruence |].
  apply Forall_app in Hd as [Hs Hc]. inversion Hc as [| ? ? Hc' _]; subst.
  pose proof (digit_value_range _ Hc') as Hr.
  rewrite digits_value_snoc.
  destruct s as [| d s].
  - change (digits_value []) with 0. rewrite Z.mul_0_l, Z.add_0_l.
    rewrite dec_one_digit by assumption. rewrite digit_char_value by assumption.
    reflexivity.
  - assert (HD : Decimal (d :: s)).
    { repeat split; [discriminate | assumption |].
      intros r E. inversion E; subst. specialize (Hz (r ++ [c]) eq_refl).
      destruct r; discriminate. }
    specialize (IH HD).
    assert (Hv : 0 <= digits_value (d :: s)) by (apply digits_value_nonneg; assumption).
    assert (Hv' : digits_value (d :: s) <> 0).
    { intros E. rewrite E, dec_zero in IH. inversion IH; subst.
      specialize (Hz ([] ++ [c]) eq_refl). discriminate. }
    rewrite dec_step by lia.
    replace ((digits_value (d :: s) * 10 + digit_value c) / 10)
      with (digits_value (d :: s)).
    2:{ symmetry. rewrite Z.add_comm, Z.div_add by lia.
        rewrite Z.div_small by lia. reflexivity. }
    replace ((digits_value (d :: s) * 10 + digit_value c) mod 10)
      with (digit_value c).
    2:{ symmetry. rewrite Z.add_comm, Z.mod_add by lia.
        apply Z.mod_small. lia. }
    rewrite IH, digit_char_value by assumption. reflexivity.
Qed.

Lemma dec_fuel_head f : forall n,
  0 < n < 10 ^ (Z.of_nat f + 1) ->
  exists c r, dec_fuel f n [] = c :: r /\ c <> 48%N.
Proof.
  assert (Hone : forall n, 0 < n < 10 -> digit_char (n mod 10) <> 48%N).
  { intros n Hn. rewrite Z.mod_small by lia. unfold digit_char. lia. }
  induction f as [| f IH]; intros n Hn.
  - simpl in *. eauto.
  - simpl dec_fuel. destruct (Z.ltb_spec n 10); [eauto with lia |].
    replace (Z.of_nat (S f) + 1) with (Z.succ (Z.of_nat f + 1)) in Hn by lia.
    rewrite Z.pow_succ_r in Hn by lia.
    destruct (IH (n / 10)) as (c & r & E & Hc).
    { split; [apply Z.div_str_pos; lia | apply Z.div_lt_upper_bound; lia]. }
    rewrite dec_fuel_app, E. simpl. eauto.
Qed.

Lemma dec_Decimal n : 0 <= n -> Decimal (dec n).
Proof.
  intros Hn. repeat split; [apply dec_nonempty | apply dec_digits |].
  intros r E. destruct (Z.eq_dec n 0) as [-> | Hz].
  - rewrite dec_zero in E. inversion E. reflexivity.
  - destruct (dec_fuel_head (Z.to_nat (Z.log2 n)) n) as (c & r' & E' & Hc).
    { split; [lia | apply log2_fuel_enough; lia]. }
    unfold dec in E. rewrite E' in E. inversion E. congruence.
Qed.

Lemma is_decimal_iff s :
  is_decimal s = true <-> exists n, 0 <= n /\ s = dec n.
Proof.
  rewrite is_decimal_Decimal. split.
  - intros H. exists (digits_value s). split.
    + apply digits_value_nonneg, H.
    + symmetry. apply Decimal_dec, H.
  - intros (n & Hn & ->). apply dec_Decimal, Hn.
Qed.

Lemma is_signed_decimal_iff s :
  is_signed_decimal s = true <-> exists n, s = decimal n.
Proof.
  unfold is_signed_decimal, decimal. split.
  - destruct s as [| c r]; [discriminate |].
    destruct (N.eqb_spec c 45) as [-> | Hc].
    + rewrite andb_true_iff, negb_true_iff, bool_decide_eq_false.
      intros [H Hz]. apply is_decimal_iff in H as (m & Hm & ->).
      exists (- m). assert (m <> 0) by (intros ->; apply Hz; reflexivity).
      destruct (Z.ltb_spec (- m) 0); [| lia].
      rewrite Z.opp_involutive. reflexivity.
    + intros H. apply is_decimal_iff in H as (m & Hm & E).
      exists m. destruct (Z.ltb_spec m 0); [lia | assumption].
  - intros (n & ->). destruct (Z.ltb_spec n 0) as [Hn | Hn].
    + change (js "-" ++ dec (- n)) with (45%N :: dec (- n)).
      cbv beta iota. change (45 =? 45)%N with true. cbv iota.
      rewrite andb_true_iff, negb_true_iff, bool_decide_eq_false.
      split; [apply is_decimal_iff; exists (- n); split; [lia | reflexivity] |].
      intros E. pose proof (dec_value (- n) ltac:(lia)) as Hv.
      rewrite E in Hv. change (digits_value [48%N]) with 0 in Hv. lia.
    + destruct (dec_head n) as (c & r & E & Hc). rewrite E.
      apply is_digit_range in Hc. destruct (N.eqb_spec c 45); [lia |].
      rewrite <- E. apply is_decimal_iff. eauto.
Qed.

End JSFacts.

(* ===================================================================== *)
(** * The backport assistant: properties                                  *)
(* ===================================================================== *)

Module BackportSpec.

Import JS JSFacts Backport.
Local Open Scope Z_scope.

Lemma drop_zeros_Forall (P : N -> Prop) l : Forall P l -> Forall P (drop_zeros l).
Proof.
  induction 1 as [| c l Hc Hl IH]; simpl; [constructor |].
  destruct (c =? 48)%N; [exact IH | constructor; assumption].
Qed.

Lemma accepted_iff s :
  pr_number_accepted (Some s) = true
  <-> parseInt s <> NaN /\ number_to_string (parseInt s) = s.
Proof.
  unfold pr_number_accepted, pr_number_rejected. cbn [interpolate].
  rewrite negb_true_iff, orb_false_iff, negb_false_iff, bool_decide_eq_true.
  split.
  - intros [Hn E]. split; [| congruence].
    intros E'. rewrite E' in Hn. discriminate.
  - intros [Hn E]. split; [| congruence].
    destruct (parseInt s); [congruence | reflexivity | reflexivity].
Qed.

(** What prints in exponential notation does not parse back to itself. *)
Lemma exp_format_not_parsed sign v neg m :
  sign = [] \/ sign = js "-" ->
  0 < m -> 10 ^ 21 <= shortest m ->
  parseInt (sign ++ exp_format v) <> Fin neg m.
Proof.
  intros Hsign Hm Hbig E. unfold exp_format in E.
  assert (Hd : Forall (fun c => is_digit c = true)
                 (rev (drop_zeros (rev (dec v)))))
    by (apply Forall_rev, drop_zeros_Forall, Forall_rev, dec_digits).
  assert (Hone : forall d c t, is_digit d = true -> is_digit c = false ->
            parseInt (sign ++ d :: c :: t) <> Fin neg m).
  { intros d c t Hd' Hc E'.
    destruct (parseInt_one_digit d c t Hd' Hc) as [E1 E2].
    pose proof (digit_value_range _ Hd') as Hr.
    assert (m = digit_value d)
      by (destruct Hsign as [-> | ->]; cbn [app js List.map list_ascii_of_string] in E';
          [rewrite E1 in E' | change (N_of_ascii "-") with 45%N in E'; rewrite E2 in E'];
          inversion E'; reflexivity).
    rewrite shortest_small in Hbig by lia. lia. }
  destruct (rev (drop_zeros (rev (dec v)))) as [| d [| d2 rest]].
  - destruct Hsign as [-> | ->]; vm_compute in E; discriminate.
  - inversion Hd; subst. eapply (Hone d 101%N); [assumption | reflexivity | exact E].
  - inversion Hd; subst. eapply (Hone d 46%N); [assumption | reflexivity | exact E].
Qed.

Lemma accepted_is_decimal s :
  pr_number_accepted (Some s) = true -> exists n, s = decimal n.
Proof.
  rewrite accepted_iff. intros [Hn E].
  destruct (parseInt s) as [| neg | neg m] eqn:P; [congruence | |].
  - exfalso. subst s. destruct neg; vm_compute in P; discriminate.
  - pose proof (parseInt_Fin _ _ _ P) as Hm.
    cbn [number_to_string] in E.
    destruct (m =? 0) eqn:Hz.
    + exists 0. subst s. reflexivity.
    + apply Z.eqb_neq in Hz.
      pose proof (shortest_pos m ltac:(lia)) as Hv. cbv zeta in E.
      destruct (shortest m <? 10 ^ 21) eqn:Hcmp.
      * exists (if neg then - shortest m else shortest m).
        unfold decimal. destruct neg.
        -- destruct (Z.ltb_spec (- shortest m) 0); [| lia].
           rewrite Z.opp_involutive. symmetry. exact E.
        -- destruct (Z.ltb_spec (shortest m) 0); [lia |]. symmetry. exact E.
      * exfalso. apply Z.ltb_ge in Hcmp. rewrite <- E in P. revert P.
        apply exp_format_not_parsed; [destruct neg; auto | lia | assumption].
Qed.

Lemma decimal_accepted n :
  - 2 ^ 53 < n < 2 ^ 53 -> pr_number_accepted (Some (decimal n)) = true.
Proof.
  intros Hn. apply accepted_iff. unfold decimal.
  assert (H21 : 2 ^ 53 < 10 ^ 21) by reflexivity.
  destruct (Z.ltb_spec n 0) as [Hneg | Hpos].
  - rewrite parseInt_minus_dec by lia. rewrite to_number_small by lia.
    split; [discriminate |]. cbn [number_to_string].
    destruct (Z.eqb_spec (- n) 0); [lia |]. cbv zeta.
    rewrite shortest_small by lia.
    destruct (Z.ltb_spec (- n) (10 ^ 21)); [reflexivity | lia].
  - rewrite parseInt_dec by lia. rewrite to_number_small by lia.
    split; [discriminate |]. cbn [number_to_string].
    destruct (Z.eqb_spec n 0) as [-> | Hz]; [reflexivity |]. cbv zeta.
    rewrite shortest_small by lia.
    destruct (Z.ltb_spec n (10 ^ 21)); [reflexivity | lia].
Qed.

Lemma not_clean_iff r :
  not_clean r = true <-> status r <> Some 0 \/ trim (stdout r) <> [].
Proof.
  unfold not_clean, status_is_zero.
  rewrite orb_true_iff, !negb_true_iff, bool_decide_eq_false, Nat.eqb_neq.
  destruct (trim (stdout r)); simpl; intuition (try congruence; try lia).
Qed.

(** Every trace of [git_steps] on a tree that is not clean. *)
Lemma git_steps_not_clean w n sha b :
  not_clean (git w status_args) = true ->
  git_steps w n sha b = [Git status_args; Fatal not_clean_msg].
Proof.
  intros H. unfold git_steps. fold status_args. rewrite H. reflexivity.
Qed.

Lemma not_clean_stops w arg :
  not_clean (git w status_args) = true ->
  exists pre msg,
    action w arg = pre ++ [Fatal msg]
    /\ forall args, In (Git args) pre -> args = status_args.
Proof.
  intros H. unfold action.
  destruct (pr_number_rejected arg).
  { exists [], (number_required_msg arg). split; [reflexivity | intros ? []]. }
  set (n := parseInt (interpolate arg)).
  set (auth := if truthy (gh_auth_env w) then [] else [GetGitHubAuthToken]).
  assert (Hauth : forall args, ~ In (Git args) auth)
    by (intros args; unfold auth; destruct (truthy _); simpl; intuition discriminate).
  destruct (merge_commit_sha (pulls_get w n)) as [[| c sha] |].
  - exists (auth ++ [UsersGetAuthenticated; PullsGet n]), (js "No merge SHA available on PR").
    split; [rewrite <- app_assoc; reflexivity |].
    intros args Hin. apply in_app_or in Hin as [Hin | Hin]; [destruct (Hauth _ Hin) |].
    simpl in Hin. intuition discriminate.
  - destruct (length (targetBranches (pulls_get w n)) =? 0)%nat.
    + eexists (auth ++ [UsersGetAuthenticated; PullsGet n]), _.
      split; [rewrite <- app_assoc; reflexivity |].
      intros args Hin. apply in_app_or in Hin as [Hin | Hin]; [destruct (Hauth _ Hin) |].
      simpl in Hin. intuition discriminate.
    + rewrite git_steps_not_clean by assumption.
      eexists (auth ++ [UsersGetAuthenticated; PullsGet n; Prompt _; Git status_args]), _.
      split; [rewrite <- app_assoc; reflexivity |].
      intros args Hin. apply in_app_or in Hin as [Hin | Hin]; [destruct (Hauth _ Hin) |].
      simpl in Hin. destruct Hin as [Hin | [Hin | [Hin | [Hin | []]]]]; try discriminate.
      inversion Hin. reflexivity.
  - exists (auth ++ [UsersGetAuthenticated; PullsGet n]), (js "No merge SHA available on PR").
    split; [rewrite <- app_assoc; reflexivity |].
    intros args Hin. apply in_app_or in Hin as [Hin | Hin]; [destruct (Hauth _ Hin) |].
    simpl in Hin. intuition discriminate.
Qed.

Lemma git_steps_create w n sha target b :
  In (create_branch b) (git_steps w n sha target) ->
  b = manualBpBranch (user_login w) n target
  /\ exists pre post,
       git_steps w n sha target
       = pre ++ delete_branch b :: create_branch b :: post.
Proof.
  unfold git_steps, create_branch, delete_branch.
  generalize (manualBpBranch (user_login w) n target). intros name.
  destruct (not_clean _).
  { intros [H | [H | []]]; compute in H; discriminate. }
  destruct (negb (status_is_zero (git w [js "checkout"; target]))).
  { intros [H | [H | [H | []]]]; compute in H; discriminate. }
  destruct (negb (status_is_zero (git w [js "pull"; js "origin"; target]))).
  { intros [H | [H | [H | [H | []]]]]; compute in H; discriminate. }
  assert (Hshape : forall post,
    In (Git [js "checkout"; js "-b"; b])
       (Git [js "status"; js "--porcelain"] :: Git [js "checkout"; target]
        :: Git [js "pull"; js "origin"; target] :: Git [js "branch"; js "-D"; name]
        :: Git [js "checkout"; js "-b"; name] :: post) ->
    (forall e, In e post -> e <> Git [js "checkout"; js "-b"; b]) ->
    b = name).
  { intros post [H | [H | [H | [H | [H | H]]]]] Hpost;
      try (compute in H; discriminate); try (inversion H; fail).
    - inversion H. reflexivity.
    - destruct (Hpost _ H eq_refl). }
  destruct (negb (status_is_zero (git w [js "checkout"; js "-b"; name]))); intros Hin.
  - assert (b = name) as ->.
    { eapply Hshape; [exact Hin |]. intros e [<- | []]. discriminate. }
    split; [reflexivity |].
    eexists [_; _; _], _. reflexivity.
  - assert (b = name) as ->.
    { eapply Hshape; [exact Hin |].
      intros e [<- | [<- | []]]; [| discriminate].
      intros H. compute in H. discriminate. }
    split; [reflexivity |].
    eexists [_; _; _], _. reflexivity.
Qed.

Lemma action_create w arg b :
  In (create_branch b) (action w arg) ->
  b = manualBpBranch (user_login w) (parseInt (interpolate arg)) (chosen_branch w arg)
  /\ exists pre post,
       action w arg = pre ++ delete_branch b :: create_branch b :: post.
Proof.
  unfold action, chosen_branch.
  destruct (pr_number_rejected arg).
  { intros [H | []]. discriminate. }
  set (n := parseInt (interpolate arg)).
  set (auth := if truthy (gh_auth_env w) then [] else [GetGitHubAuthToken]).
  assert (Hauth : ~ In (create_branch b) auth)
    by (unfold auth; destruct (truthy _); simpl; intuition discriminate).
  intros Hin. apply in_app_or in Hin as [Hin | Hin]; [destruct (Hauth Hin) |].
  destruct Hin as [Hin | [Hin | Hin]]; [discriminate | discriminate |].
  destruct (merge_commit_sha (pulls_get w n)) as [[| c sha] |];
    try (destruct Hin as [Hin | []]; discriminate).
  destruct (length (targetBranches (pulls_get w n)) =? 0)%nat;
    [destruct Hin as [Hin | []]; discriminate |].
  destruct Hin as [Hin | Hin]; [discriminate |].
  apply git_steps_create in Hin as (-> & pre & post & E).
  split; [reflexivity |].
  exists (auth ++ UsersGetAuthenticated :: PullsGet n
          :: Prompt (targetBranches (pulls_get w n)) :: pre), post.
  rewrite E, <- app_assoc. reflexivity.
Qed.

(** ** The properties of the specification *)

(** C1, as amended. Whatever the validator accepts is the decimal
    representation of an integer: digits with no leading zero and
    nothing else, after a minus sign when the integer is negative. The
    decimal representation of every integer of magnitude below 2^53 is
    accepted. An argument that is not accepted ends the action with the
    fatal error of the input validation, before anything else is done. *)
Theorem pr_validator_spec (w : world) (s : jsstring) (n : Z) :
  (pr_number_accepted (Some s) = true -> is_signed_decimal s = true)
  /\ (- 2 ^ 53 < n < 2 ^ 53 -> pr_number_accepted (Some (decimal n)) = true)
  /\ (pr_number_accepted (Some s) = false ->
      action w (Some s) = [Fatal (number_required_msg (Some s))]).
Proof.
  split; [| split].
  - intros H. apply is_signed_decimal_iff, accepted_is_decimal, H.
  - apply decimal_accepted.
  - unfold pr_number_accepted, action. intros H.
    apply negb_false_iff in H. rewrite H. reflexivity.
Qed.

Lemma pr_validator_spec_witness :
  is_signed_decimal (js "42") = true
  /\ pr_number_accepted (Some (js "42")) = true
  /\ action (sample_world []) (Some (js "4a"))
     = [Fatal (number_required_msg (Some (js "4a")))].
Proof.
  destruct (pr_validator_spec (sample_world []) (js "42") 42) as (H1 & H2 & _).
  destruct (pr_validator_spec (sample_world []) (js "4a") 0) as (_ & _ & H3).
  assert (H : pr_number_accepted (Some (js "42")) = true)
    by (apply H2; lia).
  split; [apply H1, H |]. split; [exact H |].
  apply H3. vm_compute. reflexivity.
Defined.

(** C1 as it is stated fails in both directions: ["-5"] is accepted and
    is not the representation of a non-negative integer; 2^53 + 1 is
    written without a leading zero and is rejected, because as a double
    it prints back as 2^53. *)
Lemma pr_validator_not_nonneg_decimal :
  (pr_number_accepted (Some (js "-5")) = true
   /\ is_decimal (js "-5") = false)
  /\ (is_decimal (js "9007199254740993") = true
      /\ pr_number_accepted (Some (js "9007199254740993")) = false).
Proof. repeat split; vm_compute; reflexivity. Qed.

Example pr_validator_examples :
  pr_number_accepted (Some (js "42")) = true
  /\ pr_number_accepted (Some (js "042")) = false
  /\ pr_number_accepted (Some (js "4a")) = false
  /\ pr_number_accepted (Some (js "12abc")) = false
  /\ pr_number_accepted (Some (js "")) = false
  /\ pr_number_accepted (Some (js " 42")) = false
  /\ pr_number_accepted (Some (js "+42")) = false
  /\ pr_number_accepted (Some (js "-0")) = false
  /\ pr_number_accepted (Some (js "1e3")) = false
  /\ pr_number_accepted None = false.
Proof. repeat split; vm_compute; reflexivity. Qed.

(** C7, as amended. When the status query exits with a status other
    than 0, or prints anything that is not white space, the run ends
    with a fatal error and the status query is the only git call it has
    made. *)
Theorem dirty_tree_stops (w : world) (arg : option jsstring) :
  status (git w status_args) <> Some 0
  \/ trim (stdout (git w status_args)) <> [] ->
  exists pre msg,
    action w arg = pre ++ [Fatal msg]
    /\ forall args, In (Git args) pre -> args = status_args.
Proof.
  intros H. apply not_clean_stops, not_clean_iff, H.
Qed.

Lemma dirty_tree_stops_witness :
  exists pre msg,
    action (sample_world (js " M README.md")) (Some (js "42"))
    = pre ++ [Fatal msg]
    /\ forall args, In (Git args) pre -> args = status_args.
Proof.
  apply (dirty_tree_stops (sample_world (js " M README.md")) (Some (js "42"))).
  right. vm_compute. discriminate.
Defined.

(** C7 as it is stated fails on output that is not empty but blank:
    after a single line feed the run goes on to the checkout. *)
Lemma blank_status_output_proceeds :
  stdout (git (sample_world newline) status_args) <> []
  /\ status (git (sample_world newline) status_args) = Some 0
  /\ In (Git [js "checkout"; js "12-x-y"])
        (action (sample_world newline) (Some (js "42"))).
Proof. split; [discriminate | split; [reflexivity | vm_compute; tauto]]. Qed.

Example run_clean :
  action (sample_world []) (Some (js "42"))
  = [UsersGetAuthenticated; PullsGet (Fin false 42); Prompt [js "12-x-y"];
     Git status_args; Git [js "checkout"; js "12-x-y"];
     Git [js "pull"; js "origin"; js "12-x-y"];
     delete_branch (js "manual-bp/octocat/pr/42/branch/12-x-y");
     create_branch (js "manual-bp/octocat/pr/42/branch/12-x-y");
     Git [js "cherry-pick"; js "0a1b2c3"]; InfoCherryPickComplete].
Proof. vm_compute. reflexivity. Qed.

Lemma create_accepted w arg b :
  In (create_branch b) (action w arg) ->
  exists s, arg = Some s /\ number_to_string (parseInt s) = s.
Proof.
  intros H.
  assert (Ha : pr_number_accepted arg = true).
  { unfold pr_number_accepted. revert H. unfold action.
    destruct (pr_number_rejected arg); [| reflexivity].
    intros [H | []]. discriminate. }
  destruct arg as [s |]; [| vm_compute in Ha; discriminate].
  exists s. split; [reflexivity |]. apply accepted_iff in Ha. tauto.
Qed.

(** C8. A run that creates a branch has deleted the branch of that name
    in the call just before. The name is [manual-bp/], the user login,
    [/pr/], the PR number in decimal, [/branch/] and the chosen target
    branch: two runs that agree on the three create the same branch, and
    two runs that create the same branch and agree on two of the three
    agree on the third. *)
Theorem backport_branch_name (w w' : world) (arg arg' : option jsstring)
    (b b' : jsstring) :
  In (create_branch b) (action w arg) ->
  In (create_branch b') (action w' arg') ->
  (exists pre post,
     action w arg = pre ++ delete_branch b :: create_branch b :: post)
  /\ b = js "manual-bp/" ++ user_login w ++ js "/pr/"
         ++ number_to_string (parseInt (interpolate arg))
         ++ js "/branch/" ++ chosen_branch w arg
  /\ (user_login w = user_login w' ->
      parseInt (interpolate arg) = parseInt (interpolate arg') ->
      chosen_branch w arg = chosen_branch w' arg' ->
      b = b')
  /\ (b = b' ->
      (parseInt (interpolate arg) = parseInt (interpolate arg') ->
       chosen_branch w arg = chosen_branch w' arg' ->
       user_login w = user_login w')
      /\ (user_login w = user_login w' ->
          chosen_branch w arg = chosen_branch w' arg' ->
          parseInt (interpolate arg) = parseInt (interpolate arg'))
      /\ (user_login w = user_login w' ->
          parseInt (interpolate arg) = parseInt (interpolate arg') ->
          chosen_branch w arg = chosen_branch w' arg')).
Proof.
  intros H H'.
  destruct (create_accepted _ _ _ H) as (s & -> & Hs).
  destruct (create_accepted _ _ _ H') as (s' & -> & Hs').
  apply action_create in H as (E & Hshape).
  apply action_create in H' as (E' & _).
  unfold manualBpBranch in E, E'. cbn [interpolate] in *.
  split; [exact Hshape |]. split; [exact E |]. split.
  - intros Hl Hn Ht. rewrite E, E', Hl, Hn, Ht. reflexivity.
  - intros Hb. rewrite E, E' in Hb. apply app_inv_head in Hb.
    split; [| split].
    + intros Hn Ht. rewrite Hn, Ht in Hb.
      apply app_inv_tail in Hb. exact Hb.
    + intros Hl Ht. rewrite Hl, Ht in Hb.
      apply app_inv_head, app_inv_head, app_inv_tail in Hb. congruence.
    + intros Hl Hn. rewrite Hl, Hn in Hb.
      do 4 apply app_inv_head in Hb. exact Hb.
Qed.

Lemma backport_branch_name_witness :
  js "manual-bp/octocat/pr/42/branch/12-x-y"
  = js "manual-bp/" ++ user_login (sample_world []) ++ js "/pr/"
    ++ number_to_string (parseInt (interpolate (Some (js "42"))))
    ++ js "/branch/" ++ chosen_branch (sample_world []) (Some (js "42"))
  /\ exists pre post,
       action (sample_world []) (Some (js "42"))
       = pre ++ delete_branch (js "manual-bp/octocat/pr/42/branch/12-x-y")
             :: create_branch (js "manual-bp/octocat/pr/42/branch/12-x-y")
             :: post.
Proof.
  destruct (backport_branch_name (sample_world []) (sample_world [])
              (Some (js "42")) (Some (js "42"))
              (js "manual-bp/octocat/pr/42/branch/12-x-y")
              (js "manual-bp/octocat/pr/42/branch/12-x-y"))
    as (Hshape & Hname & _).
  - vm_compute. tauto.
  - vm_compute. tauto.
  - split; [exact Hname | exact Hshape].
Defined.

End BackportSpec.

(* ===================================================================== *)
(** * The goma provisioner: properties                                    *)
(* ===================================================================== *)

Module GomaSpec.

Import JS JSFacts Goma.
Local Open Scope Z_scope.

(** Evaluate the calls of the monad and of the file system, and nothing
    else. *)
Ltac msimpl :=
  cbv beta iota zeta delta
      [bind ret emit get_files put_files throw process_exit fatal try_catch
       existsSync readFileSync writeFileSync mkdirSync unlinkSync rimraf_sync
       date_now exec_goma_ctl_stop spawn_download spawn_tar unzipSync
       exec_goma_auth_info spawn_goma_auth_login spawn_gomacc_port
       exec_goma_ctl_ensure_start initial
       path_exists file_contents write_file remove make_dir in_goma_dir
       set_goma_dir extracted present option_map negb andb orb
       empty_third_party empty_goma_dir];
  cbn [fst snd files trace now_reads
       goma_gn tmp_download goma_dir sha_file login_file goma_ctl_py].

(** ** Relations that hold step by step *)

Section Steps.
Context (R : state -> state -> Prop).
Hypothesis R_refl : forall s, R s s.
Hypothesis R_trans : forall a b c, R a b -> R b c -> R a c.

Lemma steps_ret {A} (a : A) : steps R (ret a).
Proof. intros s. apply R_refl. Qed.

Lemma steps_throw {A} e : steps R (@throw A e).
Proof. intros s. apply R_refl. Qed.

Lemma steps_exit {A} c : steps R (@process_exit A c).
Proof. intros s. apply R_refl. Qed.

Lemma steps_fatal {A} msg : steps R (@fatal A msg).
Proof. intros s. apply R_refl. Qed.

Lemma steps_bind {A B} (m : M A) (k : A -> M B) :
  steps R m -> (forall a, steps R (k a)) -> steps R (bind m k).
Proof.
  intros Hm Hk s. unfold bind. specialize (Hm s).
  destruct (m s) as [[a | e | c | msg] s1]; cbn [snd] in *; try assumption.
  eapply R_trans; [exact Hm | apply Hk].
Qed.

Lemma steps_try_catch {A} (m h : M A) :
  steps R m -> steps R h -> steps R (try_catch m h).
Proof.
  intros Hm Hh s. unfold try_catch. specialize (Hm s).
  destruct (m s) as [[a | e | c | msg] s1]; cbn [snd] in *; try assumption.
  eapply R_trans; [exact Hm | apply Hh].
Qed.

Lemma steps_get_files : steps R get_files.
Proof. intros s. apply R_refl. Qed.
End Steps.

Lemma emitting_refl P s : emitting P s s.
Proof. exists []. split; [symmetry; apply app_nil_r | constructor]. Qed.

Lemma emitting_trans P a b c : emitting P a b -> emitting P b c -> emitting P a c.
Proof.
  intros (e1 & E1 & H1) (e2 & E2 & H2). exists (e1 ++ e2). split.
  - rewrite E2, E1, app_assoc. reflexivity.
  - apply Forall_app. split; assumption.
Qed.



(** One event, the files and the clock untouched. *)
Lemma emitting_one (P : event -> Prop) s e f n :
  P e ->
  emitting P s {| files := f; now_reads := n; trace := trace s ++ [e] |}.
Proof. intros H. exists [e]. split; [reflexivity | constructor; [exact H | constructor]]. Qed.

Lemma emitting_none (P : event -> Prop) s f n :
  emitting P s {| files := f; now_reads := n; trace := trace s |}.
Proof. exists []. split; [symmetry; apply app_nil_r | constructor]. Qed.

(** Case analysis on what the evaluation is stuck on: a variable or an
    answer of the outside. *)
Ltac case_stuck :=
  match goal with
  | |- context [match ?x with _ => _ end] => is_var x; destruct x
  | |- context [match ?x with _ => _ end] =>
      lazymatch x with
      | bool_decide _ => destruct x
      | stop_ok _ => destruct x
      | downloaded _ => destruct x
      | unzip_ok _ => destruct x
      | auth_info _ => destruct x
      | ensure_start_ok _ => destruct x
      end
  end.

(** The calls that make up a function, decided one by one. *)
Ltac steps_prim :=
  let s := fresh "s" in
  intros s; msimpl;
  repeat (case_stuck; msimpl);
  first [ apply emitting_refl
        | apply emitting_none
        | apply emitting_one;
          first [ reflexivity | exact I
                | split; [reflexivity | discriminate] ] ].

Ltac steps_go refl trans :=
  repeat first
    [ apply (steps_ret _ refl)
    | apply (steps_throw _ refl)
    | apply (steps_exit _ refl)
    | apply (steps_fatal _ refl)
    | apply (steps_get_files _ refl)
    | apply (steps_bind _ trans); [| intros ?]
    | apply (steps_try_catch _ trans)
    | match goal with
      | |- steps _ (if ?b then _ else _) => destruct b
      | |- steps _ (match ?x with _ => _ end) => destruct x
      end
    | solve [steps_prim] ].

Lemma installed_is_current_no_gn_write w sha :
  steps (emitting no_gn_write) (installed_is_current w sha).
Proof.
  unfold installed_is_current, existsSync, readFileSync.
  steps_go (emitting_refl no_gn_write) (emitting_trans no_gn_write).
Qed.

Lemma redownload_no_gn_write w sha :
  steps (emitting no_gn_write) (redownload w sha).
Proof.
  unfold redownload, install_download, existsSync, readFileSync, writeFileSync,
    rimraf_sync, exec_goma_ctl_stop, spawn_download, spawn_tar, unzipSync.
  steps_go (emitting_refl no_gn_write) (emitting_trans no_gn_write).
Qed.

Lemma filter_no_gn_write evs :
  Forall no_gn_write evs -> List.filter is_gn_write evs = [].
Proof.
  induction 1 as [| e evs He _ IH]; [reflexivity |].
  simpl. rewrite He. exact IH.
Qed.

Lemma install_if_stale_no_gn_write w cfg : steps (emitting no_gn_write) (install_if_stale w cfg).
Proof.
  apply (steps_bind _ (emitting_trans no_gn_write));
    [apply installed_is_current_no_gn_write |].
  intros [|]; [apply (steps_ret _ (emitting_refl no_gn_write)) |].
  apply redownload_no_gn_write.
Qed.

Lemma install_if_stale_filter w cfg s :
  List.filter is_gn_write (trace (install_if_stale w cfg s).2)
  = List.filter is_gn_write (trace s).
Proof.
  destruct (install_if_stale_no_gn_write w cfg s) as (evs & E & H).
  rewrite E, List.filter_app, (filter_no_gn_write _ H), app_nil_r.
  reflexivity.
Qed.

Lemma download_gn_writes w cfg s :
  isSupportedPlatform w = true ->
  List.filter is_gn_write (trace (downloadAndPrepareGoma w cfg s).2)
  = List.filter is_gn_write (trace s)
    ++ (if bool_decide (file_contents (files s) GomaGnFile
                        = Some (gomaGnContents w))
        then [] else [WriteFileSync GomaGnFile (gomaGnContents w)]).
Proof.
  intros Hs. unfold downloadAndPrepareGoma. rewrite Hs. cbn [negb].
  fold (install_if_stale w cfg). unfold ensure_third_party, sync_goma_gn.
  destruct s as [[[gn tmp gd] |] n t]; msimpl.
  - destruct gn as [c |]; msimpl.
    + destruct (decide (c = gomaGnContents w)) as [-> | Hne].
      * rewrite !bool_decide_eq_true_2 by reflexivity. msimpl.
        rewrite install_if_stale_filter. msimpl.
        rewrite !List.filter_app. cbn. rewrite !app_nil_r. reflexivity.
      * rewrite (bool_decide_eq_false_2 (c = _)) by assumption.
        rewrite (bool_decide_eq_false_2 (Some c = _)) by congruence. msimpl.
        rewrite install_if_stale_filter. msimpl.
        rewrite !List.filter_app. cbn. rewrite !app_nil_r. reflexivity.
    + rewrite install_if_stale_filter. msimpl.
      rewrite !List.filter_app. cbn. rewrite !app_nil_r. reflexivity.
  - rewrite install_if_stale_filter. msimpl.
    rewrite !List.filter_app. cbn. rewrite !app_nil_r. reflexivity.
Qed.

Lemma download_unsupported w cfg s :
  isSupportedPlatform w = false ->
  downloadAndPrepareGoma w cfg s = (Done None, s).
Proof. intros H. unfold downloadAndPrepareGoma. rewrite H. reflexivity. Qed.

(** C6, as amended. When [goma.gn] holds the desired contents,
    [downloadAndPrepareGoma] does not write it; on a supported platform
    it writes the file, once and with the desired contents, when it is
    missing or holds anything else; on an unsupported platform it never
    writes it. *)
Theorem goma_gn_write_idempotent w cfg f :
  let t := trace (downloadAndPrepareGoma w cfg (initial f)).2 in
  (file_contents f GomaGnFile = Some (gomaGnContents w) -> gn_writes t = 0%nat)
  /\ (isSupportedPlatform w = true ->
      file_contents f GomaGnFile <> Some (gomaGnContents w) ->
      List.filter is_gn_write t = [WriteFileSync GomaGnFile (gomaGnContents w)])
  /\ (isSupportedPlatform w = false -> gn_writes t = 0%nat).
Proof.
  cbv zeta. split; [| split].
  - intros H. unfold gn_writes. destruct (isSupportedPlatform w) eqn:Hs.
    + rewrite download_gn_writes by assumption. cbn [initial files trace].
      rewrite bool_decide_eq_true_2 by assumption. reflexivity.
    + rewrite download_unsupported by assumption. reflexivity.
  - intros Hs H. rewrite download_gn_writes by assumption. cbn [initial files trace].
    rewrite bool_decide_eq_false_2 by assumption. reflexivity.
  - intros Hs. rewrite download_unsupported by assumption. reflexivity.
Qed.

Lemma goma_gn_write_idempotent_witness :
  List.filter is_gn_write
    (trace (downloadAndPrepareGoma (linux None true None ∅) None
              (initial None)).2)
  = [WriteFileSync GomaGnFile (gomaGnContents (linux None true None ∅))].
Proof.
  destruct (goma_gn_write_idempotent (linux None true None ∅) None None)
    as (_ & H & _).
  apply H.
  - vm_compute. reflexivity.
  - vm_compute. discriminate.
Defined.

(** C6 as it is stated fails on an unsupported platform: the file is
    missing and is not written. *)
Lemma goma_gn_not_written_on_unsupported_platform :
  isSupportedPlatform freebsd = false
  /\ file_contents None GomaGnFile = None
  /\ gn_writes (trace (downloadAndPrepareGoma freebsd None (initial None)).2)
     = 0%nat.
Proof. repeat split; reflexivity. Qed.

(** ** Unsupported platforms *)

Lemma gomaIsAuthenticated_unsupported w cfg s :
  isSupportedPlatform w = false -> gomaIsAuthenticated w cfg s = (Done false, s).
Proof. intros H. unfold gomaIsAuthenticated. rewrite H. reflexivity. Qed.

Lemma authenticateGoma_unsupported w cfg s :
  isSupportedPlatform w = false -> authenticateGoma w cfg s = (Done tt, s).
Proof. intros H. unfold authenticateGoma. rewrite H. reflexivity. Qed.

(** [ensureGomaStart] has no such guard: whatever the platform, its
    first step is to run [gomacc]. *)
Lemma ensureGomaStart_runs_gomacc w cfg s :
  exists exe evs,
    trace (ensureGomaStart w cfg s).2 = trace s ++ Run (GomaccPort exe) :: evs.
Proof.
  unfold ensureGomaStart. msimpl.
  destruct (bool_decide (gomacc_status w = Some 0)).
  - eexists _, []. reflexivity.
  - destruct (ensure_start_ok w); eexists _, [_]; msimpl;
      rewrite <- app_assoc; reflexivity.
Qed.

(** C2 at the failing input. On a platform with no entry in the checksum
    table the three guarded functions return at once (the three lemmas
    on unsupported platforms), but [ensureGomaStart] runs [gomacc] and
    then [goma_ctl.py], whose failure it throws. *)
Theorem ensureGomaStart_unsupported_runs :
  isSupportedPlatform freebsd = false
  /\ ensureGomaStart freebsd None (initial None)
     = (Thrown (ChildFailed (GomaCtlEnsureStart (start_env freebsd None) false)),
        {| files := None; now_reads := 0;
           trace := [Run (GomaccPort "gomacc");
                     Run (GomaCtlEnsureStart (start_env freebsd None) false)] |})
  /\ existsb touches_outside
       (trace (ensureGomaStart freebsd None (initial None)).2) = true.
Proof. split; [| split]; reflexivity. Qed.

(** ** The login time *)

Lemma twelve_hours_value : twelve_hours = 43200000.
Proof. reflexivity. Qed.

Lemma login_is_fresh_iff now t :
  login_is_fresh now (Some t) = true <-> now - twelve_hours < t.
Proof.
  unfold login_is_fresh. rewrite Z.ltb_lt, round_signed_lt.
  - lia.
  - rewrite twelve_hours_value. split; [lia | reflexivity].
Qed.

Example logged_in : loggedInPattern_test (js "Login as John Doe") = true.
Proof. reflexivity. Qed.

Example not_logged_in :
  loggedInPattern_test (js "Not logged in") = false
  /\ loggedInPattern_test (js "Login as JohnDoe") = false
  /\ loggedInPattern_test (js "Login as John  Doe") = false
  /\ loggedInPattern_test (js "Login as John Doe!") = false.
Proof. repeat split; reflexivity. Qed.

Example login_file_times :
  time_clip (parseInt (js "1699999999000")) = Some 1699999999000
  /\ time_clip (parseInt (js "99999999999999999999")) = None
  /\ time_clip (parseInt (js "never")) = None.
Proof. repeat split; vm_compute; reflexivity. Qed.

(** [gomaIsAuthenticated] on a supported platform, case by case. *)
Lemma gomaIsAuthenticated_fresh w cfg f c t :
  isSupportedPlatform w = true ->
  file_contents f GomaLoginFile = Some c ->
  time_clip (parseInt c) = Some t ->
  login_is_fresh (clock w 0) (Some t) = true ->
  gomaIsAuthenticated w cfg (initial f)
  = (Done true,
     {| files := f; now_reads := 1;
        trace := [ExistsSync GomaLoginFile; ReadFileSync GomaLoginFile; DateNow] |}).
Proof.
  intros Hs Hc Ht Hf. unfold gomaIsAuthenticated, getLastKnownLoginTime.
  rewrite Hs. destruct f as [[gn tmp [[sha login ctl] |]] |]; try discriminate.
  cbn in Hc. subst login. msimpl. rewrite Ht, Hf. reflexivity.
Qed.

Lemma gomaIsAuthenticated_stale w cfg f c :
  isSupportedPlatform w = true ->
  file_contents f GomaLoginFile = Some c ->
  login_is_fresh (clock w 0) (time_clip (parseInt c)) = false ->
  gomaIsAuthenticated w cfg (initial f)
  = (Done match auth_info w with
          | Some out => loggedInPattern_test (trim out)
          | None => false
          end,
     {| files := f; now_reads := 1;
        trace := [ExistsSync GomaLoginFile; ReadFileSync GomaLoginFile; DateNow;
                  Run GomaAuthInfo] |}).
Proof.
  intros Hs Hc Hf. unfold gomaIsAuthenticated, getLastKnownLoginTime.
  rewrite Hs. destruct f as [[gn tmp [[sha login ctl] |]] |]; try discriminate.
  cbn in Hc. subst login. msimpl. rewrite Hf.
  destruct (auth_info w); reflexivity.
Qed.

Lemma gomaIsAuthenticated_absent w cfg f :
  isSupportedPlatform w = true ->
  file_contents f GomaLoginFile = None ->
  gomaIsAuthenticated w cfg (initial f)
  = (Done match auth_info w with
          | Some out => loggedInPattern_test (trim out)
          | None => false
          end,
     {| files := f; now_reads := 0;
        trace := [ExistsSync GomaLoginFile; Run GomaAuthInfo] |}).
Proof.
  intros Hs Hc. unfold gomaIsAuthenticated, getLastKnownLoginTime.
  rewrite Hs. destruct f as [[gn tmp [[sha login ctl] |]] |];
    cbn in Hc; try subst login; msimpl; destruct (auth_info w); reflexivity.
Qed.

(** C4, as amended. On a supported platform, a recorded login time newer
    than twelve hours before now makes [gomaIsAuthenticated] return true
    without running anything; with no login file, or a recorded time
    older than that, it runs the status query. On an unsupported
    platform it returns false and does nothing, whatever is recorded. *)
Theorem login_freshness w cfg f :
  let r := gomaIsAuthenticated w cfg (initial f) in
  (isSupportedPlatform w = true ->
   (forall t, recorded_login f = Some t -> clock w 0 - twelve_hours < t ->
      r.1 = Done true /\ Forall no_run (trace r.2))
   /\ ((file_contents f GomaLoginFile = None
        \/ exists t, recorded_login f = Some t /\ t < clock w 0 - twelve_hours) ->
       In (Run GomaAuthInfo) (trace r.2)))
  /\ (isSupportedPlatform w = false -> r = (Done false, initial f)).
Proof.
  cbv zeta. split; [| apply gomaIsAuthenticated_unsupported].
  intros Hs. unfold recorded_login. split.
  - intros t Ht Hnew.
    destruct (file_contents f GomaLoginFile) as [c |] eqn:Hc; [| discriminate].
    rewrite (gomaIsAuthenticated_fresh w cfg f c t) by
      (try assumption; apply login_is_fresh_iff; assumption).
    split; [reflexivity |]. repeat constructor.
  - intros [Hc | (t & Ht & Hold)].
    + rewrite gomaIsAuthenticated_absent by assumption. simpl. auto.
    + destruct (file_contents f GomaLoginFile) as [c |] eqn:Hc; [| discriminate].
      rewrite (gomaIsAuthenticated_stale w cfg f c); try assumption.
      * simpl. auto.
      * rewrite Ht. destruct (login_is_fresh _ _) eqn:E; [| reflexivity].
        apply login_is_fresh_iff in E. lia.
Qed.

Lemma login_freshness_witness :
  (gomaIsAuthenticated (linux None true None ∅) None
     (initial (old_install (js "1699999999000")))).1 = Done true.
Proof.
  assert (Hs : isSupportedPlatform (linux None true None ∅) = true)
    by (vm_compute; reflexivity).
  destruct (login_freshness (linux None true None ∅) None
              (old_install (js "1699999999000"))) as [H _].
  destruct (H Hs) as [H' _].
  destruct (H' 1699999999000) as [E _];
    [vm_compute; reflexivity | vm_compute; reflexivity | exact E].
Defined.

(** C4 as it is stated fails on an unsupported platform: the recorded
    login is one second old and the answer is false. *)
Lemma fresh_login_on_unsupported_platform :
  isSupportedPlatform freebsd = false
  /\ recorded_login (old_install (js "1699999999000")) = Some 1699999999000
  /\ clock freebsd 0 - twelve_hours < 1699999999000
  /\ gomaIsAuthenticated freebsd None
       (initial (old_install (js "1699999999000")))
     = (Done false, initial (old_install (js "1699999999000"))).
Proof. repeat split; vm_compute; reflexivity. Qed.

(** C5. With no fresh login time on record, a status query that fails
    makes [gomaIsAuthenticated] return false: the call returns, it does
    not throw. *)
Theorem status_query_failure_is_false w cfg f :
  auth_info w = None ->
  (forall t, recorded_login f = Some t -> ~ clock w 0 - twelve_hours < t) ->
  (gomaIsAuthenticated w cfg (initial f)).1 = Done false.
Proof.
  intros Hq Hstale. unfold recorded_login in Hstale.
  destruct (isSupportedPlatform w) eqn:Hs;
    [| rewrite gomaIsAuthenticated_unsupported by assumption; reflexivity].
  destruct (file_contents f GomaLoginFile) as [c |] eqn:Hc.
  - rewrite (gomaIsAuthenticated_stale w cfg f c); try assumption.
    + rewrite Hq. reflexivity.
    + destruct (time_clip (parseInt c)) as [t |] eqn:Ht; [| reflexivity].
      destruct (login_is_fresh _ _) eqn:E; [| reflexivity].
      apply login_is_fresh_iff in E. destruct (Hstale t eq_refl E).
  - rewrite gomaIsAuthenticated_absent by assumption. rewrite Hq. reflexivity.
Qed.

Lemma status_query_failure_is_false_witness :
  (gomaIsAuthenticated (linux None true None ∅) None (initial None)).1
  = Done false.
Proof.
  apply (status_query_failure_is_false (linux None true None ∅) None None).
  - reflexivity.
  - intros t H. vm_compute in H. discriminate.
Defined.

(** ** The environment of the start routine *)

Lemma start_env_lookup w cfg k :
  k <> "GOMA_MAX_SUBPROCS"%string -> k <> "GOMA_MAX_SUBPROCS_LOW"%string ->
  start_env w cfg !! k = gomaEnv w cfg !! k.
Proof.
  intros H1 H2. unfold start_env, spread.
  destruct (bool_decide (platform w = "darwin"%string)).
  - rewrite lookup_union_r; [reflexivity |].
    rewrite lookup_insert_ne by congruence.
    apply lookup_singleton_ne. congruence.
  - rewrite lookup_union_r; [reflexivity | apply lookup_empty].
Qed.

Lemma gomaEnv_fallback w cfg :
  gomaEnv w cfg !! FALLBACK
  = if match cfg with
       | Some c => bool_decide (goma c = Some (js "cache-only"))
       | None => negb (truthy (env w !! "RAW_GOMA_AUTH"%string))
       end
    then Some (js "true") else None.
Proof.
  unfold gomaEnv, spread, gomaCIEnv, gomaAuthFailureEnv, FALLBACK.
  rewrite lookup_union_r.
  - destruct cfg as [c |]; cbn [present negb];
      match goal with |- context [if ?b then {[ _ := _ ]} else _] => destruct b end;
      first [apply lookup_singleton_eq | apply lookup_empty].
  - match goal with |- context [if ?b then _ else _] => destruct b end;
      [apply lookup_singleton_ne; discriminate | apply lookup_empty].
Qed.

Lemma gomaEnv_start_proxy w cfg :
  gomaEnv w cfg !! START_PROXY
  = if negb (present cfg) && truthy (env w !! "CI"%string)
    then Some (js "true") else None.
Proof.
  unfold gomaEnv, spread, gomaCIEnv, START_PROXY.
  destruct (negb (present cfg) && truthy (env w !! "CI"%string)).
  - apply lookup_union_Some_l, lookup_singleton_eq.
  - rewrite lookup_union_r by apply lookup_empty.
    unfold gomaAuthFailureEnv.
    match goal with |- context [if ?b then {[ _ := _ ]} else _] => destruct b end;
      [apply lookup_singleton_ne; discriminate | apply lookup_empty].
Qed.

Lemma if_Some_iff {A} (b : bool) (x : A) :
  (if b then Some x else None) = Some x <-> b = true.
Proof. destruct b; split; congruence. Qed.

Lemma if_None_iff {A} (b : bool) (x : A) :
  (if b then Some x else None) = None <-> b <> true.
Proof. destruct b; split; congruence. Qed.

Lemma cache_only_iff w cfg :
  cache_only w cfg
  <-> match cfg with
      | Some c => bool_decide (goma c = Some (js "cache-only"))
      | None => negb (truthy (env w !! "RAW_GOMA_AUTH"%string))
      end = true.
Proof.
  unfold cache_only. destruct cfg as [c |].
  - rewrite bool_decide_eq_true. split.
    + intros [(c' & E & H) | [E _]]; [inversion E; subst; exact H | discriminate].
    + intros H. left. eauto.
  - rewrite negb_true_iff. split.
    + intros [(c' & E & _) | [_ H]]; [discriminate | exact H].
    + intros H. right. auto.
Qed.

Lemma ci_without_config_iff w (cfg : option config) :
  cfg = None /\ truthy (env w !! "CI"%string) = true
  <-> negb (present cfg) && truthy (env w !! "CI"%string) = true.
Proof.
  rewrite andb_true_iff, negb_true_iff.
  destruct cfg; cbn [present]; intuition congruence.
Qed.

(** C9, as amended. The environment passed to the start routine holds
    the fall-back flag exactly in cache-only mode, which is: the
    configuration selects cache-only, or there is no configuration and
    RAW_GOMA_AUTH is unset or empty. It holds the auto-restart flag
    exactly when there is no configuration and CI is set to a non-empty
    value. *)
Theorem start_env_flags w cfg :
  (start_env w cfg !! FALLBACK = Some (js "true") <-> cache_only w cfg)
  /\ (start_env w cfg !! FALLBACK = None <-> ~ cache_only w cfg)
  /\ (start_env w cfg !! START_PROXY = Some (js "true")
      <-> cfg = None /\ truthy (env w !! "CI"%string) = true)
  /\ (start_env w cfg !! START_PROXY = None
      <-> ~ (cfg = None /\ truthy (env w !! "CI"%string) = true)).
Proof.
  rewrite !start_env_lookup by discriminate.
  rewrite gomaEnv_fallback, gomaEnv_start_proxy.
  rewrite cache_only_iff, ci_without_config_iff.
  rewrite !if_Some_iff, !if_None_iff. tauto.
Qed.

Lemma start_env_flags_witness :
  start_env (linux None true None {[ "CI"%string := js "true" ]}) None
    !! START_PROXY = Some (js "true").
Proof.
  destruct (start_env_flags
              (linux None true None {[ "CI"%string := js "true" ]}) None)
    as (_ & _ & [_ H] & _).
  apply H. split; [reflexivity | vm_compute; reflexivity].
Defined.

(** C9 as it is stated fails when the variables are set to the empty
    string: RAW_GOMA_AUTH is there and the fall-back flag is set, CI is
    there and the auto-restart flag is not. *)
Lemma empty_variables_count_as_unset :
  env (linux None true None empty_vars) !! "RAW_GOMA_AUTH"%string <> None
  /\ start_env (linux None true None empty_vars) None !! FALLBACK
     = Some (js "true")
  /\ env (linux None true None empty_vars) !! "CI"%string <> None
  /\ start_env (linux None true None empty_vars) None !! START_PROXY = None.
Proof. repeat split; vm_compute; congruence. Qed.

(** ** The download *)

Lemma supported_platforms w :
  isSupportedPlatform w = true ->
  In (gomaPlatform w) ["darwin"; "darwin-arm64"; "linux"; "win32"]%string.
Proof.
  unfold isSupportedPlatform.
  destruct (GOMA_PLATFORM_SHAS !! gomaPlatform w) as [v |] eqn:E; [| discriminate].
  intros _. apply elem_of_list_to_map_2 in E.
  rewrite !elem_of_cons, elem_of_nil in E. simpl.
  destruct E as [E | [E | [E | [E | []]]]]; inversion E; auto.
Qed.

Lemma supported_has_archive w :
  isSupportedPlatform w = true ->
  exists filename, archive_filenames !! gomaPlatform w = Some filename.
Proof.
  intros H. apply supported_platforms in H. simpl in H.
  destruct H as [<- | [<- | [<- | [<- | []]]]]; eexists; reflexivity.
Qed.


Lemma install_download_grows w sha filename :
  steps (emitting any_event) (install_download w sha filename).
Proof.
  unfold install_download, readFileSync, writeFileSync, rimraf_sync,
    spawn_tar, unzipSync.
  steps_go (emitting_refl any_event) (emitting_trans any_event).
Qed.


(** Up to the download, when stopping the installed client does not
    fail. *)
Lemma redownload_run w sha filename t n tr :
  archive_filenames !! gomaPlatform w = Some filename ->
  (path_exists (Some t) GomaCtlPy = true -> stop_ok w = true) ->
  exists evs,
    redownload w sha {| files := Some t; now_reads := n; trace := tr |}
    = install_download w sha filename
        {| files := Some {| goma_gn := goma_gn t; tmp_download := downloaded w;
                            goma_dir := None |};
           now_reads := n;
           trace := tr ++ evs ++ [Run (Download (download_url sha filename))] |}.
Proof.
  intros Hf Hstop. unfold redownload. rewrite Hf.
  destruct t as [gn tmp [[sf lf [|]] |]]; msimpl.
  - rewrite Hstop by reflexivity. msimpl.
    destruct (downloaded w); msimpl;
      eexists [_; _; _; _; _]; rewrite <- !app_assoc; reflexivity.
  - destruct (downloaded w); msimpl;
      eexists [_; _; _; _]; rewrite <- !app_assoc; reflexivity.
  - destruct (downloaded w); msimpl;
      eexists [_; _; _; _]; rewrite <- !app_assoc; reflexivity.
Qed.

(** The early return. *)
Lemma install_if_stale_current w cfg t n tr c :
  in_goma_dir (Some t) sha_file = Some c ->
  Some c = expected_sha w cfg ->
  truthy (env w !! "ELECTRON_FORGE_GOMA_REDOWNLOAD"%string) = false ->
  install_if_stale w cfg {| files := Some t; now_reads := n; trace := tr |}
  = (Done (expected_sha w cfg),
     {| files := Some t; now_reads := n;
        trace := tr ++ [ExistsSync GomaShaFile; ReadFileSync GomaShaFile] |}).
Proof.
  intros Hc Hsha Hflag. unfold install_if_stale, installed_is_current.
  destruct t as [gn tmp [[sf lf ctl] |]]; [| discriminate].
  cbn in Hc. subst sf. msimpl.
  rewrite bool_decide_eq_true_2 by assumption. rewrite Hflag. msimpl.
  rewrite <- !app_assoc. reflexivity.
Qed.





(** ** Recording the login time *)




Lemma download_before_login w cfg :
  steps (emitting before_login) (downloadAndPrepareGoma w cfg).
Proof.
  unfold downloadAndPrepareGoma, ensure_third_party, sync_goma_gn,
    installed_is_current, redownload, install_download, existsSync,
    readFileSync, writeFileSync, mkdirSync, rimraf_sync, exec_goma_ctl_stop,
    spawn_download, spawn_tar, unzipSync.
  steps_go (emitting_refl before_login) (emitting_trans before_login).
Qed.


Lemma authenticated_before_login w cfg :
  steps (emitting before_login) (gomaIsAuthenticated w cfg).
Proof.
  unfold gomaIsAuthenticated, getLastKnownLoginTime, existsSync, readFileSync,
    exec_goma_auth_info.
  steps_go (emitting_refl before_login) (emitting_trans before_login).
Qed.



Lemma before_login_no_login evs :
  Forall before_login evs -> ~ In (Run GomaAuthLogin) evs.
Proof.
  intros H Hin. rewrite Forall_forall in H.
  apply list_elem_of_In in Hin. destruct (H _ Hin) as [_ Hr]. congruence.
Qed.

Lemma before_login_not_write evs :
  Forall before_login evs -> Forall (fun e => is_login_write e = false) evs.
Proof.
  intros H. eapply Forall_impl; [exact H |]. intros e [Hw _]. exact Hw.
Qed.

Lemma authenticateGoma_split w cfg s :
  isSupportedPlatform w = true ->
  authenticateGoma w cfg s
  = (let* authenticated := prepare_and_check w cfg in
     if negb authenticated then login_and_record w else ret tt) s.
Proof.
  intros Hs. unfold authenticateGoma, prepare_and_check, login_and_record.
  rewrite Hs. cbn [negb]. unfold bind.
  destruct (downloadAndPrepareGoma w cfg s) as [[a | e | c | msg] s1]; reflexivity.
Qed.

Lemma prepare_and_check_before_login w cfg :
  steps (emitting before_login) (prepare_and_check w cfg).
Proof.
  apply (steps_bind _ (emitting_trans before_login));
    [apply download_before_login | intros _; apply authenticated_before_login].
Qed.







End GomaSpec.

(* ===================================================================== *)
(** * More facts about the built-ins                                    *)
(* ===================================================================== *)

Module JSMore.

Import JS JSFacts.
Local Open Scope Z_scope.

Lemma parseInt_decimal z : parseInt (decimal z) = number_of_Z z.
Proof.
  unfold decimal, number_of_Z. destruct (Z.ltb_spec z 0).
  - apply parseInt_minus_dec. lia.
  - apply parseInt_dec. assumption.
Qed.

Lemma number_of_Z_small z :
  - 2 ^ 53 < z < 2 ^ 53 -> number_of_Z z = Fin (z <? 0) (Z.abs z).
Proof.
  intros H. unfold number_of_Z. destruct (Z.ltb_spec z 0).
  - rewrite to_number_small by lia. f_equal. lia.
  - rewrite to_number_small by lia. f_equal. lia.
Qed.

Lemma number_to_string_of_Z z :
  - 2 ^ 53 < z < 2 ^ 53 -> number_to_string (number_of_Z z) = decimal z.
Proof.
  intros H. rewrite number_of_Z_small by assumption.
  unfold number_to_string, decimal.
  destruct (Z.eqb_spec (Z.abs z) 0) as [E | E].
  - assert (z = 0) by lia. subst z. reflexivity.
  - rewrite shortest_small by lia.
    assert (Hlt : (Z.abs z <? 10 ^ 21) = true) by (apply Z.ltb_lt; lia).
    rewrite Hlt. destruct (Z.ltb_spec z 0).
    + replace (Z.abs z) with (- z) by lia. reflexivity.
    + replace (Z.abs z) with z by lia. reflexivity.
Qed.

Lemma startsWith_iff s p : startsWith s p = true <-> exists r, s = p ++ r.
Proof.
  revert s. induction p as [| c p IH]; intros [| d s]; simpl.
  - split; [eauto | reflexivity].
  - split; [eauto | reflexivity].
  - split; [discriminate | intros [r E]; discriminate].
  - rewrite andb_true_iff, N.eqb_eq, IH. split.
    + intros [-> [r ->]]. eauto.
    + intros [r E]. inversion E. eauto.
Qed.

End JSMore.

(* ===================================================================== *)
(** * The backport assistant: the shape of a run                        *)
(* ===================================================================== *)

Module BackportMore.

Import JS JSFacts JSMore Backport BackportSpec.
Local Open Scope Z_scope.

(** X1. The target branches are read off the labels: [b] is offered as a
    target exactly when the PR carries the label [needs-manual-bp/b]. *)
Theorem target_branches_from_labels (pr : pull_request) (b : jsstring) :
  In b (targetBranches pr) <-> In (label_prefix ++ b) (labels pr).
Proof.
  unfold targetBranches. rewrite in_map_iff. split.
  - intros (name & <- & Hin). apply filter_In in Hin as [Hin Hs].
    apply startsWith_iff in Hs as [r ->]. exact Hin.
  - intros Hin. exists (label_prefix ++ b). split; [reflexivity |].
    apply filter_In. split; [exact Hin |]. apply startsWith_iff. eauto.
Qed.

(** The events before the git steps of a run. *)
Lemma action_cases w arg :
  let n := parseInt (interpolate arg) in
  let auth := if truthy (gh_auth_env w) then [] else [GetGitHubAuthToken] in
  (pr_number_rejected arg = true
   /\ action w arg = [Fatal (number_required_msg arg)])
  \/ (pr_number_rejected arg = false
      /\ truthy (merge_commit_sha (pulls_get w n)) = false
      /\ action w arg
         = auth ++ [UsersGetAuthenticated; PullsGet n;
                    Fatal (js "No merge SHA available on PR")])
  \/ (pr_number_rejected arg = false
      /\ truthy (merge_commit_sha (pulls_get w n)) = true
      /\ targetBranches (pulls_get w n) = []
      /\ action w arg
         = auth ++ [UsersGetAuthenticated; PullsGet n;
                    Fatal (js "The given pull request is not needing any manual backports yet")])
  \/ (pr_number_rejected arg = false
      /\ truthy (merge_commit_sha (pulls_get w n)) = true
      /\ targetBranches (pulls_get w n) <> []
      /\ action w arg
         = auth ++ [UsersGetAuthenticated; PullsGet n;
                    Prompt (targetBranches (pulls_get w n))]
           ++ git_steps w n (interpolate (merge_commit_sha (pulls_get w n)))
                (chosen_branch w arg)).
Proof.
  cbv zeta. unfold action, chosen_branch.
  destruct (pr_number_rejected arg); [left; split; reflexivity |]. right.
  destruct (merge_commit_sha (pulls_get w (parseInt (interpolate arg))))
    as [[| c sha] |]; cbn [truthy interpolate].
  - left. auto.
  - right. destruct (targetBranches _) as [| b bs] eqn:E; cbn [length Nat.eqb].
    + left. auto.
    + right. repeat split. discriminate.
  - left. auto.
Qed.

(** The four ways the git steps can go. *)
Lemma git_steps_cases w n sha target :
  let branch := manualBpBranch (user_login w) n target in
  (not_clean (git w status_args) = true
   /\ git_steps w n sha target = [Git status_args; Fatal not_clean_msg])
  \/ (status (git w [js "checkout"; target]) <> Some 0
      /\ git_steps w n sha target
         = [Git status_args; Git [js "checkout"; target];
            Fatal (js "Failed to checkout base branch")])
  \/ (status (git w [js "checkout"; target]) = Some 0
      /\ status (git w [js "pull"; js "origin"; target]) <> Some 0
      /\ git_steps w n sha target
         = [Git status_args; Git [js "checkout"; target];
            Git [js "pull"; js "origin"; target];
            Fatal (js "Failed to update base branch")])
  \/ (status (git w [js "checkout"; target]) = Some 0
      /\ status (git w [js "pull"; js "origin"; target]) = Some 0
      /\ status (git w [js "checkout"; js "-b"; branch]) <> Some 0
      /\ git_steps w n sha target
         = [Git status_args; Git [js "checkout"; target];
            Git [js "pull"; js "origin"; target];
            delete_branch branch; create_branch branch;
            Fatal (js "Failed to checkout new branch " ++ dquote ++ branch
                   ++ dquote)])
  \/ (status (git w [js "checkout"; target]) = Some 0
      /\ status (git w [js "pull"; js "origin"; target]) = Some 0
      /\ status (git w [js "checkout"; js "-b"; branch]) = Some 0
      /\ git_steps w n sha target
         = [Git status_args; Git [js "checkout"; target];
            Git [js "pull"; js "origin"; target];
            delete_branch branch; create_branch branch;
            Git [js "cherry-pick"; sha]; InfoCherryPickComplete]).
Proof.
  cbv zeta. unfold git_steps, status_is_zero. fold status_args.
  destruct (not_clean (git w status_args)); [left; auto | right].
  destruct (bool_decide_reflect (status (git w [js "checkout"; target]) = Some 0));
    cbn [negb]; [right | left; auto].
  destruct (bool_decide_reflect
              (status (git w [js "pull"; js "origin"; target]) = Some 0));
    cbn [negb]; [right | left; auto].
  destruct (bool_decide_reflect
              (status (git w [js "checkout"; js "-b";
                              manualBpBranch (user_login w) n target]) = Some 0));
    cbn [negb]; [right | left]; auto.
Qed.


Lemma git_calls_app t1 t2 : git_calls (t1 ++ t2) = git_calls t1 ++ git_calls t2.
Proof. apply flat_map_app. Qed.

Lemma git_calls_auth (b : bool) t :
  git_calls ((if b then [] else [GetGitHubAuthToken]) ++ t) = git_calls t.
Proof. destruct b; reflexivity. Qed.

(** X4. The git calls of a run are the first of the six planned calls, in
    the planned order: none is skipped, repeated or made out of turn. *)
Theorem git_calls_in_order (w : world) (arg : option jsstring) :
  exists rest, planned_git_calls w arg = git_calls (action w arg) ++ rest.
Proof.
  unfold planned_git_calls.
  destruct (action_cases w arg) as [[_ E] | [(_ & _ & E) | [(_ & _ & _ & E) | (_ & _ & _ & E)]]];
    cbv zeta in E; rewrite E; rewrite ?git_calls_auth;
    try (eexists; reflexivity).
  rewrite git_calls_app.
  destruct (git_steps_cases w (parseInt (interpolate arg))
              (interpolate (merge_commit_sha (pulls_get w (parseInt (interpolate arg)))))
              (chosen_branch w arg))
    as [[_ G] | [[_ G] | [(_ & _ & G) | [(_ & _ & _ & G) | (_ & _ & _ & G)]]]];
    cbv zeta in G; rewrite G; eexists; reflexivity.
Qed.





(** Go through the members of an explicit list. *)
Ltac in_cases H :=
  repeat (destruct H as [H | H];
          [try discriminate; try (compute in H; discriminate) |]);
  try (destruct H; fail).

Lemma in_auth_events (b : bool) (e : event) :
  In e (if b then [] else [GetGitHubAuthToken]) -> e = GetGitHubAuthToken.
Proof.
  destruct b; simpl; intros H; [destruct H | destruct H as [<- | []]].
  reflexivity.
Qed.

(** X3. The PR has no merge commit, or no label asks for a backport: the
    run ends in a fatal error before the prompt and before any git call. *)
Theorem unmerged_or_unlabelled_stops (w : world) (arg : option jsstring) :
  truthy (merge_commit_sha (pulls_get w (parseInt (interpolate arg)))) = false
  \/ targetBranches (pulls_get w (parseInt (interpolate arg))) = [] ->
  Forall (fun e => asks_or_runs_git e = false) (action w arg)
  /\ exists pre msg, action w arg = pre ++ [Fatal msg].
Proof.
  intros H.
  assert (Ha : Forall (fun e => asks_or_runs_git e = false)
                 (if truthy (gh_auth_env w) then [] else [GetGitHubAuthToken]))
    by (destruct (truthy (gh_auth_env w)); repeat constructor).
  destruct (action_cases w arg) as [[_ E] | [(_ & _ & E) | [(_ & _ & _ & E) | (_ & Hm & Ht & _)]]];
    cbv zeta in *; try rewrite E.
  - split; [repeat constructor | exists []; eauto].
  - split; [apply Forall_app; split; [exact Ha | repeat constructor] |].
    eexists (_ ++ [_; _]), _. rewrite <- app_assoc. reflexivity.
  - split; [apply Forall_app; split; [exact Ha | repeat constructor] |].
    eexists (_ ++ [_; _]), _. rewrite <- app_assoc. reflexivity.
  - destruct H as [H | H]; congruence.
Qed.

Lemma unmerged_or_unlabelled_stops_witness :
  Forall (fun e => asks_or_runs_git e = false)
    (action (failing_world unmerged_pr []) (Some (js "42")))
  /\ exists pre msg,
       action (failing_world unmerged_pr []) (Some (js "42")) = pre ++ [Fatal msg].
Proof.
  apply (unmerged_or_unlabelled_stops (failing_world unmerged_pr [])
           (Some (js "42"))).
  left. reflexivity.
Defined.

Lemma fatal_last (auth pre : list event) (msg : jsstring) :
  exists pre' msg', auth ++ pre ++ [Fatal msg] = pre' ++ [Fatal msg'].
Proof. exists (auth ++ pre), msg. apply app_assoc. Qed.

(** X5. The base branch cannot be checked out: the run ends in a fatal
    error and its git calls are among the status query and the
    checkout, so nothing is pulled. It cannot be updated: the run ends
    in a fatal error and its git calls are among the status query, the
    checkout and the pull. Either way no git call follows the one that
    failed: no branch is deleted or created, nothing is cherry-picked. *)
Theorem failed_base_update_stops (w : world) (arg : option jsstring) :
  (status (git w [js "checkout"; chosen_branch w arg]) <> Some 0 ->
   (exists pre msg, action w arg = pre ++ [Fatal msg])
   /\ exists rest,
        [status_args; [js "checkout"; chosen_branch w arg]]
        = git_calls (action w arg) ++ rest)
  /\ (status (git w [js "pull"; js "origin"; chosen_branch w arg]) <> Some 0 ->
      (exists pre msg, action w arg = pre ++ [Fatal msg])
      /\ exists rest,
           [status_args; [js "checkout"; chosen_branch w arg];
            [js "pull"; js "origin"; chosen_branch w arg]]
           = git_calls (action w arg) ++ rest).
Proof.
  split; intros H;
    (destruct (action_cases w arg)
       as [[_ E] | [(_ & _ & E) | [(_ & _ & _ & E) | (_ & _ & _ & E)]]];
     cbv zeta in E; rewrite E; rewrite ?git_calls_auth;
     [ split; [exists [], (number_required_msg arg); reflexivity
              | eexists; reflexivity]
     | split; [apply (fatal_last _ [_; _]) | eexists; reflexivity]
     | split; [apply (fatal_last _ [_; _]) | eexists; reflexivity]
     | ]);
    rewrite git_calls_app;
    (destruct (git_steps_cases w (parseInt (interpolate arg))
                 (interpolate (merge_commit_sha
                                 (pulls_get w (parseInt (interpolate arg)))))
                 (chosen_branch w arg))
       as [[_ G] | [[_ G] | [(H1 & _ & G) | [(H1 & H2 & _) | (H1 & H2 & _)]]]];
     cbv zeta in *; try contradiction; rewrite G);
    (split; [| eexists; reflexivity]).
  - apply (fatal_last _ [_; _; _; _]).
  - apply (fatal_last _ [_; _; _; _; _]).
  - apply (fatal_last _ [_; _; _; _]).
  - apply (fatal_last _ [_; _; _; _; _]).
  - apply (fatal_last _ [_; _; _; _; _; _]).
Qed.

Lemma failed_base_update_stops_witness :
  (exists rest,
     [status_args; [js "checkout"; js "12-x-y"]]
     = git_calls (action (failing_world sample_pr [js "checkout"; js "12-x-y"])
                    (Some (js "42"))) ++ rest)
  /\ (exists rest,
        [status_args; [js "checkout"; js "12-x-y"];
         [js "pull"; js "origin"; js "12-x-y"]]
        = git_calls (action (failing_world sample_pr
                               [js "pull"; js "origin"; js "12-x-y"])
                       (Some (js "42"))) ++ rest).
Proof.
  split.
  - destruct (failed_base_update_stops
                (failing_world sample_pr [js "checkout"; js "12-x-y"])
                (Some (js "42"))) as [H _].
    apply H. vm_compute. discriminate.
  - destruct (failed_base_update_stops
                (failing_world sample_pr [js "pull"; js "origin"; js "12-x-y"])
                (Some (js "42"))) as [_ H].
    apply H. vm_compute. discriminate.
Defined.

Lemma create_in_git_steps w n sha target b :
  In (create_branch b) (git_steps w n sha target) ->
  b = manualBpBranch (user_login w) n target
  /\ ((status (git w [js "checkout"; js "-b"; b]) <> Some 0
       /\ exists pre msg,
            git_steps w n sha target = pre ++ [create_branch b; Fatal msg])
      \/ (status (git w [js "checkout"; js "-b"; b]) = Some 0
          /\ exists pre,
               git_steps w n sha target
               = pre ++ [create_branch b; Git [js "cherry-pick"; sha];
                         InfoCherryPickComplete])).
Proof.
  intros Hin. pose proof (git_steps_create _ _ _ _ _ Hin) as [-> _].
  destruct (git_steps_cases w n sha target)
    as [[_ G] | [[_ G] | [(_ & _ & G) | [(_ & _ & H & G) | (_ & _ & H & G)]]]];
    cbv zeta in *; rewrite G in *.
  - exfalso. unfold create_branch in Hin. in_cases Hin.
  - exfalso. unfold create_branch in Hin. in_cases Hin.
  - exfalso. unfold create_branch in Hin. in_cases Hin.
  - split; [reflexivity | left]. split; [exact H |].
    eexists [_; _; _; _], _. reflexivity.
  - split; [reflexivity | right]. split; [exact H |].
    eexists [_; _; _; _]. reflexivity.
Qed.

Lemma create_in_action w arg b :
  In (create_branch b) (action w arg) ->
  pr_number_rejected arg = false
  /\ exists pre sha,
       merge_commit_sha (pulls_get w (parseInt (interpolate arg))) = Some sha
       /\ action w arg
          = pre ++ git_steps w (parseInt (interpolate arg)) sha (chosen_branch w arg)
       /\ In (create_branch b)
            (git_steps w (parseInt (interpolate arg)) sha (chosen_branch w arg)).
Proof.
  intros Hin.
  destruct (action_cases w arg) as [[_ E] | [(_ & _ & E) | [(_ & _ & _ & E) | (Hr & Hm & _ & E)]]];
    cbv zeta in *; rewrite E in Hin.
  - exfalso. in_cases Hin.
  - exfalso. apply in_app_or in Hin as [Hin | Hin];
      [apply in_auth_events in Hin; discriminate | in_cases Hin].
  - exfalso. apply in_app_or in Hin as [Hin | Hin];
      [apply in_auth_events in Hin; discriminate | in_cases Hin].
  - split; [exact Hr |].
    destruct (merge_commit_sha (pulls_get w (parseInt (interpolate arg))))
      as [sha |] eqn:Es; [| discriminate].
    cbn [interpolate] in *.
    apply in_app_or in Hin as [Hin | Hin];
      [apply in_auth_events in Hin; discriminate |].
    apply in_app_or in Hin as [Hin | Hin]; [exfalso; in_cases Hin |].
    eexists _, sha. split; [reflexivity |]. split; [| exact Hin].
    rewrite E, app_assoc. reflexivity.
Qed.

(** X6. Once the new branch is there the run cherry-picks the merge commit
    and ends with the closing notice, whatever the cherry-pick answers;
    when the branch cannot be created the run ends in a fatal error
    right after the attempt. *)
Theorem cherry_pick_result_ignored (w : world) (arg : option jsstring)
    (b : jsstring) :
  In (create_branch b) (action w arg) ->
  (status (git w [js "checkout"; js "-b"; b]) = Some 0 ->
   exists pre sha,
     merge_commit_sha (pulls_get w (parseInt (interpolate arg))) = Some sha
     /\ action w arg
        = pre ++ [create_branch b; Git [js "cherry-pick"; sha];
                  InfoCherryPickComplete])
  /\ (status (git w [js "checkout"; js "-b"; b]) <> Some 0 ->
      exists pre msg, action w arg = pre ++ [create_branch b; Fatal msg]).
Proof.
  intros Hin. apply create_in_action in Hin as (_ & pre & sha & Es & E & Hin).
  apply create_in_git_steps in Hin as [_ [(Hf & pre' & msg & G) | (Hok & pre' & G)]];
    rewrite G in E; split; intros H; try contradiction.
  - exists (pre ++ pre'), msg. rewrite E, app_assoc. reflexivity.
  - exists (pre ++ pre'), sha. split; [exact Es |]. rewrite E, app_assoc. reflexivity.
Qed.

Lemma cherry_pick_result_ignored_witness :
  exists pre sha,
    merge_commit_sha (pulls_get (sample_world []) (parseInt (js "42"))) = Some sha
    /\ action (sample_world []) (Some (js "42"))
       = pre ++ [create_branch (js "manual-bp/octocat/pr/42/branch/12-x-y");
                 Git [js "cherry-pick"; sha]; InfoCherryPickComplete].
Proof.
  destruct (cherry_pick_result_ignored (sample_world []) (Some (js "42"))
              (js "manual-bp/octocat/pr/42/branch/12-x-y")) as [H _].
  - vm_compute. do 7 right. left. reflexivity.
  - apply H. reflexivity.
Defined.

(** X7. The branch that is created carries the PR number as it was typed. *)
Theorem branch_name_has_argument (w : world) (s b : jsstring) :
  In (create_branch b) (action w (Some s)) ->
  b = js "manual-bp/" ++ user_login w ++ js "/pr/" ++ s ++ js "/branch/"
      ++ chosen_branch w (Some s).
Proof.
  intros Hin. pose proof (create_in_action _ _ _ Hin) as (Hr & _).
  apply action_create in Hin as [-> _].
  assert (Ha : pr_number_accepted (Some s) = true)
    by (unfold pr_number_accepted; rewrite Hr; reflexivity).
  apply accepted_iff in Ha as [_ Ha]. unfold manualBpBranch.
  cbn [interpolate]. rewrite Ha. reflexivity.
Qed.

Lemma branch_name_has_argument_witness :
  js "manual-bp/octocat/pr/42/branch/12-x-y"
  = js "manual-bp/" ++ user_login (sample_world []) ++ js "/pr/" ++ js "42"
    ++ js "/branch/" ++ chosen_branch (sample_world []) (Some (js "42")).
Proof.
  apply (branch_name_has_argument (sample_world []) (js "42")
           (js "manual-bp/octocat/pr/42/branch/12-x-y")).
  vm_compute. do 7 right. left. reflexivity.
Defined.

Lemma no_token_in_git_steps w n sha target :
  ~ In GetGitHubAuthToken (git_steps w n sha target).
Proof.
  intros Hin.
  destruct (git_steps_cases w n sha target)
    as [[_ G] | [[_ G] | [(_ & _ & G) | [(_ & _ & _ & G) | (_ & _ & _ & G)]]]];
    cbv zeta in *; rewrite G in Hin; unfold delete_branch, create_branch in Hin;
    in_cases Hin.
Qed.

(** X2. With a valid PR number, the stored or interactive credential is
    asked for exactly when ELECTRON_BUILD_TOOLS_GH_AUTH is unset or
    empty. *)
Theorem token_requested_without_override (w : world) (arg : option jsstring) :
  pr_number_accepted arg = true ->
  In GetGitHubAuthToken (action w arg) <-> truthy (gh_auth_env w) = false.
Proof.
  unfold pr_number_accepted. rewrite negb_true_iff. intros Hr.
  assert (Hgen : forall l, ~ In GetGitHubAuthToken l ->
            In GetGitHubAuthToken
              ((if truthy (gh_auth_env w) then [] else [GetGitHubAuthToken]) ++ l)
            <-> truthy (gh_auth_env w) = false).
  { intros l Hl. rewrite in_app_iff. destruct (truthy (gh_auth_env w)); simpl.
    - split; [intros [[] | H]; contradiction | discriminate].
    - split; [reflexivity | auto]. }
  destruct (action_cases w arg) as [[Hr' _] | [(_ & _ & E) | [(_ & _ & _ & E) | (_ & _ & _ & E)]]];
    cbv zeta in *; [congruence | | |]; rewrite E; apply Hgen.
  - intros H. in_cases H.
  - intros H. in_cases H.
  - intros H. apply in_app_or in H as [H | H]; [in_cases H |].
    exact (no_token_in_git_steps _ _ _ _ H).
Qed.

Lemma token_requested_without_override_witness :
  In GetGitHubAuthToken (action (failing_world sample_pr []) (Some (js "42")))
  <-> truthy (gh_auth_env (failing_world sample_pr [])) = false.
Proof.
  apply (token_requested_without_override (failing_world sample_pr [])
           (Some (js "42"))).
  vm_compute. reflexivity.
Defined.

End BackportMore.

(* ===================================================================== *)
(** * The goma provisioner: installs and logins                         *)
(* ===================================================================== *)

Module GomaMore.

Import JS JSFacts JSMore Goma GomaSpec.
Local Open Scope Z_scope.

Lemma time_clip_of_Z z :
  - max_time <= z <= max_time -> time_clip (number_of_Z z) = Some z.
Proof.
  unfold max_time. intros H. rewrite number_of_Z_small by lia.
  unfold time_clip. destruct (Z.ltb_spec 8640000000000000 (Z.abs z)); [lia |].
  f_equal. destruct (Z.ltb_spec z 0); lia.
Qed.

Lemma login_time_parses z :
  - max_time <= z <= max_time ->
  time_clip (parseInt (number_to_string (number_of_Z z))) = Some z.
Proof.
  intros H. rewrite number_to_string_of_Z by (unfold max_time in H; lia).
  rewrite parseInt_decimal. apply time_clip_of_Z. assumption.
Qed.

(** X16. The time that [recordGomaLoginTime] writes is the one that
    [getLastKnownLoginTime] reads back: with the install directory in
    place and a clock inside the range of a Date, recording and then
    reading gives the reading of the clock. *)
Theorem login_time_round_trip (w : world) (s : state) :
  path_exists (files s) GomaDir = true ->
  - max_time <= clock w (now_reads s) <= max_time ->
  ((let* _ := recordGomaLoginTime w in getLastKnownLoginTime) s).1
  = Done (Some (Some (clock w (now_reads s)))).
Proof.
  intros Hd Hc. unfold recordGomaLoginTime, getLastKnownLoginTime.
  destruct s as [[[gn tmp [[sf lf ctl] |]] |] n tr]; try discriminate.
  msimpl. cbn [now_reads] in Hc. rewrite login_time_parses by assumption.
  reflexivity.
Qed.

Lemma login_time_round_trip_witness :
  ((let* _ := recordGomaLoginTime (linux None true None ∅) in
    getLastKnownLoginTime) (initial (old_install (js "1000")))).1
  = Done (Some (Some 1700000000000)).
Proof.
  apply (login_time_round_trip (linux None true None ∅)
           (initial (old_install (js "1000")))).
  - reflexivity.
  - vm_compute. split; discriminate.
Defined.

(** X17. [clearGomaLoginTime] never fails: it returns, the login file is
    gone afterwards, and every other file and directory is as it was. *)
Theorem clear_login_time_total (s : state) :
  exists s',
    clearGomaLoginTime s = (Done tt, s')
    /\ path_exists (files s') GomaLoginFile = false
    /\ forall p, p <> GomaLoginFile ->
         file_contents (files s') p = file_contents (files s) p
         /\ path_exists (files s') p = path_exists (files s) p.
Proof.
  unfold clearGomaLoginTime.
  destruct s as [[[gn tmp [[sf [lf |] ctl] |]] |] n tr]; msimpl;
    (eexists; split; [reflexivity |]; split; [reflexivity |]);
    intros [] Hp; try congruence; split; reflexivity.
Qed.

(** X18. [recordGomaLoginTime] does not create the install directory: when
    it is missing the write fails with ENOENT and no file has changed. *)
Theorem record_login_time_needs_install (w : world) (s : state) :
  path_exists (files s) GomaDir = false ->
  (recordGomaLoginTime w s).1 = Thrown (ENOENT GomaLoginFile)
  /\ files (recordGomaLoginTime w s).2 = files s.
Proof.
  unfold recordGomaLoginTime.
  destruct s as [[[gn tmp [[sf lf ctl] |]] |] n tr]; msimpl;
    try discriminate; intros _; split; reflexivity.
Qed.

Lemma record_login_time_needs_install_witness :
  (recordGomaLoginTime (linux None true None ∅) (initial None)).1
  = Thrown (ENOENT GomaLoginFile)
  /\ files (recordGomaLoginTime (linux None true None ∅) (initial None)).2
     = files (initial None).
Proof.
  apply (record_login_time_needs_install (linux None true None ∅) (initial None)).
  reflexivity.
Defined.

(** X19. [gomaIsAuthenticated] always answers: it returns a boolean, throws
    nothing, and leaves every file as it was. *)
Theorem authenticated_check_total (w : world) (cfg : option config) (s : state) :
  exists b s',
    gomaIsAuthenticated w cfg s = (Done b, s')
    /\ files s' = files s.
Proof.
  unfold gomaIsAuthenticated, getLastKnownLoginTime.
  destruct (isSupportedPlatform w); cbn [negb]; [| eexists _, _; split; reflexivity].
  destruct s as [[[gn tmp [[sf [lf |] ctl] |]] |] n tr]; msimpl;
    try (destruct (login_is_fresh _ _); msimpl);
    destruct (auth_info w); msimpl; eexists _, _; split; reflexivity.
Qed.

(** The general form of the check on a login that is recent. *)
Lemma gomaIsAuthenticated_fresh_at w cfg s c t :
  isSupportedPlatform w = true ->
  file_contents (files s) GomaLoginFile = Some c ->
  time_clip (parseInt c) = Some t ->
  clock w (now_reads s) - twelve_hours < t ->
  gomaIsAuthenticated w cfg s
  = (Done true,
     {| files := files s; now_reads := S (now_reads s);
        trace := trace s ++ [ExistsSync GomaLoginFile;
                             ReadFileSync GomaLoginFile; DateNow] |}).
Proof.
  intros Hs Hc Ht Hf. apply login_is_fresh_iff in Hf.
  unfold gomaIsAuthenticated, getLastKnownLoginTime. rewrite Hs.
  destruct s as [[[gn tmp [[sha login ctl] |]] |] n tr]; try discriminate.
  cbn in Hc. subst login. cbn [now_reads] in Hf. msimpl. rewrite Ht, Hf.
  rewrite <- !app_assoc. reflexivity.
Qed.

(** X20. A login that was just recorded is honoured: on a supported
    platform, when less than twelve hours pass between recording the
    time and the check, [gomaIsAuthenticated] answers true and runs
    nothing. *)
Theorem recorded_login_is_honoured (w : world) (cfg : option config) (s : state) :
  isSupportedPlatform w = true ->
  path_exists (files s) GomaDir = true ->
  - max_time <= clock w (now_reads s) <= max_time ->
  clock w (S (now_reads s)) - clock w (now_reads s) < twelve_hours ->
  exists evs s',
    (let* _ := recordGomaLoginTime w in gomaIsAuthenticated w cfg) s
    = (Done true, s')
    /\ trace s' = trace s ++ evs /\ Forall no_run evs.
Proof.
  intros Hs Hd Hc Hlt. unfold bind, recordGomaLoginTime at 1.
  destruct s as [[[gn tmp [[sf lf ctl] |]] |] n tr]; try discriminate.
  msimpl. cbn [now_reads] in *.
  erewrite gomaIsAuthenticated_fresh_at;
    [| exact Hs | reflexivity | apply login_time_parses; exact Hc
     | cbn [now_reads]; lia].
  eexists [_; _; _; _; _], _. split; [reflexivity |].
  cbn [trace]. split; [rewrite <- !app_assoc; reflexivity |].
  repeat constructor.
Qed.

Lemma recorded_login_is_honoured_witness :
  exists evs s',
    (let* _ := recordGomaLoginTime (linux None true None ∅) in
     gomaIsAuthenticated (linux None true None ∅) None)
      (initial (old_install (js "1000")))
    = (Done true, s')
    /\ trace s' = trace (initial (old_install (js "1000"))) ++ evs
    /\ Forall no_run evs.
Proof.
  apply (recorded_login_is_honoured (linux None true None ∅) None
           (initial (old_install (js "1000")))).
  - vm_compute. reflexivity.
  - reflexivity.
  - vm_compute. split; discriminate.
  - vm_compute. reflexivity.
Defined.

(** ** The download, step by step *)

(** Case analysis on what the evaluation is stuck on, the case kept as
    an equation. *)
Ltac split_stuck :=
  match goal with
  | |- context [match ?x with _ => _ end] =>
      first
        [ is_var x; destruct x
        | lazymatch x with
          | context [match _ with _ => _ end] => fail
          | _ => destruct x eqn:?
          end ]
  end.

Lemma no_run_not_extract evs :
  Forall no_run evs -> Forall (fun e => is_extract e = false) evs.
Proof.
  intros H. eapply Forall_impl; [exact H |].
  intros [] He; try reflexivity; discriminate.
Qed.

(** The first two statements, with what they leave in [goma.gn]. *)
Lemma prepare_writes_gn w s B (k : M B) :
  exists evs,
    Forall (fun e => is_prepare e = true) evs
    /\ (file_contents (files s) GomaGnFile = Some (gomaGnContents w) ->
        Forall (fun e => is_read e = true) evs)
    /\ (let* _ := ensure_third_party in let* _ := sync_goma_gn w in k) s
       = k {| files := Some {| goma_gn := Some (gomaGnContents w);
                               tmp_download := file_contents (files s) TmpDownload;
                               goma_dir := match files s with
                                           | Some t => goma_dir t
                                           | None => None
                                           end |};
              now_reads := now_reads s;
              trace := trace s ++ evs |}.
Proof.
  unfold ensure_third_party, sync_goma_gn.
  destruct s as [[[gn tmp gd] |] n t]; msimpl.
  - destruct gn as [c |]; msimpl.
    + destruct (decide (c = gomaGnContents w)) as [-> | Hne].
      * rewrite bool_decide_eq_true_2 by reflexivity. msimpl.
        eexists [_; _; _]. rewrite <- !app_assoc.
        split; [| split; [| reflexivity]];
          [repeat constructor | intros _; repeat constructor].
      * rewrite bool_decide_eq_false_2 by assumption. msimpl.
        eexists [_; _; _; _; _]. rewrite <- !app_assoc.
        split; [| split; [| reflexivity]];
          [repeat constructor | intros E; congruence].
    + eexists [_; _; _; _]. rewrite <- !app_assoc.
      split; [| split; [| reflexivity]]; [repeat constructor | discriminate].
  - eexists [_; _; _; _; _]. rewrite <- !app_assoc.
    split; [| split; [| reflexivity]]; [repeat constructor | discriminate].
Qed.

Lemma prepare_no_run evs :
  Forall (fun e => is_prepare e = true) evs -> Forall no_run evs.
Proof.
  intros H. eapply Forall_impl; [exact H |].
  intros [] He; try reflexivity; discriminate.
Qed.

Lemma prepare_no_sha_write evs :
  Forall (fun e => is_prepare e = true) evs ->
  Forall (fun e => is_sha_write e = false) evs.
Proof.
  intros H. eapply Forall_impl; [exact H |].
  intros [] He; try reflexivity. destruct p; try reflexivity; discriminate.
Qed.

Lemma read_no_sha_write evs :
  Forall (fun e => is_read e = true) evs ->
  Forall (fun e => is_sha_write e = false) evs.
Proof.
  intros H. eapply Forall_impl; [exact H |].
  intros [] He; try reflexivity; discriminate.
Qed.

Lemma no_sha_write_not_in evs data :
  Forall (fun e => is_sha_write e = false) evs ->
  ~ In (WriteFileSync GomaShaFile data) evs.
Proof.
  intros H Hin. rewrite Forall_forall in H.
  apply list_elem_of_In in Hin. specialize (H _ Hin). discriminate.
Qed.

(** The test of the early return. *)
Lemma installed_is_current_run w sha s :
  exists evs,
    Forall (fun e => is_read e = true) evs
    /\ installed_is_current w sha s
       = (Done (bool_decide (is_Some sha
                             /\ file_contents (files s) GomaShaFile = sha)
                && negb (truthy (env w !! REDOWNLOAD))),
          {| files := files s; now_reads := now_reads s;
             trace := trace s ++ evs |}).
Proof.
  unfold installed_is_current, REDOWNLOAD.
  destruct s as [[[gn tmp [[[c |] lf ctl] |]] |] n tr]; msimpl.
  - exists [ExistsSync GomaShaFile; ReadFileSync GomaShaFile].
    rewrite <- !app_assoc. split; [repeat constructor |].
    replace (bool_decide (is_Some sha /\ Some c = sha))
      with (bool_decide (Some c = sha)); [reflexivity |].
    apply bool_decide_ext. split; [intros <-; eauto | intros [_ H]; exact H].
  - exists [ExistsSync GomaShaFile]. split; [repeat constructor |].
    rewrite bool_decide_eq_false_2; [reflexivity |].
    cbn. intros [[x ->] H]. discriminate.
  - exists [ExistsSync GomaShaFile]. split; [repeat constructor |].
    rewrite bool_decide_eq_false_2; [reflexivity |].
    cbn. intros [[x ->] H]. discriminate.
  - exists [ExistsSync GomaShaFile]. split; [repeat constructor |].
    rewrite bool_decide_eq_false_2; [reflexivity |].
    cbn. intros [[x ->] H]. discriminate.
Qed.

(** Prove a property of every event of an explicit list. *)
Ltac each_event tac :=
  repeat (match goal with
          | |- Forall _ (_ :: _) => constructor; [tac tt |]
          end);
  try (match goal with |- Forall _ [] => constructor end).

Ltac run_redownload :=
  unfold redownload, install_download; msimpl;
  repeat (split_stuck; msimpl);
  try match goal with
      | H : true = false |- _ => discriminate H
      | H : false = true |- _ => discriminate H
      end.

Lemma verified_intro w sha h :
  downloaded w = Some h -> bool_decide (Some h = sha) = true -> verified w sha.
Proof.
  intros Hd Hb. apply bool_decide_eq_true in Hb. exists h. split; congruence.
Qed.

(** Whatever [redownload] does, it unpacks no archive but one that
    hashes to the checksum. *)
Lemma redownload_extract w sha t n tr :
  exists evs,
    trace (redownload w sha {| files := Some t; now_reads := n; trace := tr |}).2
    = tr ++ evs
    /\ Forall (fun e => is_extract e = true -> verified w sha) evs.
Proof.
  destruct t as [gn tmp [[sf lf ctl] |]]; run_redownload;
    (eexists; split; [rewrite <- ?app_assoc; reflexivity |]);
    cbn [app]; each_event ltac:(fun _ =>
      intros ?; first [discriminate | eapply verified_intro; eassumption]).
Qed.

(** When [redownload] returns, the verified archive is installed. *)
Lemma redownload_done w sha t n tr a s' :
  redownload w sha {| files := Some t; now_reads := n; trace := tr |}
  = (Done a, s') ->
  a = sha /\ verified w sha
  /\ files s' = Some {| goma_gn := goma_gn t; tmp_download := None;
                        goma_dir := Some (fresh_install sha) |}.
Proof.
  destruct t as [gn tmp [[sf lf ctl] |]]; run_redownload;
    intros H; inversion H; subst; clear H;
    (split; [reflexivity |]; split;
     [eapply verified_intro; eassumption | reflexivity]).
Qed.

Lemma extract_ok_weaken w sha evs :
  Forall (fun e => is_extract e = false) evs ->
  Forall (fun e => is_extract e = true -> verified w sha) evs.
Proof.
  intros H. eapply Forall_impl; [exact H |]. intros e He E. congruence.
Qed.

Lemma read_not_extract evs :
  Forall (fun e => is_read e = true) evs ->
  Forall (fun e => is_extract e = false) evs.
Proof.
  intros H. eapply Forall_impl; [exact H |].
  intros [] He; try reflexivity; discriminate.
Qed.

Lemma downloadAndPrepareGoma_supported w cfg s :
  isSupportedPlatform w = true ->
  downloadAndPrepareGoma w cfg s
  = (let* _ := ensure_third_party in
     let* _ := sync_goma_gn w in
     install_if_stale w cfg) s.
Proof. intros Hs. unfold downloadAndPrepareGoma. rewrite Hs. reflexivity. Qed.

(** X11. An archive is unpacked only after it was found to hash to the
    expected checksum: whatever the outcome of [downloadAndPrepareGoma],
    if it ran tar or unzip then the downloaded file had the digest the
    table gives for the platform and the source. *)
Theorem only_verified_archive_is_extracted (w : world) (cfg : option config)
    (f : fs) (e : event) :
  In e (trace (downloadAndPrepareGoma w cfg (initial f)).2) ->
  is_extract e = true ->
  exists h, downloaded w = Some h /\ expected_sha w cfg = Some h.
Proof.
  intros Hin He.
  destruct (isSupportedPlatform w) eqn:Hs;
    [| rewrite download_unsupported in Hin by assumption; destruct Hin].
  rewrite downloadAndPrepareGoma_supported in Hin by assumption.
  destruct (prepare_writes_gn w (initial f) _ (install_if_stale w cfg))
    as (evs & Hev & _ & E).
  rewrite E in Hin. clear E. apply prepare_no_run, no_run_not_extract in Hev.
  unfold install_if_stale, bind in Hin.
  match type of Hin with
  | context [installed_is_current w ?sha ?s] =>
      destruct (installed_is_current_run w sha s) as (evs1 & Hev1 & E)
  end.
  rewrite E in Hin. clear E. apply read_not_extract in Hev1.
  cbn [initial files now_reads trace app] in Hin.
  assert (Hall : Forall (fun e => is_extract e = true
                                  -> verified w (expected_sha w cfg))
                   (evs ++ evs1))
    by (apply extract_ok_weaken, Forall_app; split; assumption).
  match type of Hin with
  | context [if ?b then _ else _] => destruct b
  end.
  - cbn [ret snd trace] in Hin. rewrite Forall_forall in Hall.
    apply (Hall e); [apply list_elem_of_In; exact Hin | exact He].
  - match type of Hin with
    | context [redownload w ?sha {| files := Some ?t; now_reads := ?n; trace := ?tr |}] =>
        destruct (redownload_extract w sha t n tr) as (evs2 & E & Hev2)
    end.
    rewrite E in Hin. clear E.
    apply in_app_or in Hin as [Hin | Hin]; rewrite Forall_forall in Hall, Hev2.
    + apply (Hall e); [apply list_elem_of_In; exact Hin | exact He].
    + apply (Hev2 e); [apply list_elem_of_In; exact Hin | exact He].
Qed.

Lemma only_verified_archive_is_extracted_witness :
  exists h,
    downloaded (linux (Some linux_sha) true None ∅) = Some h
    /\ expected_sha (linux (Some linux_sha) true None ∅) None = Some h.
Proof.
  apply (only_verified_archive_is_extracted
           (linux (Some linux_sha) true None ∅) None None
           (Run (TarExtract (js "goma-linux.tgz")))).
  - vm_compute. repeat (first [left; reflexivity | right]).
  - reflexivity.
Defined.

(** What [install_if_stale] leaves when it returns. *)
Lemma install_if_stale_done w cfg t n tr a s' :
  install_if_stale w cfg {| files := Some t; now_reads := n; trace := tr |}
  = (Done a, s') ->
  exists c t',
    a = Some c /\ expected_sha w cfg = Some c
    /\ files s' = Some t' /\ goma_gn t' = goma_gn t
    /\ file_contents (Some t') GomaShaFile = Some c.
Proof.
  unfold install_if_stale, bind.
  destruct (installed_is_current_run w (expected_sha w cfg)
              {| files := Some t; now_reads := n; trace := tr |})
    as (evs & _ & ->).
  cbn [files now_reads trace].
  destruct (bool_decide _) eqn:Hcur; cbn [andb].
  - apply bool_decide_eq_true in Hcur as [[c Hc] Hf].
    destruct (negb _); cbn [ret].
    + intros H. inversion H; subst; clear H. exists c, t.
      cbn [files]. rewrite <- Hc. auto.
    + intros H. apply redownload_done in H as (-> & (h & _ & Hh) & ->).
      eexists c, _. rewrite Hh in *. inversion Hc; subst.
      repeat split; reflexivity.
  - intros H. apply redownload_done in H as (-> & (h & _ & Hh) & ->).
    eexists h, _. rewrite Hh. repeat split; reflexivity.
Qed.

(** X9. When [downloadAndPrepareGoma] returns on a supported platform, the
    client is set up: it returns the expected checksum, the checksum
    file holds it, and [goma.gn] holds the desired contents. *)
Theorem prepared_means_installed (w : world) (cfg : option config)
    (s s' : state) (r : option jsstring) :
  isSupportedPlatform w = true ->
  downloadAndPrepareGoma w cfg s = (Done r, s') ->
  exists c,
    r = Some c /\ expected_sha w cfg = Some c
    /\ file_contents (files s') GomaShaFile = Some c
    /\ file_contents (files s') GomaGnFile = Some (gomaGnContents w).
Proof.
  intros Hs H. rewrite downloadAndPrepareGoma_supported in H by assumption.
  destruct (prepare_writes_gn w s _ (install_if_stale w cfg)) as (evs & _ & _ & E).
  rewrite E in H. clear E.
  apply install_if_stale_done in H as (c & t' & -> & Hc & Hf & Hgn & Hsha).
  exists c. rewrite Hf. cbn [goma_gn] in Hgn. cbn [file_contents].
  auto.
Qed.

Lemma prepared_means_installed_witness :
  exists c,
    Some linux_sha = Some c
    /\ expected_sha (linux (Some linux_sha) true None ∅) None = Some c
    /\ file_contents
         (files (downloadAndPrepareGoma (linux (Some linux_sha) true None ∅)
                   None (initial None)).2) GomaShaFile = Some c
    /\ file_contents
         (files (downloadAndPrepareGoma (linux (Some linux_sha) true None ∅)
                   None (initial None)).2) GomaGnFile
       = Some (gomaGnContents (linux (Some linux_sha) true None ∅)).
Proof.
  apply (prepared_means_installed (linux (Some linux_sha) true None ∅) None
           (initial None)).
  - vm_compute. reflexivity.
  - vm_compute. reflexivity.
Defined.

(** X10. A second run has nothing to do: after [downloadAndPrepareGoma] has
    returned, calling it again (the force flag not set) returns the same
    value, only looks at the file system, and leaves the files alone. *)
Theorem second_run_is_quiet (w : world) (cfg : option config)
    (s s' : state) (r : option jsstring) :
  downloadAndPrepareGoma w cfg s = (Done r, s') ->
  truthy (env w !! REDOWNLOAD) = false ->
  exists evs,
    downloadAndPrepareGoma w cfg s'
    = (Done r, {| files := files s'; now_reads := now_reads s';
                  trace := trace s' ++ evs |})
    /\ Forall (fun e => is_read e = true) evs.
Proof.
  intros H Hflag. destruct (isSupportedPlatform w) eqn:Hs.
  2:{ rewrite download_unsupported in * by assumption.
      inversion H; subst. exists []. rewrite app_nil_r.
      split; [destruct s'; reflexivity | constructor]. }
  destruct (prepared_means_installed w cfg s s' r Hs H)
    as (c & -> & Hc & Hsha & Hgn).
  rewrite downloadAndPrepareGoma_supported by assumption.
  destruct (prepare_writes_gn w s' _ (install_if_stale w cfg))
    as (evs & _ & Hev & ->).
  specialize (Hev Hgn).
  destruct s' as [[[gn tmp gd] |] n tr]; [| discriminate].
  cbn [files now_reads trace file_contents] in *.
  rewrite (install_if_stale_current w cfg _ _ _ c);
    [| exact Hsha | congruence | exact Hflag].
  exists (evs ++ [ExistsSync GomaShaFile; ReadFileSync GomaShaFile]).
  rewrite Hc, <- Hgn, app_assoc. split; [reflexivity |].
  apply Forall_app. split; [exact Hev | repeat constructor].
Qed.

Lemma second_run_is_quiet_witness :
  exists evs,
    downloadAndPrepareGoma (linux (Some linux_sha) true None ∅) None
      (downloadAndPrepareGoma (linux (Some linux_sha) true None ∅) None
         (initial None)).2
    = (Done (Some linux_sha),
       {| files := files (downloadAndPrepareGoma
                            (linux (Some linux_sha) true None ∅) None
                            (initial None)).2;
          now_reads := now_reads (downloadAndPrepareGoma
                                    (linux (Some linux_sha) true None ∅) None
                                    (initial None)).2;
          trace := trace (downloadAndPrepareGoma
                            (linux (Some linux_sha) true None ∅) None
                            (initial None)).2 ++ evs |})
    /\ Forall (fun e => is_read e = true) evs.
Proof.
  apply (second_run_is_quiet (linux (Some linux_sha) true None ∅) None
           (initial None)).
  - vm_compute. reflexivity.
  - vm_compute. reflexivity.
Defined.

(** The test of the early return fails: what [install_if_stale] does
    then. *)
Lemma install_if_stale_redownload w cfg t n tr :
  file_contents (Some t) GomaShaFile <> expected_sha w cfg
  \/ truthy (env w !! REDOWNLOAD) = true ->
  exists evs,
    Forall (fun e => is_read e = true) evs
    /\ install_if_stale w cfg {| files := Some t; now_reads := n; trace := tr |}
       = redownload w (expected_sha w cfg)
           {| files := Some t; now_reads := n; trace := tr ++ evs |}.
Proof.
  intros H. unfold install_if_stale, bind.
  destruct (installed_is_current_run w (expected_sha w cfg)
              {| files := Some t; now_reads := n; trace := tr |})
    as (evs & Hev & ->).
  exists evs. split; [exact Hev |]. cbn [files now_reads trace].
  destruct H as [H | H].
  - rewrite bool_decide_eq_false_2 by (intros [_ E]; exact (H E)). reflexivity.
  - rewrite H, andb_false_r. reflexivity.
Qed.

(** X13. ELECTRON_FORGE_GOMA_REDOWNLOAD forces a new download: with the flag
    set to a non-empty value, the download is run even though the
    client on disk is the expected one. *)
Theorem redownload_flag_forces_download (w : world) (cfg : option config)
    (f : fs) :
  isSupportedPlatform w = true ->
  truthy (env w !! REDOWNLOAD) = true ->
  (path_exists f GomaCtlPy = true -> stop_ok w = true) ->
  exists filename,
    archive_filenames !! gomaPlatform w = Some filename
    /\ In (Run (Download (download_url (expected_sha w cfg) filename)))
          (trace (downloadAndPrepareGoma w cfg (initial f)).2).
Proof.
  intros Hs Hflag Hstop.
  destruct (supported_has_archive w Hs) as (filename & Hfile).
  exists filename. split; [assumption |].
  rewrite downloadAndPrepareGoma_supported by assumption.
  destruct (prepare_writes_gn w (initial f) _ (install_if_stale w cfg))
    as (evs & _ & _ & ->).
  cbn [initial files now_reads trace app].
  edestruct install_if_stale_redownload as (evs1 & _ & ->); [right; exact Hflag |].
  edestruct (redownload_run w (expected_sha w cfg) filename) as (evs2 & ->);
    [exact Hfile | destruct f as [t |]; [exact Hstop | discriminate] |].
  match goal with
  | |- context [install_download w ?sha ?fn ?s] =>
      destruct (install_download_grows w sha fn s) as (evs3 & E & _)
  end.
  rewrite E. cbn [trace]. rewrite !in_app_iff. simpl. auto.
Qed.

Lemma redownload_flag_forces_download_witness :
  exists filename,
    archive_filenames
      !! gomaPlatform (linux (Some linux_sha) true None {[ REDOWNLOAD := js "1" ]})
    = Some filename
    /\ In (Run (Download
                  (download_url
                     (expected_sha
                        (linux (Some linux_sha) true None {[ REDOWNLOAD := js "1" ]})
                        None) filename)))
          (trace (downloadAndPrepareGoma
                    (linux (Some linux_sha) true None {[ REDOWNLOAD := js "1" ]})
                    None (initial (old_install (js "1000")))).2).
Proof.
  apply (redownload_flag_forces_download
           (linux (Some linux_sha) true None {[ REDOWNLOAD := js "1" ]}) None
           (old_install (js "1000"))).
  - vm_compute. reflexivity.
  - vm_compute. reflexivity.
  - intros _. reflexivity.
Defined.



(** In [redownload] the checksum file is written last, if at all, and
    after the archive was unpacked. *)
Lemma redownload_sha_write w sha t n tr :
  exists evs,
    trace (redownload w sha {| files := Some t; now_reads := n; trace := tr |}).2
    = tr ++ evs
    /\ (Forall (fun e => is_sha_write e = false) evs
        \/ exists pre data,
             evs = pre ++ [WriteFileSync GomaShaFile data]
             /\ Forall (fun e => is_sha_write e = false) pre
             /\ Exists (fun e => is_extract e = true) pre
             /\ (redownload w sha
                   {| files := Some t; now_reads := n; trace := tr |}).1
                = Done (Some data)).
Proof.
  destruct t as [gn tmp [[sf lf ctl] |]]; run_redownload;
    (eexists; split; [rewrite <- ?app_assoc; reflexivity |]); cbn [app];
    first
      [ left; each_event ltac:(fun _ => reflexivity); fail
      | right;
        match goal with
        | |- exists pre data, ?l = @?rhs pre data /\ @?rest pre data =>
            exists (removelast l);
            match l with
            | context [WriteFileSync GomaShaFile ?d] => exists d
            end
        end;
        cbn [removelast app];
        split; [reflexivity |];
        split; [each_event ltac:(fun _ => reflexivity) |];
        split; [| reflexivity];
        repeat first [ apply Exists_cons_hd; reflexivity | apply Exists_cons_tl ] ].
Qed.

(** X12. The checksum goes on record last: [downloadAndPrepareGoma] writes
    the checksum file only as its final step, after the archive was
    unpacked, and then returns the checksum it wrote. An install that
    fails on the way leaves no checksum behind. *)
Theorem checksum_recorded_last (w : world) (cfg : option config) (f : fs)
    (data : jsstring) :
  In (WriteFileSync GomaShaFile data)
     (trace (downloadAndPrepareGoma w cfg (initial f)).2) ->
  (downloadAndPrepareGoma w cfg (initial f)).1 = Done (Some data)
  /\ exists pre,
       trace (downloadAndPrepareGoma w cfg (initial f)).2
       = pre ++ [WriteFileSync GomaShaFile data]
       /\ Exists (fun e => is_extract e = true) pre.
Proof.
  intros Hin.
  destruct (isSupportedPlatform w) eqn:Hs;
    [| rewrite download_unsupported in Hin by assumption; destruct Hin].
  revert Hin. rewrite downloadAndPrepareGoma_supported by assumption.
  destruct (prepare_writes_gn w (initial f) _ (install_if_stale w cfg))
    as (evs & Hev & _ & ->).
  unfold install_if_stale, bind.
  match goal with
  | |- context [installed_is_current w ?sha ?s] =>
      destruct (installed_is_current_run w sha s) as (evs1 & Hev1 & ->)
  end.
  cbn [initial files now_reads trace app].
  assert (Hpre : Forall (fun e => is_sha_write e = false) (evs ++ evs1))
    by (apply Forall_app; split;
        [apply prepare_no_sha_write | apply read_no_sha_write]; assumption).
  destruct (_ && _); cbn [ret snd fst trace].
  { intros Hin. destruct (no_sha_write_not_in _ _ Hpre Hin). }
  match goal with
  | |- context [redownload w ?sha {| files := Some ?t; now_reads := ?n; trace := ?tr |}] =>
      destruct (redownload_sha_write w sha t n tr)
        as (evs2 & -> & [Hno | (pre & d & -> & Hno & Hex & ->)])
  end.
  - intros Hin. apply in_app_or in Hin as [Hin | Hin];
      [destruct (no_sha_write_not_in _ _ Hpre Hin)
      | destruct (no_sha_write_not_in _ _ Hno Hin)].
  - intros Hin. apply in_app_or in Hin as [Hin | Hin];
      [destruct (no_sha_write_not_in _ _ Hpre Hin) |].
    apply in_app_or in Hin as [Hin | [Hin | []]];
      [destruct (no_sha_write_not_in _ _ Hno Hin) |].
    inversion Hin; subst. split; [reflexivity |].
    exists ((evs ++ evs1) ++ pre). split; [rewrite <- !app_assoc; reflexivity |].
    apply Exists_app. right. exact Hex.
Qed.

Lemma checksum_recorded_last_witness :
  (downloadAndPrepareGoma (linux (Some linux_sha) true None ∅) None
     (initial None)).1 = Done (Some linux_sha)
  /\ exists pre,
       trace (downloadAndPrepareGoma (linux (Some linux_sha) true None ∅) None
                (initial None)).2
       = pre ++ [WriteFileSync GomaShaFile linux_sha]
       /\ Exists (fun e => is_extract e = true) pre.
Proof.
  apply (checksum_recorded_last (linux (Some linux_sha) true None ∅) None None
           linux_sha).
  vm_compute. repeat (first [left; reflexivity | right]).
Defined.

(** ** The status query *)

Lemma word_char_below c : is_word_char c = true -> (c < 123)%N.
Proof.
  unfold is_word_char. rewrite !orb_true_iff, !andb_true_iff, !N.leb_le, N.eqb_eq.
  lia.
Qed.

Lemma word_char_not_space c : is_word_char c = true -> is_white_space c = false.
Proof.
  intros H. pose proof (word_char_below c H) as Hlt.
  assert (Hall : forallb (fun n => negb (is_word_char (N.of_nat n)
                                         && is_white_space (N.of_nat n)))
                   (seq 0 123) = true) by (vm_compute; reflexivity).
  rewrite forallb_forall in Hall.
  specialize (Hall (N.to_nat c)). rewrite N2Nat.id, H in Hall.
  rewrite <- negb_true_iff. apply Hall, in_seq. lia.
Qed.

(** Every string is a run of word characters followed by what
    [drop_word] leaves. *)
Lemma drop_word_split r :
  exists a, r = a ++ drop_word r /\ Forall (fun c => is_word_char c = true) a.
Proof.
  induction r as [| c r (a & E & Ha)]; [exists []; split; [reflexivity | constructor] |].
  cbn [drop_word]. destruct (is_word_char c) eqn:Hc.
  - exists (c :: a). split; [cbn; congruence | constructor; assumption].
  - exists []. split; [reflexivity | constructor].
Qed.

Lemma drop_word_app a r :
  Forall (fun c => is_word_char c = true) a -> drop_word (a ++ r) = drop_word r.
Proof.
  induction 1 as [| c a Hc _ IH]; [reflexivity |].
  cbn [app drop_word]. rewrite Hc. exact IH.
Qed.

Lemma drop_word_stops c r : is_word_char c = false -> drop_word (c :: r) = c :: r.
Proof. intros H. cbn [drop_word]. rewrite H. reflexivity. Qed.

Lemma drop_login_as r : drop 9 (js "Login as " ++ r) = r.
Proof. reflexivity. Qed.

(** The test of the pattern is the match of the regular expression. *)
Lemma loggedInPattern_test_spec s :
  loggedInPattern_test s = true <-> login_line s.
Proof.
  unfold loggedInPattern_test, login_line, word. split.
  - rewrite andb_true_iff, startsWith_iff. intros [[r ->] H].
    rewrite drop_login_as in H.
    destruct r as [| c r0] eqn:Er; [discriminate |]. rewrite <- Er in *.
    destruct (drop_word r) as [| sp r2] eqn:Ed; [discriminate |].
    rewrite !andb_true_iff in H. destruct H as [[Hc Hsp] H].
    destruct r2 as [| d r3] eqn:Er2; [discriminate |]. rewrite <- Er2 in *.
    rewrite andb_true_iff, Nat.eqb_eq in H. destruct H as [Hd Hlen].
    destruct (drop_word_split r) as (a & Ea & Ha).
    destruct (drop_word_split r2) as (b & Eb & Hb).
    apply nil_length_inv in Hlen. rewrite Hlen, app_nil_r in Eb. subst b.
    rewrite Ed in Ea. exists a, sp, r2. rewrite <- Ea.
    split; [reflexivity |]. split; [| split; [exact Hsp |]].
    + split; [| exact Ha]. intros ->. cbn [app] in Ea. rewrite Er in Ea.
      inversion Ea; subst. rewrite (word_char_not_space _ Hc) in Hsp. discriminate.
    + split; [| exact Hb]. rewrite Er2. discriminate.
  - intros (a & sp & b & -> & [Hne Ha] & Hsp & [Hnb Hb]).
    rewrite andb_true_iff. split; [apply startsWith_iff; eauto |].
    rewrite drop_login_as. cbv zeta.
    assert (Hnw : is_word_char sp = false).
    { destruct (is_word_char sp) eqn:E; [| reflexivity].
      rewrite (word_char_not_space _ E) in Hsp. discriminate. }
    destruct a as [| c a]; [congruence |]. inversion Ha as [| ? ? Hc Ha']; subst.
    cbn [app drop_word]. rewrite Hc, drop_word_app, drop_word_stops by assumption.
    rewrite Hsp. cbn [andb].
    destruct b as [| d b]; [congruence |]. inversion Hb as [| ? ? Hd Hb']; subst.
    rewrite Hd. cbn [andb].
    rewrite <- (app_nil_r (d :: b)).
    rewrite drop_word_app by assumption. reflexivity.
Qed.

(** The general form of the check with no recent login on record. *)
Lemma gomaIsAuthenticated_query w cfg f :
  isSupportedPlatform w = true ->
  (forall t, recorded_login f = Some t -> ~ clock w 0 - twelve_hours < t) ->
  (gomaIsAuthenticated w cfg (initial f)).1
  = Done match auth_info w with
         | Some out => loggedInPattern_test (trim out)
         | None => false
         end
  /\ In (Run GomaAuthInfo) (trace (gomaIsAuthenticated w cfg (initial f)).2).
Proof.
  intros Hs Hstale. unfold recorded_login in Hstale.
  destruct (file_contents f GomaLoginFile) as [c |] eqn:Hc.
  - rewrite (gomaIsAuthenticated_stale w cfg f c); try assumption.
    + split; [reflexivity | simpl; auto].
    + destruct (time_clip (parseInt c)) as [t |] eqn:Ht; [| reflexivity].
      destruct (login_is_fresh _ _) eqn:E; [| reflexivity].
      apply login_is_fresh_iff in E. destruct (Hstale t eq_refl E).
  - rewrite gomaIsAuthenticated_absent by assumption.
    split; [reflexivity | simpl; auto].
Qed.

(** X21. With no recent login on record (none, an old one, or a login file
    that holds no valid time) the status query decides: on a supported
    platform [gomaIsAuthenticated] runs it, and answers true exactly
    when its output, trimmed, reads [Login as], a word, one white space
    character and a word. *)
Theorem status_query_decides (w : world) (cfg : option config) (f : fs) :
  isSupportedPlatform w = true ->
  (forall t, recorded_login f = Some t -> ~ clock w 0 - twelve_hours < t) ->
  In (Run GomaAuthInfo) (trace (gomaIsAuthenticated w cfg (initial f)).2)
  /\ ((gomaIsAuthenticated w cfg (initial f)).1 = Done true
      <-> exists out, auth_info w = Some out /\ login_line (trim out)).
Proof.
  intros Hs Hstale.
  destruct (gomaIsAuthenticated_query w cfg f Hs Hstale) as [E Hin].
  split; [exact Hin |]. rewrite E. destruct (auth_info w) as [out |].
  - split.
    + intros H. exists out. split; [reflexivity |].
      apply loggedInPattern_test_spec. congruence.
    + intros (out' & Ho & Hl). inversion Ho; subst.
      apply loggedInPattern_test_spec in Hl. rewrite Hl. reflexivity.
  - split; [discriminate | intros (out & Ho & _); discriminate].
Qed.

Lemma status_query_decides_witness :
  In (Run GomaAuthInfo)
     (trace (gomaIsAuthenticated
               (linux_with_status (js "Login as John Doe" ++ newline)) None
               (initial (old_install (js "1000")))).2)
  /\ ((gomaIsAuthenticated
         (linux_with_status (js "Login as John Doe" ++ newline)) None
         (initial (old_install (js "1000")))).1 = Done true
      <-> exists out,
            auth_info (linux_with_status (js "Login as John Doe" ++ newline))
            = Some out
            /\ login_line (trim out)).
Proof.
  apply (status_query_decides
           (linux_with_status (js "Login as John Doe" ++ newline))
           None (old_install (js "1000"))).
  - vm_compute. reflexivity.
  - intros t H. vm_compute in H. injection H as <-. vm_compute. discriminate.
Defined.

(** X22. Clearing the login time forces a new check: on a supported
    platform the next [gomaIsAuthenticated] does not look at the clock
    and runs the status query. *)
Theorem cleared_login_forces_query (w : world) (cfg : option config) (s : state) :
  isSupportedPlatform w = true ->
  exists b evs s',
    (let* _ := clearGomaLoginTime in gomaIsAuthenticated w cfg) s = (Done b, s')
    /\ trace s' = trace s ++ evs
    /\ In (Run GomaAuthInfo) evs
    /\ ~ In DateNow evs.
Proof.
  intros Hs. unfold clearGomaLoginTime, gomaIsAuthenticated, getLastKnownLoginTime.
  rewrite Hs.
  destruct s as [[[gn tmp [[sf [lf |] ctl] |]] |] n tr]; msimpl;
    destruct (auth_info w); msimpl;
    (eexists _, _, _; split; [reflexivity |]; cbn [trace];
     split; [rewrite <- ?app_assoc; reflexivity |]; cbn [app]; split;
     [ repeat (first [left; reflexivity | right])
     | intros H; repeat (destruct H as [H | H]; [discriminate |]); exact H ]).
Qed.

Lemma cleared_login_forces_query_witness :
  exists b evs s',
    (let* _ := clearGomaLoginTime in
     gomaIsAuthenticated (linux None true None ∅) None)
      (initial (current_install (js "1699999999000")))
    = (Done b, s')
    /\ trace s' = trace (initial (current_install (js "1699999999000"))) ++ evs
    /\ In (Run GomaAuthInfo) evs
    /\ ~ In DateNow evs.
Proof.
  apply (cleared_login_forces_query (linux None true None ∅) None
           (initial (current_install (js "1699999999000")))).
  vm_compute. reflexivity.
Defined.

(** ** Authentication *)

(** X23. Nothing to do: on a supported platform, with the expected client
    installed, the force flag unset and a login less than twelve hours
    old on record, [authenticateGoma] returns without running any
    command and without writing the login file. *)
Theorem authenticate_when_set_up (w : world) (cfg : option config) (f : fs)
    (c : jsstring) (t : Z) :
  isSupportedPlatform w = true ->
  file_contents f GomaShaFile = Some c ->
  Some c = expected_sha w cfg ->
  truthy (env w !! REDOWNLOAD) = false ->
  recorded_login f = Some t ->
  clock w 0 - twelve_hours < t ->
  (authenticateGoma w cfg (initial f)).1 = Done tt
  /\ Forall no_run (trace (authenticateGoma w cfg (initial f)).2)
  /\ Forall (fun e => is_login_write e = false)
       (trace (authenticateGoma w cfg (initial f)).2).
Proof.
  intros Hs Hsha Hexp Hflag Hlogin Hfresh.
  enough (H : exists s',
             authenticateGoma w cfg (initial f) = (Done tt, s')
             /\ Forall no_run (trace s')
             /\ Forall (fun e => is_login_write e = false) (trace s'))
    by (destruct H as (s' & -> & H1 & H2); auto).
  destruct f as [[gn tmp gd] |]; [| discriminate].
  unfold recorded_login in Hlogin.
  destruct gd as [[sf [l |] ctl] |]; try discriminate. cbn in Hlogin.
  match goal with
  | |- context [initial ?f] =>
      assert (Hd : exists evs,
                downloadAndPrepareGoma w cfg (initial f)
                = (Done (expected_sha w cfg),
                   {| files := Some {| goma_gn := Some (gomaGnContents w);
                                       tmp_download := tmp;
                                       goma_dir := Some {| sha_file := sf;
                                                           login_file := Some l;
                                                           goma_ctl_py := ctl |} |};
                      now_reads := 0; trace := evs |})
                /\ Forall no_run evs);
      [ rewrite downloadAndPrepareGoma_supported by assumption;
        destruct (prepare_writes_gn w (initial f) _ (install_if_stale w cfg))
          as (evs & Hev & _ & ->) |]
  end.
  { cbn [initial files now_reads trace app file_contents] in *.
    rewrite (install_if_stale_current w cfg _ _ _ c);
      [| exact Hsha | exact Hexp | exact Hflag].
    eexists. split; [reflexivity |].
    apply Forall_app. split; [exact (prepare_no_run _ Hev) | repeat constructor]. }
  destruct Hd as (evs & Hd & Hev).
  match type of Hd with
  | downloadAndPrepareGoma _ _ ?s0 = _ =>
      pose proof (download_before_login w cfg s0) as (evs' & E' & Hev')
  end.
  rewrite Hd in E'. cbn [snd trace initial app] in E'. subst evs'.
  unfold authenticateGoma. rewrite Hs. cbn [negb]. unfold bind. rewrite Hd.
  rewrite (gomaIsAuthenticated_fresh_at w cfg _ l t);
    [| exact Hs | reflexivity | exact Hlogin | exact Hfresh].
  cbn [negb ret fst snd trace].
  eexists. split; [reflexivity |]. cbn [trace].
  split; apply Forall_app; split; try (repeat constructor; fail).
  - exact Hev.
  - apply before_login_not_write. exact Hev'.
Qed.

Lemma authenticate_when_set_up_witness :
  (authenticateGoma (linux None true None ∅) None
     (initial (current_install (js "1699999999000")))).1 = Done tt
  /\ Forall no_run
       (trace (authenticateGoma (linux None true None ∅) None
                 (initial (current_install (js "1699999999000")))).2)
  /\ Forall (fun e => is_login_write e = false)
       (trace (authenticateGoma (linux None true None ∅) None
                 (initial (current_install (js "1699999999000")))).2).
Proof.
  apply (authenticate_when_set_up (linux None true None ∅) None
           (current_install (js "1699999999000")) linux_sha 1699999999000).
  - vm_compute. reflexivity.
  - reflexivity.
  - vm_compute. reflexivity.
  - vm_compute. reflexivity.
  - vm_compute. reflexivity.
  - vm_compute. reflexivity.
Defined.

(** X24. A login that went through is on record: when [authenticateGoma]
    returns after having run the login, the login file holds the
    reading of the clock taken right after it, in decimal. *)
Theorem successful_login_is_recorded (w : world) (cfg : option config)
    (f : fs) (s' : state) :
  authenticateGoma w cfg (initial f) = (Done tt, s') ->
  In (Run GomaAuthLogin) (trace s') ->
  exists k,
    now_reads s' = S k
    /\ file_contents (files s') GomaLoginFile
       = Some (number_to_string (number_of_Z (clock w k))).
Proof.
  intros H Hin. destruct (isSupportedPlatform w) eqn:Hs.
  2:{ rewrite authenticateGoma_unsupported in H by assumption.
      inversion H; subst. destruct Hin. }
  rewrite authenticateGoma_split in H by assumption. unfold bind in H.
  pose proof (prepare_and_check_before_login w cfg (initial f)) as (evs & E & Hev).
  destruct (prepare_and_check w cfg (initial f)) as [[[|] | e | c | msg] s1];
    try discriminate; cbn [negb snd initial trace app] in *.
  - assert (s' = s1) by (unfold ret in H; congruence). subst s'.
    rewrite E in Hin. destruct (before_login_no_login _ Hev Hin).
  - clear Hin E Hev. revert H. unfold login_and_record, recordGomaLoginTime.
    destruct s1 as [[[gn tmp [[sf lf ctl] |]] |] n tr]; msimpl;
      destruct (bool_decide _); msimpl; intros H; try discriminate;
      inversion H; subst; clear H.
    exists n. split; reflexivity.
Qed.

Lemma successful_login_is_recorded_witness :
  exists k,
    now_reads (authenticateGoma (linux_with_status (js "Not logged in")) None
                 (initial None)).2 = S k
    /\ file_contents
         (files (authenticateGoma (linux_with_status (js "Not logged in")) None
                   (initial None)).2) GomaLoginFile
       = Some (number_to_string
                 (number_of_Z (clock (linux_with_status (js "Not logged in")) k))).
Proof.
  apply (successful_login_is_recorded (linux_with_status (js "Not logged in"))
           None None).
  - vm_compute. reflexivity.
  - vm_compute. repeat (first [left; reflexivity | right]).
Defined.

(** ** The tables *)

Lemma supported_has_sha w cfg :
  isSupportedPlatform w = true -> is_Some (expected_sha w cfg).
Proof.
  intros H. apply supported_platforms in H. simpl in H.
  unfold expected_sha. destruct cfg as [c |]; [destruct (bool_decide _) |];
    destruct H as [<- | [<- | [<- | [<- | []]]]]; eexists; reflexivity.
Qed.

Lemma redownload_no_type_error w sha filename t n tr :
  archive_filenames !! gomaPlatform w = Some filename ->
  is_Some sha ->
  (redownload w sha {| files := Some t; now_reads := n; trace := tr |}).1
  <> Thrown TypeError.
Proof.
  intros Hf [c ->]. unfold redownload. rewrite Hf.
  destruct t as [gn tmp [[sf lf ctl] |]]; run_redownload; discriminate.
Qed.

(** X15. The three tables have the same platforms: [downloadAndPrepareGoma]
    never fails for want of a checksum or of an archive name, that is,
    with a TypeError on an undefined table entry. *)
Theorem download_never_type_error (w : world) (cfg : option config) (s : state) :
  (downloadAndPrepareGoma w cfg s).1 <> Thrown TypeError.
Proof.
  destruct (isSupportedPlatform w) eqn:Hs;
    [| rewrite download_unsupported by assumption; discriminate].
  rewrite downloadAndPrepareGoma_supported by assumption.
  destruct (prepare_writes_gn w s _ (install_if_stale w cfg)) as (evs & _ & _ & ->).
  unfold install_if_stale, bind.
  match goal with
  | |- context [installed_is_current w ?sha ?s0] =>
      destruct (installed_is_current_run w sha s0) as (evs1 & _ & ->)
  end.
  cbn [files now_reads trace].
  destruct (_ && _); [discriminate |].
  destruct (supported_has_archive w Hs) as (filename & Hfile).
  apply (redownload_no_type_error _ _ filename); [exact Hfile |].
  apply supported_has_sha. exact Hs.
Qed.

(** ** The environment of the start routine *)

Lemma gomaEnv_keys w cfg k v :
  gomaEnv w cfg !! k = Some v ->
  (k = FALLBACK \/ k = START_PROXY) /\ v = js "true".
Proof.
  unfold gomaEnv, spread, gomaCIEnv, gomaAuthFailureEnv, FALLBACK, START_PROXY.
  rewrite lookup_union_Some_raw.
  intros [H | [_ H]]; revert H;
    match goal with |- context [if ?b then {[ _ := _ ]} else _] => destruct b end;
    rewrite ?lookup_empty, ?lookup_singleton_Some; try discriminate;
    intros [<- <-]; auto.
Qed.

(** X25. The environment handed to [goma_ctl.py ensure_start] holds the two
    goma flags and the two subprocess limits, and nothing else: no
    variable of the process environment is passed on. The limits are
    there on macOS only. *)
Theorem start_env_only_goma_variables (w : world) (cfg : option config)
    (k : string) (v : jsstring) :
  start_env w cfg !! k = Some v ->
  ((k = FALLBACK \/ k = START_PROXY) /\ v = js "true")
  \/ ((k = SUBPROCS \/ k = SUBPROCS_LOW) /\ platform w = "darwin"%string).
Proof.
  unfold start_env, spread. rewrite lookup_union_Some_raw.
  intros [H | [_ H]]; [| left; exact (gomaEnv_keys _ _ _ _ H)].
  right. destruct (bool_decide _) eqn:Hd; [| rewrite lookup_empty in H; discriminate].
  apply bool_decide_eq_true in Hd. split; [| exact Hd].
  apply lookup_insert_Some in H as [[<- _] | [_ H]]; [left; reflexivity |].
  apply lookup_singleton_Some in H as [<- _]. right. reflexivity.
Qed.

Lemma start_env_only_goma_variables_witness :
  ((SUBPROCS = FALLBACK \/ SUBPROCS = START_PROXY) /\ js "10" = js "true")
  \/ ((SUBPROCS = SUBPROCS \/ SUBPROCS = SUBPROCS_LOW)
      /\ platform (mac true 10) = "darwin"%string).
Proof.
  apply (start_env_only_goma_variables (mac true 10) None SUBPROCS (js "10")).
  vm_compute. reflexivity.
Defined.

(** X26. On macOS, Intel or ARM, both subprocess limits are the number of
    CPUs in decimal; on every other platform neither is set. *)
Theorem start_env_subprocs (w : world) (cfg : option config) :
  Z.of_nat (cpus w) < 2 ^ 53 ->
  start_env w cfg !! SUBPROCS
  = (if bool_decide (platform w = "darwin"%string)
     then Some (dec (Z.of_nat (cpus w))) else None)
  /\ start_env w cfg !! SUBPROCS_LOW = start_env w cfg !! SUBPROCS.
Proof.
  intros Hc.
  assert (Hn : number_to_string (number_of_Z (Z.of_nat (cpus w)))
               = dec (Z.of_nat (cpus w))).
  { rewrite number_to_string_of_Z by lia. unfold decimal.
    destruct (Z.ltb_spec (Z.of_nat (cpus w)) 0); [lia | reflexivity]. }
  assert (Hg : forall k, k = SUBPROCS \/ k = SUBPROCS_LOW -> gomaEnv w cfg !! k = None).
  { intros k Hk. destruct (gomaEnv w cfg !! k) as [v |] eqn:E; [| reflexivity].
    apply gomaEnv_keys in E as [[-> | ->] _]; destruct Hk; discriminate. }
  unfold start_env, spread. destruct (bool_decide _).
  - rewrite Hn. split.
    + apply lookup_union_Some_l, lookup_insert_eq.
    + erewrite !lookup_union_Some_l; [reflexivity | apply lookup_insert_eq |].
      rewrite lookup_insert_ne by discriminate. apply lookup_singleton_eq.
  - rewrite !lookup_union_r by apply lookup_empty.
    rewrite !Hg by auto. split; reflexivity.
Qed.

Lemma start_env_subprocs_witness :
  start_env (mac true 10) None !! SUBPROCS
  = (if bool_decide (platform (mac true 10) = "darwin"%string)
     then Some (dec (Z.of_nat (cpus (mac true 10)))) else None)
  /\ start_env (mac true 10) None !! SUBPROCS_LOW
     = start_env (mac true 10) None !! SUBPROCS.
Proof.
  apply (start_env_subprocs (mac true 10) None). vm_compute. reflexivity.
Defined.

(** ** The login time across a call of [authenticateGoma] *)












End GomaMore.
